(** * EduFlow platform: access control, usage counters and listings

    A shallow embedding of the parts of the learning-resource platform that
    carry invariants:

    - the relational schema, the [has_role] definer function, the row-level
      security policies, the foreign-key actions and the [updated_at]
      trigger of the migration
      [supabase/migrations/20251122081601_bdfac215-84be-4da1-9ba9-bf117dacfbfe.sql];
    - the client handlers of [src/pages/Dashboard.tsx] ([fetchResources],
      [filteredResources], [handleView], [handleDownload]), of the upload
      page ([getFileType], [handleUpload]) and of [src/pages/Analytics.tsx]
      (the view-trend part of [fetchAnalytics]);
    - the route guard [src/components/ProtectedRoute.tsx] and the route table
      of [src/App.tsx].

    Conventions.  UUIDs and texts are [string]s, as the TypeScript client
    sees them.  Timestamps are [Z], milliseconds since the epoch.  A table
    is the [list] of its rows in insertion order.  Values the backend draws
    from its environment ([gen_random_uuid()], [now()], [Math.random()]) are
    arguments of the operation that consumes them.  A backend statement
    returns the new database together with an error flag, because
    supabase-js reports errors in the response instead of throwing. *)

From Stdlib Require Import List String Ascii Bool ZArith Lia Permutation Sorted.
Import ListNotations.
Local Open Scope string_scope.
Local Open Scope Z_scope.

(** ** Schema *)

Definition uuid := string.
Definition timestamptz := Z.

(** [CREATE TYPE public.app_role AS ENUM ('student', 'teacher', 'admin')] *)
Inductive app_role : Type := student | teacher | admin.

Definition app_role_eqb (a b : app_role) : bool :=
  match a, b with
  | student, student | teacher, teacher | admin, admin => true
  | _, _ => false
  end.

Record user_roles_row : Type := mk_user_role {
  ur_id : uuid;
  ur_user_id : uuid;
  ur_role : app_role;
  ur_created_at : timestamptz
}.

Record profiles_row : Type := mk_profile {
  pf_id : uuid;
  pf_user_id : uuid;
  pf_full_name : option string;
  pf_avatar_url : option string;
  pf_created_at : timestamptz;
  pf_updated_at : timestamptz
}.

Record categories_row : Type := mk_category {
  cat_id : uuid;
  cat_name : string;
  cat_description : option string;
  cat_created_at : timestamptz
}.

Record resources_row : Type := mk_resource {
  id : uuid;
  title : string;
  description : option string;
  category_id : option uuid;
  file_url : string;
  file_type : string;
  file_size : option Z;
  uploaded_by : uuid;
  view_count : Z;
  download_count : Z;
  created_at : timestamptz;
  updated_at : timestamptz
}.

Record resource_views_row : Type := mk_view {
  rv_id : uuid;
  rv_resource_id : uuid;
  rv_user_id : option uuid;
  rv_viewed_at : timestamptz
}.

(** An object of [storage.objects]: bucket id and path. *)
Record storage_object : Type := mk_object {
  bucket_id : string;
  object_name : string
}.

Record database : Type := mk_db {
  auth_users : list uuid;
  user_roles : list user_roles_row;
  profiles : list profiles_row;
  categories : list categories_row;
  resources : list resources_row;
  resource_views : list resource_views_row;
  storage_objects : list storage_object
}.

(** Field updates of a resources row and of the database. *)
Definition set_view_count (v : Z) (r : resources_row) : resources_row :=
  mk_resource (id r) (title r) (description r) (category_id r) (file_url r)
    (file_type r) (file_size r) (uploaded_by r) v (download_count r)
    (created_at r) (updated_at r).

Definition set_download_count (v : Z) (r : resources_row) : resources_row :=
  mk_resource (id r) (title r) (description r) (category_id r) (file_url r)
    (file_type r) (file_size r) (uploaded_by r) (view_count r) v
    (created_at r) (updated_at r).

Definition set_category_id (c : option uuid) (r : resources_row) : resources_row :=
  mk_resource (id r) (title r) (description r) c (file_url r)
    (file_type r) (file_size r) (uploaded_by r) (view_count r) (download_count r)
    (created_at r) (updated_at r).

Definition set_updated_at (t : timestamptz) (r : resources_row) : resources_row :=
  mk_resource (id r) (title r) (description r) (category_id r) (file_url r)
    (file_type r) (file_size r) (uploaded_by r) (view_count r) (download_count r)
    (created_at r) t.

Definition with_resources (rs : list resources_row) (db : database) : database :=
  mk_db (auth_users db) (user_roles db) (profiles db) (categories db) rs
    (resource_views db) (storage_objects db).

Definition with_categories (cs : list categories_row) (db : database) : database :=
  mk_db (auth_users db) (user_roles db) (profiles db) cs (resources db)
    (resource_views db) (storage_objects db).

Definition with_resource_views (vs : list resource_views_row) (db : database) : database :=
  mk_db (auth_users db) (user_roles db) (profiles db) (categories db) (resources db)
    vs (storage_objects db).

Definition with_storage_objects (os : list storage_object) (db : database) : database :=
  mk_db (auth_users db) (user_roles db) (profiles db) (categories db) (resources db)
    (resource_views db) os.

(** The foreign key [user_roles.user_id REFERENCES auth.users(id)]. *)
Definition user_roles_fk (db : database) : Prop :=
  forall row, In row (user_roles db) -> In (ur_user_id row) (auth_users db).

(** ** The role check *)

(** [public.has_role(_user_id, _role)]:
    [SELECT EXISTS (SELECT 1 FROM user_roles WHERE user_id = _user_id AND role = _role)].
    The session's [auth.uid()] is [NULL] for an anonymous request; a
    comparison with [NULL] selects no row. *)
Definition has_role (db : database) (_user_id : option uuid) (_role : app_role) : bool :=
  match _user_id with
  | None => false
  | Some u =>
      existsb (fun row => (ur_user_id row =? u)%string && app_role_eqb (ur_role row) _role)
              (user_roles db)
  end.

Definition teacher_or_admin (db : database) (uid : option uuid) : bool :=
  has_role db uid teacher || has_role db uid admin.

(** ** Backend statements under row-level security *)

(** Policies declared [TO authenticated] apply to sessions that carry a
    user id; with row-level security enabled and no applicable policy the
    statement sees no row and may write none. *)
Definition authenticated (uid : option uuid) : bool :=
  match uid with Some _ => true | None => false end.

Definition is_uid (uid : option uuid) (u : uuid) : bool :=
  match uid with Some a => (a =? u)%string | None => false end.

(** The response of a statement: [None] is success, [Some message] an error. *)
Definition pg_error := option string.

(** [INTEGER] columns hold 32-bit signed values; a value outside the range
    makes the statement fail with "integer out of range". *)
Definition int4_ok (v : Z) : bool := (-2147483648 <=? v) && (v <=? 2147483647).

(** [SELECT * FROM resources] under policy "Everyone can view resources". *)
Definition select_resources (db : database) (uid : option uuid) : list resources_row :=
  if authenticated uid then resources db else [].

(** [SELECT viewed_at FROM resource_views] under policy
    "Teachers and admins can view analytics". *)
Definition select_resource_views (db : database) (uid : option uuid)
  : list resource_views_row :=
  if authenticated uid && teacher_or_admin db uid then resource_views db else [].

(** [.from("categories").select("name").eq("id", cid).single()]: the name
    when exactly one visible row matches, [null] otherwise. *)
Definition select_category_name (db : database) (uid : option uuid) (cid : uuid)
  : option string :=
  if authenticated uid then
    match filter (fun c => (cat_id c =? cid)%string) (categories db) with
    | [c] => Some (cat_name c)
    | _ => None
    end
  else None.

(** [.from("profiles").select("full_name").eq("user_id", u).single()]: the
    (nullable) full name when exactly one visible row matches. *)
Definition select_profile_full_name (db : database) (uid : option uuid) (u : uuid)
  : option (option string) :=
  if authenticated uid then
    match filter (fun p => (pf_user_id p =? u)%string) (profiles db) with
    | [p] => Some (pf_full_name p)
    | _ => None
    end
  else None.

Definition resource_exists (db : database) (rid : uuid) : bool :=
  existsb (fun r => (id r =? rid)%string) (resources db).

Definition category_exists (db : database) (cid : uuid) : bool :=
  existsb (fun c => (cat_id c =? cid)%string) (categories db).

Definition user_exists (db : database) (u : uuid) : bool :=
  existsb (fun a => (a =? u)%string) (auth_users db).

(** The columns the upload page sends with its insert. *)
Record resource_insert : Type := mk_resource_insert {
  ins_title : string;
  ins_description : option string;
  ins_category_id : option uuid;
  ins_file_url : string;
  ins_file_type : string;
  ins_file_size : option Z;
  ins_uploaded_by : uuid
}.

(** The row an insert produces: [id] from [gen_random_uuid()], both counters
    from [DEFAULT 0], both timestamps from [DEFAULT now()]. *)
Definition new_resource_row (new_id : uuid) (now : timestamptz) (p : resource_insert)
  : resources_row :=
  mk_resource new_id (ins_title p) (ins_description p) (ins_category_id p)
    (ins_file_url p) (ins_file_type p) (ins_file_size p) (ins_uploaded_by p)
    0 0 now now.

(** [INSERT INTO resources] under policy "Teachers can create resources",
    with the primary key and the two foreign keys of the table. *)
Definition insert_resource (db : database) (uid : option uuid)
    (new_id : uuid) (now : timestamptz) (p : resource_insert)
  : database * pg_error :=
  if negb (authenticated uid && teacher_or_admin db uid) then
    (db, Some "new row violates row-level security policy for table resources")
  else if resource_exists db new_id then
    (db, Some "duplicate key value violates unique constraint resources_pkey")
  else if match ins_category_id p with
          | Some cid => negb (category_exists db cid)
          | None => false
          end then
    (db, Some "insert on table resources violates foreign key constraint resources_category_id_fkey")
  else if negb (user_exists db (ins_uploaded_by p)) then
    (db, Some "insert on table resources violates foreign key constraint resources_uploaded_by_fkey")
  else
    (with_resources (resources db ++ [new_resource_row new_id now p]) db, None).

(** The column a dashboard update writes. *)
Inductive resource_patch : Type :=
| patch_view_count (v : Z)
| patch_download_count (v : Z).

Definition patch_value (p : resource_patch) : Z :=
  match p with patch_view_count v | patch_download_count v => v end.

Definition apply_patch (p : resource_patch) (r : resources_row) : resources_row :=
  match p with
  | patch_view_count v => set_view_count v r
  | patch_download_count v => set_download_count v r
  end.

(** Trigger [update_resources_updated_at], [BEFORE UPDATE ... FOR EACH ROW
    EXECUTE FUNCTION update_updated_at_column()]: [NEW.updated_at = now()]. *)
Definition update_updated_at_column (now : timestamptz) (new_row : resources_row)
  : resources_row :=
  set_updated_at now new_row.

(** The [USING] clause of "Teachers can update own resources":
    [auth.uid() = uploaded_by OR has_role(auth.uid(), 'admin')]. *)
Definition can_update_resource (db : database) (uid : option uuid) (r : resources_row)
  : bool :=
  authenticated uid && (is_uid uid (uploaded_by r) || has_role db uid admin).

(** [UPDATE resources SET <patch> WHERE id = rid]: rows the policy hides are
    skipped silently; each updated row passes through the trigger. *)
Definition update_resource (db : database) (uid : option uuid) (now : timestamptz)
    (rid : uuid) (p : resource_patch) : database * pg_error :=
  if negb (int4_ok (patch_value p)) then (db, Some "integer out of range")
  else
    (with_resources
       (map (fun r =>
               if (id r =? rid)%string && can_update_resource db uid r
               then update_updated_at_column now (apply_patch p r)
               else r)
            (resources db))
       db,
     None).

(** [INSERT INTO resource_views (resource_id, user_id)] under policy
    "Users can create own views" ([auth.uid() = user_id]); [id] and
    [viewed_at] take their defaults. *)
Definition insert_resource_view (db : database) (uid : option uuid)
    (new_id : uuid) (now : timestamptz) (resource_id : uuid) (user_id : option uuid)
  : database * pg_error :=
  if negb (authenticated uid &&
           match user_id with Some u => is_uid uid u | None => false end) then
    (db, Some "new row violates row-level security policy for table resource_views")
  else if existsb (fun v => (rv_id v =? new_id)%string) (resource_views db) then
    (db, Some "duplicate key value violates unique constraint resource_views_pkey")
  else if negb (resource_exists db resource_id) then
    (db, Some "insert on table resource_views violates foreign key constraint resource_views_resource_id_fkey")
  else
    (with_resource_views
       (resource_views db ++ [mk_view new_id resource_id user_id now]) db,
     None).

(** [DELETE FROM categories WHERE id = cid] under policy "Teachers and admins
    can manage categories".  For every deleted category the referential
    action of [resources.category_id ... ON DELETE SET NULL] updates the
    referencing rows; that update runs with the table owner's rights and, as
    every update of [resources], through the [updated_at] trigger. *)
Definition delete_category (db : database) (uid : option uuid) (now : timestamptz)
    (cid : uuid) : database * pg_error :=
  if authenticated uid && teacher_or_admin db uid && category_exists db cid then
    (with_resources
       (map (fun r =>
               match category_id r with
               | Some c =>
                   if (c =? cid)%string
                   then update_updated_at_column now (set_category_id None r)
                   else r
               | None => r
               end)
            (resources db))
       (with_categories
          (filter (fun c => negb (cat_id c =? cid)%string) (categories db)) db),
     None)
  else (db, None).

(** [storage.from(bucket).upload(path, file)] under policy "Teachers can
    upload learning resources"; the policy has no [TO] clause and so also
    covers anonymous sessions, for which [has_role] is false.  An upload
    without [upsert] fails when the path is taken. *)
Definition storage_upload (db : database) (uid : option uuid)
    (bucket path : string) : database * pg_error :=
  if negb ((bucket =? "learning-resources")%string && teacher_or_admin db uid) then
    (db, Some "new row violates row-level security policy")
  else if existsb (fun o => (bucket_id o =? bucket)%string && (object_name o =? path)%string)
                  (storage_objects db) then
    (db, Some "The resource already exists")
  else
    (with_storage_objects (storage_objects db ++ [mk_object bucket path]) db, None).

(** [storage.from("learning-resources").getPublicUrl(path)]; the project's
    host name is left out. *)
Definition getPublicUrl (path : string) : string :=
  "/storage/v1/object/public/learning-resources/" ++ path.

(** ** JavaScript string helpers *)

(** A text is held as its UTF-8 bytes; it is an ASCII text when every byte
    is below 128. *)
Fixpoint is_ascii (s : string) : bool :=
  match s with
  | EmptyString => true
  | String c s' => Nat.ltb (nat_of_ascii c) 128 && is_ascii s'
  end.

(** The lower-casing of an ASCII text: the capital letters, codes 65 to 90,
    become the small letters 32 codes higher, every other character stays. *)
Definition lower_ascii (c : ascii) : ascii :=
  let n := nat_of_ascii c in
  if (Nat.leb 65 n && Nat.leb n 90)%bool then ascii_of_nat (n + 32) else c.

Fixpoint ascii_toLowerCase (s : string) : string :=
  match s with
  | EmptyString => EmptyString
  | String c s' => String (lower_ascii c) (ascii_toLowerCase s')
  end.

(** [String.prototype.toLowerCase], the run-time's Unicode lower-casing.
    On an ASCII text it is the lower-casing above.  On any other text it
    follows the case tables of the Unicode standard, which belong to the
    run-time and not to this application: there it is the argument
    [unicode_lower], about which nothing is assumed. *)
Definition toLowerCase (unicode_lower : string -> string) (s : string) : string :=
  if is_ascii s then ascii_toLowerCase s else unicode_lower s.

(** [s.startsWith(p)] *)
Fixpoint startsWith (s p : string) : bool :=
  match p, s with
  | EmptyString, _ => true
  | String _ _, EmptyString => false
  | String a p', String b s' => (Ascii.eqb a b) && startsWith s' p'
  end.

(** [s.includes(q)]: [q] occurs in [s] at some position. *)
Fixpoint includes (s q : string) : bool :=
  startsWith s q ||
  match s with
  | EmptyString => false
  | String _ s' => includes s' q
  end.

(** [name.split(".").pop()]: the text after the last dot, the whole name
    when it has none. *)
Fixpoint split_pop (acc s : string) : string :=
  match s with
  | EmptyString => acc
  | String c s' =>
      if Ascii.eqb c "."%char then split_pop EmptyString s'
      else split_pop (acc ++ String c EmptyString) s'
  end.

(** Truthiness of a nullable string: [null] and the empty string are falsy. *)
Definition truthy (v : option string) : bool :=
  match v with
  | None => false
  | Some s => negb (s =? "")%string
  end.

(** ** Dashboard *)

(** The [Resource] interface: the columns of the row, spread, and the two
    related objects [categories: { name } | null] and
    [profiles: { full_name } | null]. *)
Record Resource : Type := mk_Resource {
  res_row : resources_row;
  res_categories : option string;
  res_profiles : option (option string)
}.

(** [.order("created_at", { ascending: false })] *)
Fixpoint insert_desc (r : resources_row) (l : list resources_row) : list resources_row :=
  match l with
  | [] => [r]
  | x :: l' =>
      if created_at x <=? created_at r then r :: x :: l'
      else x :: insert_desc r l'
  end.

Fixpoint order_created_at_desc (l : list resources_row) : list resources_row :=
  match l with
  | [] => []
  | r :: l' => insert_desc r (order_created_at_desc l')
  end.

(** The per-row lookups of [fetchResources]: the category name only when
    [category_id] is set, the uploader's profile always. *)
Definition enrich (db : database) (uid : option uuid) (resource : resources_row)
  : Resource :=
  mk_Resource resource
    (match category_id resource with
     | Some cid => select_category_name db uid cid
     | None => None
     end)
    (select_profile_full_name db uid (uploaded_by resource)).

(** [fetchResources]: the value handed to [setResources]. *)
Definition fetchResources (db : database) (uid : option uuid) : list Resource :=
  map (enrich db uid) (order_created_at_desc (select_resources db uid)).

(** The callback of [resources.filter(...)].  A [null] description makes
    [resource.description?.toLowerCase().includes(...)] undefined, which
    counts as false. *)
Definition matchesSearch (unicode_lower : string -> string) (searchQuery : string)
    (resource : Resource) : bool :=
  includes (toLowerCase unicode_lower (title (res_row resource)))
           (toLowerCase unicode_lower searchQuery) ||
  match description (res_row resource) with
  | Some d => includes (toLowerCase unicode_lower d) (toLowerCase unicode_lower searchQuery)
  | None => false
  end.

Definition matchesCategory (selectedCategory : string) (resource : Resource) : bool :=
  (selectedCategory =? "all")%string ||
  match res_categories resource with
  | Some name => (name =? selectedCategory)%string
  | None => false
  end.

Definition filteredResources (unicode_lower : string -> string)
    (resources : list Resource) (searchQuery selectedCategory : string)
  : list Resource :=
  filter (fun resource =>
            matchesSearch unicode_lower searchQuery resource &&
            matchesCategory selectedCategory resource)
         resources.

(** The listing of the dashboard: fetch, then filter. *)
Definition listResources (unicode_lower : string -> string) (db : database)
    (uid : option uuid) (searchQuery selectedCategory : string) : list Resource :=
  filteredResources unicode_lower (fetchResources db uid) searchQuery selectedCategory.

(** [{resource.categories?.name || "Uncategorized"}] *)
Definition category_label (resource : Resource) : string :=
  if truthy (res_categories resource)
  then match res_categories resource with Some n => n | None => "" end
  else "Uncategorized".

(** The two backend requests a dashboard handler awaits. *)
Inductive request : Type :=
| req_insert_view (uid : option uuid) (new_id : uuid) (now : timestamptz)
    (resource_id : uuid) (user_id : option uuid)
| req_update (uid : option uuid) (now : timestamptz) (rid : uuid) (p : resource_patch).

Definition exec (q : request) (db : database) : database * pg_error :=
  match q with
  | req_insert_view uid new_id now resource_id user_id =>
      insert_resource_view db uid new_id now resource_id user_id
  | req_update uid now rid p => update_resource db uid now rid p
  end.

(** The handlers do not look at the responses: the requests run one after
    the other whatever each returns. *)
Definition run (qs : list request) (db : database) : database :=
  fold_left (fun d q => fst (exec q d)) qs db.

(** What one call draws from its environment: the id of the new
    [resource_views] row and the backend clock at each request. *)
Record view_env : Type := mk_view_env {
  ve_new_id : uuid;
  ve_insert_time : timestamptz;
  ve_update_time : timestamptz
}.

(** [handleView(resource)]: insert [{ resource_id, user_id: user?.id }], then
    update [view_count] to the value of the displayed copy plus one.  The
    session of the requests is the signed-in [user]. *)
Definition handleView_requests (user : option uuid) (e : view_env)
    (resource : Resource) : list request :=
  [ req_insert_view user (ve_new_id e) (ve_insert_time e) (id (res_row resource)) user;
    req_update user (ve_update_time e) (id (res_row resource))
      (patch_view_count (view_count (res_row resource) + 1)) ].

Definition handleView (user : option uuid) (e : view_env) (resource : Resource)
    (db : database) : database :=
  run (handleView_requests user e resource) db.

(** [handleDownload(resource)]: update [download_count] to the value of the
    displayed copy plus one. *)
Definition handleDownload_requests (user : option uuid) (now : timestamptz)
    (resource : Resource) : list request :=
  [ req_update user now (id (res_row resource))
      (patch_download_count (download_count (res_row resource) + 1)) ].

Definition handleDownload (user : option uuid) (now : timestamptz)
    (resource : Resource) (db : database) : database :=
  run (handleDownload_requests user now resource) db.

(** Calls in flight at the same time: the backend serves the requests of
    all of them in some order that keeps each call's own order. *)
Inductive interleaving : list (list request) -> list request -> Prop :=
| interleaving_done : forall calls,
    Forall (fun c => c = []) calls -> interleaving calls []
| interleaving_next : forall before q c after s,
    interleaving (before ++ c :: after) s ->
    interleaving (before ++ (q :: c) :: after) (q :: s).

(** The stored row of a resource. *)
Definition find_resource (db : database) (rid : uuid) : option resources_row :=
  find (fun r => (id r =? rid)%string) (resources db).

(** ** Upload page *)

(** The browser's [File]: name, MIME type and size. *)
Module File.
Record t : Type := mk { name : string; type : string; size : Z }.
End File.

Definition getFileType (file : File.t) : string :=
  if startsWith (File.type file) "video/" then "video"
  else if startsWith (File.type file) "image/" then "image"
  else if (File.type file =? "application/pdf")%string then "pdf"
  else "other".

(** The form state of the upload page. *)
Record upload_form : Type := mk_upload_form {
  form_title : string;
  form_description : string;
  form_categoryId : string;
  form_file : option File.t
}.

(** What one submission draws from its environment: the text of
    [Math.random()], the id of the new row and the backend clock. *)
Record upload_env : Type := mk_upload_env {
  ue_random : string;
  ue_new_id : uuid;
  ue_now : timestamptz
}.

Inductive toast : Type :=
| no_toast
| toast_success
| toast_error (message : string).

Definition filePath (user : uuid) (e : upload_env) (file : File.t) : string :=
  user ++ "/" ++ (ue_random e ++ "." ++ split_pop EmptyString (File.name file)).

Definition upload_payload (form : upload_form) (user : uuid) (e : upload_env)
    (file : File.t) : resource_insert :=
  mk_resource_insert (form_title form) (Some (form_description form))
    (if truthy (Some (form_categoryId form)) then Some (form_categoryId form) else None)
    (getPublicUrl (filePath user e file)) (getFileType file)
    (Some (File.size file)) user.

(** [handleUpload]: nothing without a file or a user; the object is stored
    first and a storage error ends the submission; the row is inserted next
    and an insert error ends it too, the stored object staying behind. *)
Definition handleUpload (form : upload_form) (user : option uuid) (e : upload_env)
    (db : database) : database * toast :=
  match form_file form, user with
  | Some file, Some u =>
      match storage_upload db user "learning-resources" (filePath u e file) with
      | (_, Some uploadError) => (db, toast_error uploadError)
      | (db1, None) =>
          match insert_resource db1 user (ue_new_id e) (ue_now e)
                  (upload_payload form u e file) with
          | (db2, Some insertError) => (db2, toast_error insertError)
          | (db2, None) => (db2, toast_success)
          end
      end
  | _, _ => (db, no_toast)
  end.

(** ** Analytics: view trends *)

Definition SEVEN_DAYS_MS : Z := 7 * 24 * 60 * 60 * 1000.
Definition DAY_MS : Z := 24 * 60 * 60 * 1000.

(** [.gte("viewed_at", new Date(Date.now() - 7 * 24 * 60 * 60 * 1000).toISOString())] *)
Definition viewData (db : database) (uid : option uuid) (now : timestamptz)
  : list resource_views_row :=
  filter (fun v => now - SEVEN_DAYS_MS <=? rv_viewed_at v) (select_resource_views db uid).

(** [new Date(t).toLocaleDateString()] names the calendar date of [t] in the
    viewer's time zone; the date is represented by its day number.  The
    zone is given by [tz], its offset from UTC in milliseconds at each
    instant: the offset of a zone changes over time (daylight saving). *)
Definition toLocaleDateString (tz : timestamptz -> Z) (t : timestamptz) : Z :=
  (t + tz t) / DAY_MS.

(** The zone of UTC. *)
Definition utc : timestamptz -> Z := fun _ => 0.

(** The object [trends], as its entries in insertion order. *)
Definition trends_t := list (Z * Z).

Fixpoint trends_get (trends : trends_t) (date : Z) : option Z :=
  match trends with
  | [] => None
  | (d, n) :: rest => if d =? date then Some n else trends_get rest date
  end.

Fixpoint trends_set (trends : trends_t) (date : Z) (n : Z) : trends_t :=
  match trends with
  | [] => [(date, n)]
  | (d, m) :: rest =>
      if d =? date then (d, n) :: rest else (d, m) :: trends_set rest date n
  end.

(** [trends[date] = (trends[date] || 0) + 1] *)
Definition count_view (tz : timestamptz -> Z) (trends : trends_t) (view : resource_views_row)
  : trends_t :=
  let date := toLocaleDateString tz (rv_viewed_at view) in
  trends_set trends date
    (match trends_get trends date with
     | Some n => if n =? 0 then 0 else n
     | None => 0
     end + 1).

Record ViewTrend : Type := mk_ViewTrend { date : Z; views : Z }.

(** The value handed to [setViewTrends]:
    [Object.entries(trends).map(([date, views]) => ({ date, views }))]. *)
Definition viewTrends (db : database) (uid : option uuid) (tz : timestamptz -> Z) (now : timestamptz)
  : list ViewTrend :=
  map (fun entry => mk_ViewTrend (fst entry) (snd entry))
      (fold_left (count_view tz) (viewData db uid now) []).

(** ** Route guard and route table *)

Inductive page : Type :=
| Index | Auth | Dashboard | Upload | Analytics | Users | NotFound.

Inductive element : Type :=
| Loader
| Navigate (to : string)
| Render (p : page).

(** The value of [useAuth()]. *)
Record auth_context : Type := mk_auth {
  user : option uuid;
  userRole : option string;
  loading : bool
}.

(** [requireRole.includes(userRole)] *)
Definition role_included (requireRole : list string) (role : string) : bool :=
  existsb (fun r => (r =? role)%string) requireRole.

Definition ProtectedRoute (ctx : auth_context) (requireRole : option (list string))
    (children : page) : element :=
  if loading ctx then Loader
  else match user ctx with
       | None => Navigate "/auth"
       | Some _ =>
           match requireRole, userRole ctx with
           | Some roles, Some role =>
               if truthy (Some role) && negb (role_included roles role)
               then Navigate "/dashboard"
               else Render children
           | _, _ => Render children
           end
       end.

(** The [<Routes>] of [App], matched on the exact path. *)
Definition App (ctx : auth_context) (path : string) : element :=
  if (path =? "/")%string then Render Index
  else if (path =? "/auth")%string then Render Auth
  else if (path =? "/dashboard")%string then ProtectedRoute ctx None Dashboard
  else if (path =? "/upload")%string then
    ProtectedRoute ctx (Some ["teacher"; "admin"]) Upload
  else if (path =? "/analytics")%string then
    ProtectedRoute ctx (Some ["teacher"; "admin"]) Analytics
  else if (path =? "/users")%string then ProtectedRoute ctx (Some ["admin"]) Users
  else Render NotFound.

(** The gated routes with their required roles. *)
Definition gated_routes : list (string * list string) :=
  [ ("/upload", ["teacher"; "admin"]);
    ("/analytics", ["teacher"; "admin"]);
    ("/users", ["admin"]) ].

(** ** The properties, in the specification's words *)

(** A RoleAssignment row [(p, r)] exists in the role store. *)
Definition role_assignment_exists (db : database) (p : uuid) (r : app_role) : Prop :=
  exists row, In row (user_roles db) /\ ur_user_id row = p /\ ur_role row = r.
















(** Creation time descending, on stored rows and on dashboard copies. *)
Definition row_newest_first (a b : resources_row) : Prop :=
  created_at b <= created_at a.


(** The calendar date of the query time and the number of stored view
    events on a date, all events and those of the trailing window. *)
Definition today (tz : timestamptz -> Z) (now : timestamptz) : Z := toLocaleDateString tz now.

Definition events_on (db : database) (tz : timestamptz -> Z) (d : Z) : Z :=
  Z.of_nat (List.length (filter (fun v => toLocaleDateString tz (rv_viewed_at v) =? d)
                           (resource_views db))).

Definition window_events_on (db : database) (tz : timestamptz -> Z) (now : timestamptz) (d : Z) : Z :=
  Z.of_nat (List.length (filter (fun v => (now - SEVEN_DAYS_MS <=? rv_viewed_at v) &&
                                     (toLocaleDateString tz (rv_viewed_at v) =? d))
                           (resource_views db))).

(** The number of view events of a list that fall on date [d]. *)
Definition count_on (tz : timestamptz -> Z) (d : Z) (l : list resource_views_row) : Z :=
  Z.of_nat (List.length (filter (fun v => toLocaleDateString tz (rv_viewed_at v) =? d) l)).

(** The view trend as the specification's testable property words it: only
    buckets of the 7 most recent calendar days, each counting the events of
    its date. *)
Definition view_trend_of_last_7_dates (db : database) (uid : option uuid) (tz : timestamptz -> Z)
    (now : timestamptz) : Prop :=
  forall b, In b (viewTrends db uid tz now) ->
    today tz now - 6 <= date b <= today tz now /\
    views b = events_on db tz (date b).

(** A category deletion that touches nothing but the category reference. *)
Definition only_category_reference_changes (cid : uuid) (before after : resources_row)
  : Prop :=
  after = (if match category_id before with
              | Some c => (c =? cid)%string
              | None => false
              end
           then set_category_id None before else before).

(** Two rows that agree on every column except [category_id] and [updated_at]. *)
Definition same_but_category_and_updated_at (a b : resources_row) : Prop :=
  id a = id b /\ title a = title b /\ description a = description b /\
  file_url a = file_url b /\ file_type a = file_type b /\ file_size a = file_size b /\
  uploaded_by a = uploaded_by b /\ view_count a = view_count b /\
  download_count a = download_count b /\ created_at a = created_at b.

(** Two rows that agree on every column except [download_count] and [updated_at]. *)
Definition same_but_download_count_and_updated_at (a b : resources_row) : Prop :=
  id a = id b /\ title a = title b /\ description a = description b /\
  category_id a = category_id b /\
  file_url a = file_url b /\ file_type a = file_type b /\ file_size a = file_size b /\
  uploaded_by a = uploaded_by b /\ view_count a = view_count b /\
  created_at a = created_at b.

(** ** A small school, for the concrete runs *)

Definition tina : uuid := "tina".     (* a teacher *)
Definition sam : uuid := "sam".       (* a student *)
Definition ada : uuid := "ada".       (* an admin *)

Definition algebra : resources_row :=
  mk_resource "r1" "Algebra Basics" (Some "Linear equations") (Some "c1")
    "/storage/v1/object/public/learning-resources/tina/0.1.pdf" "pdf" (Some 1024)
    tina 0 0 100 100.

Definition school : database :=
  mk_db [tina; sam; ada]
    [ mk_user_role "a1" tina teacher 1;
      mk_user_role "a2" sam student 2;
      mk_user_role "a3" ada admin 3 ]
    [ mk_profile "p1" tina (Some "Tina") None 1 1;
      mk_profile "p2" sam (Some "Sam") None 2 2 ]
    [ mk_category "c1" "Mathematics" (Some "Mathematical concepts and problem solving") 0;
      mk_category "c2" "Science" (Some "Scientific concepts and experiments") 0 ]
    [ algebra ]
    []
    [ mk_object "learning-resources" "tina/0.1.pdf" ].

(** The dashboard copy of [algebra] that every signed-in viewer holds. *)
Definition algebra_shown : Resource := mk_Resource algebra (Some "Mathematics") (Some (Some "Tina")).

(** Ten days of view events, one at 06:00 and one at 18:00 of day 3 and one
    at noon of each of the days 4 to 10; the query runs at 12:00 of day 10. *)
Definition hour : Z := 60 * 60 * 1000.
Definition at_day (d h : Z) : timestamptz := d * DAY_MS + h * hour.

Definition ten_days : database :=
  with_resource_views
    [ mk_view "v0" "r1" (Some sam) (at_day 1 12);
      mk_view "v1" "r1" (Some sam) (at_day 3 6);
      mk_view "v2" "r1" (Some sam) (at_day 3 18);
      mk_view "v3" "r1" (Some sam) (at_day 4 12);
      mk_view "v4" "r1" (Some sam) (at_day 5 12);
      mk_view "v5" "r1" (Some sam) (at_day 6 12);
      mk_view "v6" "r1" (Some sam) (at_day 7 12);
      mk_view "v7" "r1" (Some sam) (at_day 8 12);
      mk_view "v8" "r1" (Some sam) (at_day 9 12);
      mk_view "v9" "r1" (Some sam) (at_day 10 11) ]
    school.

(** For runs on ASCII texts, where the Unicode tables are not consulted,
    any function can stand in for them. *)
Definition no_unicode_tables : string -> string := fun s => s.

(** A zone that moves its clocks forward, from one hour to two hours ahead
    of UTC, at [switch]. *)
Definition summer_time_from (switch : timestamptz) : timestamptz -> Z :=
  fun t => if t <? switch then 1 * hour else 2 * hour.

Definition minute : Z := 60 * 1000.

(** One view event at 22:30 UTC of day 3; the clocks move forward on day 7
    and the query runs at 22:20 UTC of day 10. *)
Definition spring_week : database :=
  with_resource_views [ mk_view "v1" "r1" (Some sam) (at_day 3 22 + 30 * minute) ] school.

Definition pdf_file : File.t := File.mk "notes.pdf" "application/pdf" 2048.

Definition a_form : upload_form := mk_upload_form "Geometry" "" "" (Some pdf_file).

Definition an_upload : upload_env := mk_upload_env "0.42" "r2" 200.

(** ** Navigation: the layout's links and the landing page *)

(** An entry of the navigation bar of [DashboardLayout] (the icon left out). *)
Record nav_item : Type := mk_nav_item {
  href : string;
  label : string;
  roles : list string
}.

(** [userRole === s] *)
Definition role_is (userRole : option string) (s : string) : bool :=
  match userRole with
  | Some r => (r =? s)%string
  | None => false
  end.

(** [getNavItems] of [DashboardLayout]. *)
Definition getNavItems (userRole : option string) : list nav_item :=
  let items := [ mk_nav_item "/dashboard" "Resources" ["student"; "teacher"; "admin"] ] in
  let items :=
    if role_is userRole "teacher" || role_is userRole "admin"
    then (items ++ [ mk_nav_item "/upload" "Upload" ["teacher"; "admin"];
                     mk_nav_item "/analytics" "Analytics" ["teacher"; "admin"] ])%list
    else items in
  let items :=
    if role_is userRole "admin"
    then (items ++ [ mk_nav_item "/users" "Users" ["admin"] ])%list
    else items in
  items.

(** The effect of the landing page [Index]: [if (user) navigate("/dashboard")]. *)
Definition Index_effect (ctx : auth_context) : option string :=
  match user ctx with
  | Some _ => Some "/dashboard"
  | None => None
  end.

(** What a visit of [path] comes to: the element of the route table, the
    landing page giving way to the navigation of its effect. *)
Definition visit (ctx : auth_context) (path : string) : element :=
  match App ctx path with
  | Render Index =>
      match Index_effect ctx with
      | Some to => Navigate to
      | None => Render Index
      end
  | e => e
  end.

(** ** Deleting a resource *)

(** The [USING] clause of "Teachers can delete own resources" on the
    catalog: [auth.uid() = uploaded_by OR has_role(auth.uid(), 'admin')]. *)
Definition can_delete_resource (db : database) (uid : option uuid) (r : resources_row)
  : bool :=
  authenticated uid && (is_uid uid (uploaded_by r) || has_role db uid admin).

(** [DELETE FROM resources WHERE id = rid]: the rows the policy hides are
    skipped silently.  [resource_views.resource_id ... ON DELETE CASCADE]
    removes the view events of every deleted row. *)
Definition delete_resource (db : database) (uid : option uuid) (rid : uuid)
  : database * pg_error :=
  let deleted r := (id r =? rid)%string && can_delete_resource db uid r in
  (with_resource_views
     (filter (fun v =>
                negb (existsb (fun r => deleted r && (id r =? rv_resource_id v)%string)
                              (resources db)))
             (resource_views db))
     (with_resources (filter (fun r => negb (deleted r)) (resources db)) db),
   None).

(** [handleDelete] of the upload page; [confirmed] is the answer to
    [confirm("Are you sure you want to delete this resource?")]. *)
Definition handleDelete (confirmed : bool) (user : option uuid) (resourceId : uuid)
    (db : database) : database * toast :=
  if negb confirmed then (db, no_toast)
  else match delete_resource db user resourceId with
       | (db', Some error) => (db', toast_error error)
       | (db', None) => (db', toast_success)
       end.

(** The upload page's [Resource] interface. *)
Record MyResource : Type := mk_MyResource {
  my_id : uuid;
  my_title : string;
  my_description : option string;
  my_file_type : string;
  my_categories : option string;
  my_created_at : timestamptz
}.

Definition my_resource (db : database) (uid : option uuid) (r : resources_row)
  : MyResource :=
  mk_MyResource (id r) (title r) (description r) (file_type r)
    (match category_id r with
     | Some cid => select_category_name db uid cid
     | None => None
     end)
    (created_at r).

(** [fetchMyResources]: nothing is fetched without a user; otherwise the
    user's own rows, [.eq("uploaded_by", user.id)], newest first. *)
Definition fetchMyResources (db : database) (user : option uuid)
  : option (list MyResource) :=
  match user with
  | None => None
  | Some u =>
      Some (map (my_resource db user)
              (order_created_at_desc
                 (filter (fun r => (uploaded_by r =? u)%string)
                         (select_resources db user))))
  end.

(** ** Role management *)

Definition with_user_roles (rs : list user_roles_row) (db : database) : database :=
  mk_db (auth_users db) rs (profiles db) (categories db) (resources db)
    (resource_views db) (storage_objects db).

(** [INSERT INTO user_roles (user_id, role)] under policy "Admins can manage
    roles", with the primary key, [UNIQUE (user_id, role)] and the foreign
    key of the table. *)
Definition insert_user_role (db : database) (uid : option uuid)
    (new_id : uuid) (now : timestamptz) (user_id : uuid) (role : app_role)
  : database * pg_error :=
  if negb (authenticated uid && has_role db uid admin) then
    (db, Some "new row violates row-level security policy for table user_roles")
  else if existsb (fun row => (ur_id row =? new_id)%string) (user_roles db) then
    (db, Some "duplicate key value violates unique constraint user_roles_pkey")
  else if existsb (fun row => (ur_user_id row =? user_id)%string &&
                              app_role_eqb (ur_role row) role) (user_roles db) then
    (db, Some "duplicate key value violates unique constraint user_roles_user_id_role_key")
  else if negb (user_exists db user_id) then
    (db, Some "insert on table user_roles violates foreign key constraint user_roles_user_id_fkey")
  else
    (with_user_roles (user_roles db ++ [mk_user_role new_id user_id role now]) db, None).

(** [DELETE FROM user_roles WHERE user_id = ... AND role = ...] under the
    same policy: without the admin role no row is visible to the delete. *)
Definition delete_user_role (db : database) (uid : option uuid)
    (user_id : uuid) (role : app_role) : database * pg_error :=
  if authenticated uid && has_role db uid admin then
    (with_user_roles
       (filter (fun row => negb ((ur_user_id row =? user_id)%string &&
                                 app_role_eqb (ur_role row) role))
               (user_roles db)) db,
     None)
  else (db, None).

(** ** Admin user overview *)

(** The text of an [app_role] value, as the client receives it. *)
Definition role_text (r : app_role) : string :=
  match r with
  | student => "student"
  | teacher => "teacher"
  | admin => "admin"
  end.

(** [SELECT role FROM user_roles WHERE user_id = u] under the policies
    "Users can view own roles", "Admins can view all roles" and "Admins can
    manage roles": a row is visible to its user and to admins. *)
Definition select_user_roles (db : database) (uid : option uuid) (u : uuid)
  : list string :=
  map (fun row => role_text (ur_role row))
      (filter (fun row =>
                 (ur_user_id row =? u)%string &&
                 (authenticated uid &&
                  (is_uid uid (ur_user_id row) || has_role db uid admin)))
              (user_roles db)).

(** [SELECT id FROM resources WHERE uploaded_by = u] *)
Definition select_resource_ids_of (db : database) (uid : option uuid) (u : uuid)
  : list uuid :=
  map id (filter (fun r => (uploaded_by r =? u)%string) (select_resources db uid)).

(** [SELECT id, full_name, user_id FROM profiles] under policy "Users can
    view all profiles". *)
Definition select_profiles (db : database) (uid : option uuid) : list profiles_row :=
  if authenticated uid then profiles db else [].

Record UserData : Type := mk_UserData {
  ud_id : uuid;
  ud_full_name : option string;
  ud_user_id : uuid;
  ud_user_roles : list string;
  ud_resources : list uuid
}.

Definition usersWithData (db : database) (uid : option uuid) : list UserData :=
  map (fun profile =>
         mk_UserData (pf_id profile) (pf_full_name profile) (pf_user_id profile)
           (select_user_roles db uid (pf_user_id profile))
           (select_resource_ids_of db uid (pf_user_id profile)))
      (select_profiles db uid).

(** [usersWithData.filter((u) => u.user_roles.some((r) => r.role === role)).length] *)
Definition count_with_role (role : string) (users : list UserData) : nat :=
  List.length (filter (fun u => existsb (fun r => (r =? role)%string) (ud_user_roles u))
                      users).

Record user_stats : Type := mk_user_stats {
  total : nat;
  students : nat;
  teachers : nat;
  admins : nat
}.

(** [fetchUsers]: the values handed to [setUsers] and [setStats]. *)
Definition fetchUsers (db : database) (uid : option uuid) : list UserData * user_stats :=
  let users := usersWithData db uid in
  (users,
   mk_user_stats (List.length users) (count_with_role "student" users)
     (count_with_role "teacher" users) (count_with_role "admin" users)).

(** ** Analytics: totals, category distribution, top resources *)

(** [v || 0] on a number. *)
Definition or_zero (v : Z) : Z := if v =? 0 then 0 else v.

(** The values a property of the counting object can hold. *)
Inductive js_value : Type :=
| js_number (n : Z)
| js_string (s : string).

Section Properties.
Variable V : Type.

(** The own properties of an object, in creation order. *)
Fixpoint own_property (o : list (string * V)) (k : string) : option V :=
  match o with
  | [] => None
  | (k', v) :: rest => if (k' =? k)%string then Some v else own_property rest k
  end.

Fixpoint prop_set (o : list (string * V)) (k : string) (v : V) : list (string * V) :=
  match o with
  | [] => [(k, v)]
  | (k', w) :: rest =>
      if (k' =? k)%string then (k', v) :: rest else (k', w) :: prop_set rest k v
  end.

End Properties.

Arguments own_property {V} o k.
Arguments prop_set {V} o k v.

(** A plain object [{}]: its own properties; the others are read from
    [Object.prototype]. *)
Definition js_object : Type := list (string * js_value).

(** The functions every plain object inherits from [Object.prototype]. *)
Definition Object_prototype_functions : list string :=
  ["constructor"; "__defineGetter__"; "__defineSetter__"; "hasOwnProperty";
   "__lookupGetter__"; "__lookupSetter__"; "isPrototypeOf"; "propertyIsEnumerable";
   "toString"; "valueOf"; "toLocaleString"].

Definition inherits_function (k : string) : bool :=
  existsb (String.eqb k) Object_prototype_functions.

(** [(o[k] || 0) + 1]: an own number is counted up; an own text is
    falsy when empty and gets "1" appended otherwise; [__proto__] reads
    [Object.prototype] and an inherited function reads as itself, both
    truthy and turned to text by [+]; any other key reads [undefined].
    [function_text] is the text of a built-in function, which the
    engine chooses. *)
Definition or_zero_plus_one (function_text : string -> string) (o : js_object) (k : string)
  : js_value :=
  match own_property o k with
  | Some (js_number n) => js_number (or_zero n + 1)
  | Some (js_string s) => if (s =? "")%string then js_number 1 else js_string (s ++ "1")
  | None =>
      if (k =? "__proto__")%string then js_string ("[object Object]" ++ "1")
      else if inherits_function k then js_string (function_text k ++ "1")
      else js_number 1
  end.

(** [o[k] = v] for a number or a text [v]: the [__proto__] setter of
    [Object.prototype] ignores a value that is neither an object nor
    [null]; any other key becomes or stays an own property. *)
Definition assign_prop (o : js_object) (k : string) (v : js_value) : js_object :=
  if (k =? "__proto__")%string then o else prop_set o k v.

(** [o[k] = (o[k] || 0) + 1] *)
Definition increment_prop (function_text : string -> string) (o : js_object) (k : string)
  : js_object :=
  assign_prop o k (or_zero_plus_one function_text o k).

(** The same count kept as numbers only: what the object amounts to while
    no key is a property of [Object.prototype]. *)
Definition count_up (o : list (string * Z)) (k : string) : list (string * Z) :=
  prop_set o k (match own_property o k with Some n => n | None => 0 end + 1).

Definition numbers (o : list (string * Z)) : js_object :=
  map (fun e => (fst e, js_number (snd e))) o.

Definition ordinary_key (k : string) : Prop :=
  k <> "__proto__" /\ ~ In k Object_prototype_functions.

(** The text of the function [Object.prototype] has under [k] in V8;
    [constructor] is the function [Object]. *)
Definition native_code (k : string) : string :=
  "function " ++ (if (k =? "constructor")%string then "Object" else k) ++
  "() { [native code] }".

(** A property key that is an array index: the canonical decimal text of a
    number below 2^32 - 1. *)
Definition digit_value (c : ascii) : option N :=
  let n := N_of_ascii c in
  if ((48 <=? n) && (n <=? 57))%N then Some (n - 48)%N else None.

Fixpoint decimal_value (acc : N) (s : string) : option N :=
  match s with
  | EmptyString => Some acc
  | String c rest =>
      match digit_value c with
      | Some d => decimal_value (acc * 10 + d)%N rest
      | None => None
      end
  end.

Definition array_index (k : string) : option N :=
  match k with
  | EmptyString => None
  | String c rest =>
      if Ascii.eqb c "0"%char && negb (rest =? "")%string then None
      else match decimal_value 0%N k with
           | Some n => if (n <? 4294967295)%N then Some n else None
           | None => None
           end
  end.

Fixpoint insert_index (e : N * (string * js_value)) (l : list (N * (string * js_value)))
  : list (N * (string * js_value)) :=
  match l with
  | [] => [e]
  | x :: l' => if (fst e <=? fst x)%N then e :: x :: l' else x :: insert_index e l'
  end.

Fixpoint sort_index (l : list (N * (string * js_value))) : list (N * (string * js_value)) :=
  match l with
  | [] => []
  | e :: l' => insert_index e (sort_index l')
  end.

(** [Object.entries(o)]: the array-index keys in ascending numeric order,
    then the other keys in creation order. *)
Definition Object_entries (o : js_object) : list (string * js_value) :=
  (map snd
       (sort_index
          (flat_map (fun e => match array_index (fst e) with
                              | Some n => [(n, e)]
                              | None => []
                              end) o)) ++
   filter (fun e => match array_index (fst e) with Some _ => false | None => true end) o)%list.

(** [count] of [select("*", { count: "exact", head: true })], [|| 0]. *)
Definition totalResources (db : database) (uid : option uuid) : Z :=
  or_zero (Z.of_nat (List.length (select_resources db uid))).

(** [resources.reduce((sum, r) => sum + (r.view_count || 0), 0)] *)
Definition totalViews (db : database) (uid : option uuid) : Z :=
  fold_left (fun sum r => sum + or_zero (view_count r)) (select_resources db uid) 0.

Definition totalDownloads (db : database) (uid : option uuid) : Z :=
  fold_left (fun sum r => sum + or_zero (download_count r)) (select_resources db uid) 0.

(** The rows of [select("category_id, categories (name)")]: the name of the
    referenced category, [null] without a reference. *)
Definition categoryData (db : database) (uid : option uuid) : list (option string) :=
  map (fun r => match category_id r with
                | Some cid => select_category_name db uid cid
                | None => None
                end)
      (select_resources db uid).

(** [item.categories?.name || "Uncategorized"] *)
Definition categoryName (item : option string) : string :=
  if truthy item then match item with Some n => n | None => "" end
  else "Uncategorized".

Record CategoryStats : Type := mk_CategoryStats { name : string; count : js_value }.

(** The value handed to [setCategoryStats]. *)
Definition categoryStats (function_text : string -> string) (db : database)
    (uid : option uuid) : list CategoryStats :=
  map (fun entry => mk_CategoryStats (fst entry) (snd entry))
      (Object_entries
         (fold_left (fun stats item => increment_prop function_text stats (categoryName item))
                    (categoryData db uid) [])).






(** ** The statements of a session, taken together *)

Inductive statement : Type :=
| st_insert_resource (new_id : uuid) (now : timestamptz) (p : resource_insert)
| st_update_resource (now : timestamptz) (rid : uuid) (p : resource_patch)
| st_delete_resource (rid : uuid)
| st_insert_resource_view (new_id : uuid) (now : timestamptz) (resource_id : uuid)
    (user_id : option uuid)
| st_delete_category (now : timestamptz) (cid : uuid)
| st_insert_user_role (new_id : uuid) (now : timestamptz) (user_id : uuid)
    (role : app_role)
| st_delete_user_role (user_id : uuid) (role : app_role)
| st_storage_upload (bucket path : string).

Definition execute (uid : option uuid) (st : statement) (db : database)
  : database * pg_error :=
  match st with
  | st_insert_resource new_id now p => insert_resource db uid new_id now p
  | st_update_resource now rid p => update_resource db uid now rid p
  | st_delete_resource rid => delete_resource db uid rid
  | st_insert_resource_view new_id now resource_id user_id =>
      insert_resource_view db uid new_id now resource_id user_id
  | st_delete_category now cid => delete_category db uid now cid
  | st_insert_user_role new_id now user_id role =>
      insert_user_role db uid new_id now user_id role
  | st_delete_user_role user_id role => delete_user_role db uid user_id role
  | st_storage_upload bucket path => storage_upload db uid bucket path
  end.

(** The keys and references the schema declares: primary keys, the unique
    pair of [user_roles], and the foreign keys into [auth.users],
    [categories] and [resources]. *)
Record integrity (db : database) : Prop := mk_integrity {
  resources_pkey : NoDup (map id (resources db));
  categories_pkey : NoDup (map cat_id (categories db));
  resource_views_pkey : NoDup (map rv_id (resource_views db));
  user_roles_pkey : NoDup (map ur_id (user_roles db));
  user_roles_user_id_role_key :
    NoDup (map (fun row => (ur_user_id row, ur_role row)) (user_roles db));
  user_roles_user_id_fkey : user_roles_fk db;
  resources_uploaded_by_fkey :
    forall r, In r (resources db) -> In (uploaded_by r) (auth_users db);
  resources_category_id_fkey :
    forall r cid, In r (resources db) -> category_id r = Some cid ->
                  In cid (map cat_id (categories db));
  resource_views_resource_id_fkey :
    forall v, In v (resource_views db) ->
              In (rv_resource_id v) (map id (resources db));
  resource_views_user_id_fkey :
    forall v u, In v (resource_views db) -> rv_user_id v = Some u ->
                In u (auth_users db)
}.

(** A session that carries a user id belongs to an existing user. *)
Definition session_of_user (db : database) (uid : option uuid) : Prop :=
  forall u, uid = Some u -> In u (auth_users db).

(** A second school: Tina's resource with a stored count of 7, two view
    events on it and a second resource of the admin. *)
Definition physics : resources_row :=
  mk_resource "r2" "Physics Lab" None None
    "/storage/v1/object/public/learning-resources/ada/0.7.mp4" "video" (Some 4096)
    ada 3 1 150 150.

Definition busy_school : database :=
  with_resource_views
    [ mk_view "v1" "r1" (Some sam) 110; mk_view "v2" "r2" (Some sam) 160;
      mk_view "v3" "r1" (Some tina) 170 ]
    (with_resources [ set_view_count 7 algebra; physics ] school).

(** The view event a request stores when it goes through. *)
Definition view_of_request (q : request) : list resource_views_row :=
  match q with
  | req_insert_view _ new_id now resource_id user_id =>
      [mk_view new_id resource_id user_id now]
  | req_update _ _ _ _ => []
  end.

(** The view event of one [handleView] call of user [u] on resource [rid]. *)
Definition view_of_call (u rid : uuid) (call : view_env * Resource)
  : resource_views_row :=
  mk_view (ve_new_id (fst call)) rid (Some u) (ve_insert_time (fst call)).

(** Newest first, on the upload page's items. *)
Definition my_newest_first (a b : MyResource) : Prop :=
  my_created_at b <= my_created_at a.

(** The label under which the category distribution counts a resource. *)
Definition category_label_of (db : database) (uid : option uuid) (r : resources_row)
  : string :=
  categoryName (match category_id r with
                | Some cid => select_category_name db uid cid
                | None => None
                end).


(** * Proofs *)

(** ** Basic facts *)

Lemma app_role_eqb_eq : forall a b, app_role_eqb a b = true <-> a = b.
Proof. intros [] []; simpl; split; intro H; congruence. Qed.

Lemma Forall2_map_same : forall (A B : Type) (P : A -> B -> Prop) (f : A -> B) (l : list A),
  (forall x, In x l -> P x (f x)) -> Forall2 P l (map f l).
Proof.
  intros A B P f l; induction l as [|x l IH]; intros H; simpl; constructor.
  - apply H; left; reflexivity.
  - apply IH; intros y Hy; apply H; right; exact Hy.
Qed.

Lemma truthy_Some : forall s, truthy (Some s) = true <-> s <> "".
Proof.
  intros s; unfold truthy; destruct (String.eqb_spec s ""); simpl; split; congruence.
Qed.

Lemma role_included_In : forall roles role, role_included roles role = true <-> In role roles.
Proof.
  intros roles role; unfold role_included; rewrite existsb_exists; split.
  - intros [r [Hin Heq]]; apply String.eqb_eq in Heq; subst; exact Hin.
  - intros Hin; exists role; split; [exact Hin | apply String.eqb_refl].
Qed.

(** ** Concrete runs of the embedded functions *)

Example getFileType_pdf : getFileType pdf_file = "pdf".
Proof. reflexivity. Qed.

Example getFileType_video :
  getFileType (File.mk "clip.mp4" "video/mp4" 10) = "video" /\
  getFileType (File.mk "a.png" "image/png" 10) = "image" /\
  getFileType (File.mk "a.txt" "text/plain" 10) = "other".
Proof. repeat split. Qed.

Example filePath_of_upload : filePath tina an_upload pdf_file = "tina/0.42.pdf".
Proof. reflexivity. Qed.

Example split_pop_cases :
  split_pop "" "archive.tar.gz" = "gz" /\ split_pop "" "README" = "README" /\
  split_pop "" "trailing." = "".
Proof. repeat split. Qed.

Example includes_ignores_case_after_lowering : forall unicode_lower,
  includes (toLowerCase unicode_lower "Algebra Basics")
           (toLowerCase unicode_lower "BRA b") = true /\
  includes (toLowerCase unicode_lower "Algebra Basics")
           (toLowerCase unicode_lower "geometry") = false /\
  includes (toLowerCase unicode_lower "Algebra Basics")
           (toLowerCase unicode_lower "") = true.
Proof. intros unicode_lower; repeat split. Qed.

Example listing_of_school : forall unicode_lower,
  listResources unicode_lower school (Some sam) "ALGE" "all" = [algebra_shown] /\
  listResources unicode_lower school (Some sam) "" "Mathematics" = [algebra_shown] /\
  listResources unicode_lower school (Some sam) "" "Science" = [] /\
  listResources unicode_lower school None "" "all" = [].
Proof. intros unicode_lower; repeat split. Qed.

Example has_role_in_school :
  has_role school (Some tina) teacher = true /\
  has_role school (Some tina) admin = false /\
  has_role school None teacher = false.
Proof. repeat split. Qed.

(** ** Role check *)

(** C1. For every principal [p] and role [r], [has_role(p, r)] is true if
    and only if the role store holds a RoleAssignment row with user [p] and
    role [r]; it is false otherwise, in particular for a [p] that is not a
    principal at all (no row can reference it). *)
Theorem has_role_iff_assignment : forall db p r,
  (has_role db (Some p) r = true <-> role_assignment_exists db p r) /\
  (~ role_assignment_exists db p r -> has_role db (Some p) r = false) /\
  (user_roles_fk db -> ~ In p (auth_users db) -> has_role db (Some p) r = false).
Proof.
  intros db p r.
  assert (Hiff : has_role db (Some p) r = true <-> role_assignment_exists db p r).
  { unfold has_role, role_assignment_exists; rewrite existsb_exists; split.
    - intros [row [Hin Hrow]]; apply andb_true_iff in Hrow; destruct Hrow as [Hu Hr].
      exists row; repeat split;
        [exact Hin | apply String.eqb_eq; exact Hu | apply app_role_eqb_eq; exact Hr].
    - intros [row [Hin [Hu Hr]]]; exists row; split; [exact Hin|].
      apply andb_true_iff; split;
        [apply String.eqb_eq; exact Hu | apply app_role_eqb_eq; exact Hr]. }
  assert (Hno : ~ role_assignment_exists db p r -> has_role db (Some p) r = false).
  { intros Hno; destruct (has_role db (Some p) r) eqn:E; [|reflexivity].
    exfalso; apply Hno, Hiff; reflexivity. }
  split; [exact Hiff|]; split; [exact Hno|].
  intros Hfk Hp; apply Hno; intros [row [Hin [Hu _]]].
  apply Hp; rewrite <- Hu; apply Hfk; exact Hin.
Qed.

Lemma has_role_iff_assignment_witness :
  has_role school (Some "zed") admin = false.
Proof.
  apply (proj2 (proj2 (has_role_iff_assignment school "zed" admin))).
  - intros row Hin; simpl in Hin.
    destruct Hin as [<-|[<-|[<-|[]]]]; simpl; auto.
  - simpl; intros [H|[H|[H|[]]]]; discriminate H.
Defined.

(** ** Route guard *)

Lemma App_gated : forall ctx path roles,
  In (path, roles) gated_routes ->
  exists children, App ctx path = ProtectedRoute ctx (Some roles) children.
Proof.
  intros ctx path roles Hin; simpl in Hin.
  destruct Hin as [H|[H|[H|[]]]]; inversion H; subst; eexists; reflexivity.
Qed.

(** C8. On each gated route (upload and analytics for teacher or admin,
    users for admin), an authenticated principal whose role is not among the
    required ones is sent to the dashboard route, which renders the
    dashboard for it, not an error page; an unauthenticated visitor is sent
    to the authentication route. *)
Theorem gated_route_redirects : forall ctx path roles,
  In (path, roles) gated_routes ->
  loading ctx = false ->
  (forall u role,
      user ctx = Some u -> userRole ctx = Some role -> role <> "" ->
      ~ In role roles ->
      App ctx path = Navigate "/dashboard" /\ App ctx "/dashboard" = Render Dashboard) /\
  (user ctx = None -> App ctx path = Navigate "/auth").
Proof.
  intros ctx path roles Hin Hload.
  destruct (App_gated ctx path roles Hin) as [children Happ]; rewrite Happ.
  assert (Hdash : App ctx "/dashboard" = ProtectedRoute ctx None Dashboard)
    by reflexivity.
  rewrite Hdash; unfold ProtectedRoute; rewrite Hload; split.
  - intros u role Hu Hrole Hne Hnot; rewrite Hu, Hrole.
    assert (Hinc : role_included roles role = false).
    { destruct (role_included roles role) eqn:E; [|reflexivity].
      exfalso; apply Hnot, role_included_In; exact E. }
    apply truthy_Some in Hne; rewrite Hne, Hinc; split; reflexivity.
  - intros Hu; rewrite Hu; reflexivity.
Qed.

Lemma gated_route_redirects_witness :
  App (mk_auth (Some sam) (Some "student") false) "/users" = Navigate "/dashboard" /\
  App (mk_auth None None false) "/users" = Navigate "/auth".
Proof.
  pose proof (gated_route_redirects (mk_auth (Some sam) (Some "student") false)
                "/users" ["admin"]
                (or_intror (or_intror (or_introl eq_refl))) eq_refl) as Hs.
  pose proof (gated_route_redirects (mk_auth None None false)
                "/users" ["admin"]
                (or_intror (or_intror (or_introl eq_refl))) eq_refl) as Ha.
  split.
  - apply (proj1 Hs sam "student" eq_refl eq_refl).
    + discriminate.
    + simpl; intros [H|[]]; discriminate H.
  - apply (proj2 Ha eq_refl).
Defined.

(** C9. For an authenticated user whose resolved role is null, the guard
    with a non-empty list of required roles renders the protected children:
    the restriction applies only when a role value is present. *)
Theorem null_role_passes_guard : forall ctx u roles children,
  loading ctx = false -> user ctx = Some u -> userRole ctx = None ->
  roles <> [] ->
  ProtectedRoute ctx (Some roles) children = Render children.
Proof.
  intros ctx u roles children Hload Hu Hrole _.
  unfold ProtectedRoute; rewrite Hload, Hu, Hrole; reflexivity.
Qed.

Lemma null_role_passes_guard_witness :
  ProtectedRoute (mk_auth (Some sam) None false) (Some ["admin"]) Users = Render Users.
Proof.
  apply (null_role_passes_guard (mk_auth (Some sam) None false) sam
           ["admin"] Users eq_refl eq_refl eq_refl).
  discriminate.
Defined.

(** ** Dashboard handlers *)

Lemma Forall2_same : forall (A : Type) (P : A -> A -> Prop) (l : list A),
  (forall x, In x l -> P x x) -> Forall2 P l l.
Proof.
  intros A P l H; rewrite <- (map_id l) at 2.
  apply Forall2_map_same; exact H.
Qed.

Lemma update_resource_views : forall db uid now rid p,
  resource_views (fst (update_resource db uid now rid p)) = resource_views db.
Proof.
  intros; unfold update_resource; destruct (int4_ok (patch_value p)); reflexivity.
Qed.

Lemma update_resource_user_roles : forall db uid now rid p,
  user_roles (fst (update_resource db uid now rid p)) = user_roles db.
Proof.
  intros; unfold update_resource; destruct (int4_ok (patch_value p)); reflexivity.
Qed.

Lemma insert_resource_view_resources : forall db uid new_id now rid user_id,
  resources (fst (insert_resource_view db uid new_id now rid user_id)) = resources db /\
  user_roles (fst (insert_resource_view db uid new_id now rid user_id)) = user_roles db.
Proof.
  intros; unfold insert_resource_view.
  repeat match goal with |- context [if ?b then _ else _] => destruct b end;
    split; reflexivity.
Qed.

Lemma has_role_user_roles : forall db db' uid r,
  user_roles db' = user_roles db -> has_role db' uid r = has_role db uid r.
Proof. intros db db' uid r H; unfold has_role; rewrite H; reflexivity. Qed.

Lemma can_update_user_roles : forall db db' uid r,
  user_roles db' = user_roles db ->
  can_update_resource db' uid r = can_update_resource db uid r.
Proof.
  intros db db' uid r H; unfold can_update_resource.
  rewrite (@has_role_user_roles db db' uid admin H); reflexivity.
Qed.

(** C10. A download inserts no view event, leaves every [view_count] as it
    was and changes no catalog row other than the ones with the target's
    id; on those it writes [download_count] only (the trigger stamping
    [updated_at]). *)
Theorem handleDownload_frame : forall user now resource db,
  resource_views (handleDownload user now resource db) = resource_views db /\
  Forall2 (fun before after =>
             view_count after = view_count before /\
             (id before <> id (res_row resource) -> after = before) /\
             same_but_download_count_and_updated_at before after)
          (resources db) (resources (handleDownload user now resource db)).
Proof.
  intros user0 now resource db; unfold handleDownload, handleDownload_requests, run.
  cbn [fold_left exec]; split; [apply update_resource_views|].
  unfold update_resource.
  destruct (int4_ok _); cbn [negb fst with_resources resources].
  - apply Forall2_map_same; intros r _.
    destruct (String.eqb_spec (id r) (id (res_row resource))) as [He|Hne];
      cbn [andb].
    + destruct (can_update_resource db user0 r).
      * split; [reflexivity|]; split; [congruence|].
        unfold same_but_download_count_and_updated_at; cbn; tauto.
      * split; [reflexivity|]; split; [reflexivity|].
        unfold same_but_download_count_and_updated_at; tauto.
    + split; [reflexivity|]; split; [reflexivity|].
      unfold same_but_download_count_and_updated_at; tauto.
  - apply Forall2_same; intros r _.
    split; [reflexivity|]; split; [reflexivity|].
    unfold same_but_download_count_and_updated_at; tauto.
Qed.

(** The update of [handleView] reaches the rows of the viewer: without the
    admin role and without owning a row with the viewed id, a viewer's call
    appends its view event and leaves the catalog as it was. *)
Lemma handleView_other_viewer : forall db s e resource,
  has_role db (Some s) admin = false ->
  (forall r, In r (resources db) -> id r = id (res_row resource) -> uploaded_by r <> s) ->
  resource_exists db (id (res_row resource)) = true ->
  existsb (fun v => (rv_id v =? ve_new_id e)%string) (resource_views db) = false ->
  resources (handleView (Some s) e resource db) = resources db /\
  resource_views (handleView (Some s) e resource db) =
    (resource_views db ++
     [mk_view (ve_new_id e) (id (res_row resource)) (Some s) (ve_insert_time e)])%list.
Proof.
  intros db s e resource Hadmin Hown Hex Hfresh.
  unfold handleView, handleView_requests, run; cbn [fold_left exec].
  set (db1 := fst (insert_resource_view db (Some s) (ve_new_id e) (ve_insert_time e)
                     (id (res_row resource)) (Some s))).
  assert (Hdb1 : db1 = with_resource_views
                   (resource_views db ++
                    [mk_view (ve_new_id e) (id (res_row resource)) (Some s)
                       (ve_insert_time e)]) db).
  { unfold db1, insert_resource_view; cbn [authenticated is_uid andb].
    rewrite String.eqb_refl, Hfresh, Hex; reflexivity. }
  split.
  - unfold update_resource; destruct (int4_ok _); cbn [negb fst with_resources resources];
      [|rewrite Hdb1; reflexivity].
    rewrite Hdb1; cbn [resources with_resource_views].
    rewrite <- (map_id (resources db)) at 2.
    apply map_ext_in; intros r Hr.
    destruct (String.eqb_spec (id r) (id (res_row resource))) as [He|Hne];
      cbn [andb]; [|reflexivity].
    unfold can_update_resource; cbn [authenticated is_uid andb].
    change (has_role (with_resource_views _ db) (Some s) admin)
      with (has_role db (Some s) admin); rewrite Hadmin.
    destruct (String.eqb_spec s (uploaded_by r)) as [Hs|Hs]; [|reflexivity].
    exfalso; apply (Hown r Hr He); symmetry; exact Hs.
  - rewrite update_resource_views, Hdb1; reflexivity.
Qed.

(** The sibling case: for the owner of the viewed resource, or an admin, the
    same call appends the view event and writes the displayed count plus
    one, which is the stored count plus one when the copy is current. *)
Lemma handleView_owner_or_admin : forall db u e resource,
  resource_exists db (id (res_row resource)) = true ->
  existsb (fun v => (rv_id v =? ve_new_id e)%string) (resource_views db) = false ->
  int4_ok (view_count (res_row resource) + 1) = true ->
  resource_views (handleView (Some u) e resource db) =
    (resource_views db ++
     [mk_view (ve_new_id e) (id (res_row resource)) (Some u) (ve_insert_time e)])%list /\
  Forall2 (fun before after =>
             (id before = id (res_row resource) ->
              uploaded_by before = u \/ has_role db (Some u) admin = true ->
              view_count after = view_count (res_row resource) + 1) /\
             (id before <> id (res_row resource) -> after = before))
          (resources db) (resources (handleView (Some u) e resource db)).
Proof.
  intros db u e resource Hex Hfresh Hok.
  unfold handleView, handleView_requests, run; cbn [fold_left exec].
  set (db1 := fst (insert_resource_view db (Some u) (ve_new_id e) (ve_insert_time e)
                     (id (res_row resource)) (Some u))).
  assert (Hdb1 : db1 = with_resource_views
                   (resource_views db ++
                    [mk_view (ve_new_id e) (id (res_row resource)) (Some u)
                       (ve_insert_time e)]) db).
  { unfold db1, insert_resource_view; cbn [authenticated is_uid andb].
    rewrite String.eqb_refl, Hfresh, Hex; reflexivity. }
  split; [rewrite update_resource_views, Hdb1; reflexivity|].
  unfold update_resource; cbn [patch_value]; rewrite Hok.
  cbn [negb fst with_resources resources]; rewrite Hdb1.
  cbn [resources with_resource_views].
  apply Forall2_map_same; intros r _.
  destruct (String.eqb_spec (id r) (id (res_row resource))) as [He|Hne];
    cbn [andb]; [|split; [contradiction | reflexivity]].
  split; [|intros Hd; contradiction].
  intros _ Hmay.
  change (can_update_resource (with_resource_views _ db) (Some u) r)
    with (can_update_resource db (Some u) r).
  assert (Hcan : can_update_resource db (Some u) r = true).
  { unfold can_update_resource; cbn [authenticated is_uid andb].
    destruct Hmay as [<-|Hadm];
      [rewrite String.eqb_refl; reflexivity | rewrite Hadm; apply orb_true_r]. }
  rewrite Hcan; reflexivity.
Qed.

(** C4, on the code: Sam, a student, views the teacher's resource "r1",
    which he can read.  The call appends his view event, and the stored
    [view_count] is still 0 afterwards: the update of the counter is
    filtered by the update policy of the catalog (owner or admin). *)
Theorem student_view_is_logged_but_not_counted :
  In algebra_shown (fetchResources school (Some sam)) /\
  let after := handleView (Some sam) (mk_view_env "v1" 300 301) algebra_shown school in
  resource_views after = [mk_view "v1" "r1" (Some sam) 300] /\
  option_map view_count (find_resource school "r1") = Some 0 /\
  option_map view_count (find_resource after "r1") = Some 0.
Proof.
  split; [left; reflexivity|].
  cbv zeta.
  destruct (@handleView_other_viewer school sam (mk_view_env "v1" 300 301) algebra_shown)
    as [Hres Hviews].
  - reflexivity.
  - intros r [<-|[]] _; discriminate.
  - reflexivity.
  - reflexivity.
  - split; [exact Hviews|]; split; [reflexivity|].
    unfold find_resource; rewrite Hres; reflexivity.
Qed.

(** *** Calls in flight together *)

(** The requests one [handleView] call on resource [rid] sends for user [u]
    when its copy shows the count [v]. *)
Inductive view_request (u rid : uuid) (v : Z) : request -> Prop :=
| vr_insert : forall new_id now,
    view_request u rid v (req_insert_view (Some u) new_id now rid (Some u))
| vr_update : forall now,
    view_request u rid v (req_update (Some u) now rid (patch_view_count (v + 1))).

Definition is_update (q : request) : Prop :=
  match q with req_update _ _ _ _ => True | req_insert_view _ _ _ _ _ => False end.

(** Every row of [rid] the user may update shows [v + 1]. *)
Definition counted_once (u rid : uuid) (v : Z) (db : database) : Prop :=
  forall r, In r (resources db) -> id r = rid ->
            can_update_resource db (Some u) r = true -> view_count r = v + 1.

Lemma interleaving_In : forall calls s,
  interleaving calls s ->
  forall q, In q s <-> exists c, In c calls /\ In q c.
Proof.
  induction 1 as [calls Hnil | before q0 c after s Hs IH]; intros q.
  - split; [intros []|].
    intros [c [Hc Hq]]; rewrite Forall_forall in Hnil.
    rewrite (Hnil c Hc) in Hq; exact Hq.
  - split.
    + intros [<-|Hq].
      * exists (q0 :: c); split; [apply in_elt | left; reflexivity].
      * apply IH in Hq; destruct Hq as [c' [Hc' Hq]].
        apply in_app_or in Hc'; destruct Hc' as [Hb|[<-|Ha]].
        -- exists c'; split; [apply in_or_app; left; exact Hb | exact Hq].
        -- exists (q0 :: c); split; [apply in_elt | right; exact Hq].
        -- exists c'; split; [apply in_or_app; right; right; exact Ha | exact Hq].
    + intros [c' [Hc' Hq]].
      apply in_app_or in Hc'; destruct Hc' as [Hb|[<-|Ha]].
      * right; apply IH; exists c'; split; [apply in_or_app; left; exact Hb | exact Hq].
      * destruct Hq as [<-|Hq]; [left; reflexivity|].
        right; apply IH; exists c; split; [apply in_elt | exact Hq].
      * right; apply IH; exists c'; split;
          [apply in_or_app; right; right; exact Ha | exact Hq].
Qed.

Lemma exec_update_counts_once : forall db u rid v now,
  int4_ok (v + 1) = true ->
  counted_once u rid v
    (fst (exec (req_update (Some u) now rid (patch_view_count (v + 1))) db)).
Proof.
  intros db u rid v now Hok r Hr Hid Hcan.
  cbn [exec] in *; unfold update_resource in *; cbn [patch_value] in *.
  rewrite Hok in *; cbn [negb fst with_resources resources] in *.
  apply in_map_iff in Hr; destruct Hr as [r0 [Hr0 _]].
  destruct (String.eqb_spec (id r0) rid) as [He|Hne]; cbn [andb] in Hr0.
  - destruct (can_update_resource db (Some u) r0) eqn:Hc0.
    + subst r; reflexivity.
    + subst r.
      change (can_update_resource db (Some u) r0 = true) in Hcan.
      rewrite Hc0 in Hcan; discriminate Hcan.
  - subst r; contradiction.
Qed.

Lemma exec_insert_keeps_counted_once : forall db u rid v uid new_id now resource_id user_id,
  counted_once u rid v db ->
  counted_once u rid v
    (fst (exec (req_insert_view uid new_id now resource_id user_id) db)).
Proof.
  intros db u rid v uid new_id now resource_id user_id H r Hr Hid Hcan.
  cbn [exec] in *.
  destruct (insert_resource_view_resources db uid new_id now resource_id user_id)
    as [Hres Hroles].
  rewrite Hres in Hr; rewrite (@can_update_user_roles db _ (Some u) r Hroles) in Hcan.
  exact (H r Hr Hid Hcan).
Qed.

Lemma run_user_roles : forall s db, user_roles (run s db) = user_roles db.
Proof.
  induction s as [|q s IH]; intros db; [reflexivity|].
  change (run (q :: s) db) with (run s (fst (exec q db))); rewrite IH.
  destruct q as [uid new_id now rid user_id | uid now rid p]; cbn [exec].
  - apply insert_resource_view_resources.
  - apply update_resource_user_roles.
Qed.

Lemma run_counts_once : forall u rid v s db,
  int4_ok (v + 1) = true ->
  Forall (view_request u rid v) s ->
  (Exists is_update s \/ counted_once u rid v db) ->
  counted_once u rid v (run s db).
Proof.
  intros u rid v s; induction s as [|q s IH]; intros db Hok Hall Hsome.
  - destruct Hsome as [Hex|H]; [inversion Hex | exact H].
  - inversion Hall as [|q' s' Hq Hs]; subst.
    change (run (q :: s) db) with (run s (fst (exec q db))).
    apply IH; [exact Hok | exact Hs |].
    destruct Hq as [new_id now | now].
    + destruct Hsome as [Hex|H].
      * left; inversion Hex as [? ? Hhere | ? ? Hlater]; subst;
          [destruct Hhere | exact Hlater].
      * right; apply exec_insert_keeps_counted_once; exact H.
    + right; apply exec_update_counts_once; exact Hok.
Qed.

(** C2, on the code: [handleView] calls in flight together for one resource
    and one user, its owner or an admin, all started from copies that show
    the count [v], leave the row at [v + 1] whatever the number of calls and
    whatever the order in which the backend serves their requests.  The
    counter grows by one, not by the number of calls. *)
Theorem concurrent_views_count_once : forall db u rid v calls s,
  calls <> [] ->
  Forall (fun c => exists e resource,
                     c = handleView_requests (Some u) e resource /\
                     id (res_row resource) = rid /\
                     view_count (res_row resource) = v) calls ->
  int4_ok (v + 1) = true ->
  interleaving calls s ->
  forall r, In r (resources (run s db)) -> id r = rid ->
            uploaded_by r = u \/ has_role db (Some u) admin = true ->
            view_count r = v + 1.
Proof.
  intros db u rid v calls s Hne Hcalls Hok Hs r Hr Hid Hmay.
  pose proof (interleaving_In calls s Hs) as Hin.
  rewrite Forall_forall in Hcalls.
  assert (Hall : Forall (view_request u rid v) s).
  { apply Forall_forall; intros q Hq.
    apply Hin in Hq; destruct Hq as [c [Hc Hq]].
    destruct (Hcalls c Hc) as [e [resource [-> [<- <-]]]].
    destruct Hq as [<-|[<-|[]]]; constructor. }
  assert (Hex : Exists is_update s).
  { destruct calls as [|c calls]; [contradiction Hne; reflexivity|].
    destruct (Hcalls c (or_introl eq_refl)) as [e [resource [Hc _]]].
    apply Exists_exists.
    exists (req_update (Some u) (ve_update_time e) (id (res_row resource))
              (patch_view_count (view_count (res_row resource) + 1))).
    split; [|exact I].
    apply Hin; exists c; split; [left; reflexivity|].
    rewrite Hc; right; left; reflexivity. }
  apply (@run_counts_once u rid v s db Hok Hall (or_introl Hex) r Hr Hid).
  unfold can_update_resource; cbn [authenticated is_uid andb].
  rewrite (has_role_user_roles db (run s db) (Some u) admin (run_user_roles s db)).
  destruct Hmay as [->|Hadm];
    [rewrite String.eqb_refl; reflexivity | rewrite Hadm; apply orb_true_r].
Qed.

Lemma concurrent_views_count_once_witness :
  let c1 := handleView_requests (Some tina) (mk_view_env "v1" 300 302) algebra_shown in
  let c2 := handleView_requests (Some tina) (mk_view_env "v2" 301 303) algebra_shown in
  let s := [ req_insert_view (Some tina) "v1" 300 "r1" (Some tina);
             req_insert_view (Some tina) "v2" 301 "r1" (Some tina);
             req_update (Some tina) 302 "r1" (patch_view_count 1);
             req_update (Some tina) 303 "r1" (patch_view_count 1) ] in
  interleaving [c1; c2] s /\
  option_map view_count (find_resource school "r1") = Some 0 /\
  List.length (resource_views (run s school)) = 2%nat /\
  option_map view_count (find_resource (run s school) "r1") = Some 1.
Proof.
  intros c1 c2 s.
  assert (Hs : interleaving [c1; c2] s).
  { apply (@interleaving_next [] _ _ [c2]).
    apply (@interleaving_next [_] _ _ []).
    apply (@interleaving_next [] _ _ [_]).
    apply (@interleaving_next [_] _ _ []).
    apply interleaving_done; repeat constructor. }
  split; [exact Hs|]; split; [reflexivity|]; split; [reflexivity|].
  destruct (find_resource (run s school) "r1") as [r|] eqn:E; [|discriminate E].
  pose proof E as E'; vm_compute in E'; injection E' as E'.
  apply find_some in E; destruct E as [Hin Hid]; apply String.eqb_eq in Hid.
  cbn [option_map]; f_equal.
  apply (@concurrent_views_count_once school tina "r1" 0 [c1; c2] s).
  - discriminate.
  - repeat constructor; eexists; exists algebra_shown; repeat split.
  - reflexivity.
  - exact Hs.
  - exact Hin.
  - exact Hid.
  - left; rewrite <- E'; reflexivity.
Defined.

(** ** Resource creation *)

Lemma storage_upload_denied : forall db uid bucket path,
  teacher_or_admin db uid = false ->
  storage_upload db uid bucket path =
    (db, Some "new row violates row-level security policy").
Proof.
  intros db uid bucket path H; unfold storage_upload; rewrite H, andb_false_r.
  reflexivity.
Qed.

Lemma storage_upload_ok : forall db uid path,
  teacher_or_admin db uid = true ->
  existsb (fun o => (bucket_id o =? "learning-resources")%string &&
                    (object_name o =? path)%string)
          (storage_objects db) = false ->
  storage_upload db uid "learning-resources" path =
    (with_storage_objects
       (storage_objects db ++ [mk_object "learning-resources" path]) db, None).
Proof.
  intros db uid path Hrole Hfree; unfold storage_upload.
  rewrite Hrole, Hfree, String.eqb_refl; reflexivity.
Qed.

Lemma insert_resource_denied : forall db uid new_id now p,
  teacher_or_admin db uid = false ->
  insert_resource db uid new_id now p =
    (db, Some "new row violates row-level security policy for table resources").
Proof.
  intros db uid new_id now p H; unfold insert_resource; rewrite H, andb_false_r.
  reflexivity.
Qed.

Lemma insert_resource_ok : forall db u new_id now p,
  teacher_or_admin db (Some u) = true ->
  resource_exists db new_id = false ->
  match ins_category_id p with
  | Some cid => category_exists db cid = true
  | None => True
  end ->
  user_exists db (ins_uploaded_by p) = true ->
  insert_resource db (Some u) new_id now p =
    (with_resources (resources db ++ [new_resource_row new_id now p]) db, None).
Proof.
  intros db u new_id now p Hrole Hfresh Hcat Huser; unfold insert_resource.
  rewrite Hrole, Hfresh, Huser; cbn [authenticated andb negb].
  destruct (ins_category_id p) as [cid|]; [rewrite Hcat|]; reflexivity.
Qed.

(** C3. A submission by a principal that holds neither the teacher nor the
    admin role is rejected and leaves the backend as it was, the insert
    policy of the catalog refusing any row of such a principal.  A
    submission by a teacher or admin with a file, whose object-store write
    goes through and whose category, if any, exists, succeeds and adds
    exactly one row to the catalog, with both counters at 0. *)
Theorem createResource_policy : forall db form u e,
  (teacher_or_admin db (Some u) = false ->
     fst (handleUpload form (Some u) e db) = db /\
     (forall file, form_file form = Some file ->
                   exists m, snd (handleUpload form (Some u) e db) = toast_error m) /\
     (forall new_id now p,
         exists m, insert_resource db (Some u) new_id now p = (db, Some m))) /\
  (teacher_or_admin db (Some u) = true ->
   forall file, form_file form = Some file ->
     user_exists db u = true ->
     existsb (fun o => (bucket_id o =? "learning-resources")%string &&
                       (object_name o =? filePath u e file)%string)
             (storage_objects db) = false ->
     (form_categoryId form = "" \/ category_exists db (form_categoryId form) = true) ->
     resource_exists db (ue_new_id e) = false ->
     snd (handleUpload form (Some u) e db) = toast_success /\
     exists row,
       resources (fst (handleUpload form (Some u) e db)) = (resources db ++ [row])%list /\
       view_count row = 0 /\ download_count row = 0 /\
       id row = ue_new_id e /\ uploaded_by row = u).
Proof.
  intros db form u e; split.
  - intros Hrole; repeat split.
    + unfold handleUpload; destruct (form_file form) as [file|]; [|reflexivity].
      rewrite storage_upload_denied by exact Hrole; reflexivity.
    + intros file Hfile; unfold handleUpload; rewrite Hfile.
      rewrite storage_upload_denied by exact Hrole; eexists; reflexivity.
    + intros new_id now p; rewrite insert_resource_denied by exact Hrole.
      eexists; reflexivity.
  - intros Hrole file Hfile Huser Hfree Hcat Hfresh.
    unfold handleUpload; rewrite Hfile.
    rewrite storage_upload_ok by assumption.
    rewrite insert_resource_ok.
    + split; [reflexivity|].
      eexists; split; [reflexivity|]; repeat split.
    + exact Hrole.
    + exact Hfresh.
    + unfold upload_payload; cbn [ins_category_id truthy].
      destruct (String.eqb_spec (form_categoryId form) "") as [He|Hne];
        cbn [negb]; [exact I|].
      destruct Hcat as [Hcat|Hcat]; [contradiction | exact Hcat].
    + exact Huser.
Qed.

Lemma createResource_policy_witness :
  fst (handleUpload a_form (Some sam) an_upload school) = school /\
  snd (handleUpload a_form (Some tina) an_upload school) = toast_success /\
  exists row,
    resources (fst (handleUpload a_form (Some tina) an_upload school)) =
      (resources school ++ [row])%list /\
    view_count row = 0 /\ download_count row = 0 /\
    id row = "r2" /\ uploaded_by row = tina.
Proof.
  split.
  - apply (proj1 (createResource_policy school a_form sam an_upload)); reflexivity.
  - apply (proj2 (createResource_policy school a_form tina an_upload) eq_refl
             pdf_file eq_refl eq_refl eq_refl (or_introl eq_refl) eq_refl).
Defined.

(** ** Category deletion *)

Lemma category_gone : forall cid cs,
  existsb (fun c => (cat_id c =? cid)%string)
          (filter (fun c => negb (cat_id c =? cid)%string) cs) = false.
Proof.
  intros cid cs; induction cs as [|c cs IH]; [reflexivity|].
  cbn [filter]; destruct (cat_id c =? cid)%string eqn:E; cbn [negb]; [exact IH|].
  cbn [existsb]; rewrite E, IH; reflexivity.
Qed.

(** C7, as stated, fails on the code: Tina deletes the category "c1" that
    her resource references; the resource's [updated_at] moves from 100 to
    the time of the deletion, so the category reference is not the only
    field that changes. *)
Lemma delete_category_touches_updated_at :
  ~ Forall2 (only_category_reference_changes "c1")
      (resources school)
      (resources (fst (delete_category school (Some tina) 500 "c1"))).
Proof.
  intros H; inversion H as [|before after l l' Hrow _]; subst.
  unfold only_category_reference_changes in Hrow; cbn in Hrow.
  discriminate Hrow.
Qed.

(** C7, amended. Deleting a category that resources reference deletes none
    of them and changes none of their fields except the category reference,
    which becomes absent, and [updated_at], which the update trigger sets to
    the time of the deletion; such resources are then displayed as
    "Uncategorized".  Resources of other categories stay as they were. *)
Theorem delete_category_sets_null : forall db uid now cid viewer,
  authenticated uid = true ->
  teacher_or_admin db uid = true ->
  category_exists db cid = true ->
  category_exists (fst (delete_category db uid now cid)) cid = false /\
  Forall2 (fun before after =>
             same_but_category_and_updated_at before after /\
             (category_id before = Some cid ->
                category_id after = None /\ updated_at after = now /\
                category_label
                  (enrich (fst (delete_category db uid now cid)) viewer after) =
                  "Uncategorized") /\
             (category_id before <> Some cid -> after = before))
          (resources db) (resources (fst (delete_category db uid now cid))).
Proof.
  intros db uid now cid viewer Hauth Hrole Hex.
  unfold delete_category; rewrite Hauth, Hrole, Hex.
  cbn [andb fst]; split; [apply category_gone|].
  cbn [resources with_resources].
  apply Forall2_map_same; intros r _.
  destruct (category_id r) as [c|] eqn:Hc.
  - destruct (String.eqb_spec c cid) as [He|Hne].
    + subst c; split; [|split].
      * unfold same_but_category_and_updated_at; cbn; tauto.
      * intros _; repeat split.
      * intros Hdiff; contradiction Hdiff; reflexivity.
    + split; [|split].
      * unfold same_but_category_and_updated_at; tauto.
      * intros Heq; congruence.
      * reflexivity.
  - split; [|split].
    + unfold same_but_category_and_updated_at; tauto.
    + intros Heq; discriminate Heq.
    + reflexivity.
Qed.

Lemma delete_category_sets_null_witness :
  let after := fst (delete_category school (Some tina) 500 "c1") in
  category_exists after "c1" = false /\
  map id (resources after) = ["r1"] /\
  map category_id (resources after) = [None] /\
  map category_label (fetchResources after (Some sam)) = ["Uncategorized"].
Proof.
  intros after.
  destruct (@delete_category_sets_null school (Some tina) 500 "c1" (Some sam)
              eq_refl eq_refl eq_refl) as [Hgone Hrows].
  split; [exact Hgone|].
  fold after in Hrows.
  destruct (resources after) as [|r [|r' rest]] eqn:E;
    [inversion Hrows | | inversion Hrows as [|? ? ? ? _ Hrest]; inversion Hrest].
  inversion Hrows as [|? ? ? ? Hrow _]; subst.
  destruct Hrow as [Hsame [Hnull _]].
  destruct (Hnull eq_refl) as [Hcat [_ Hlabel]].
  split; [|split].
  - cbn [map]; destruct Hsame as [Hid _]; rewrite <- Hid; reflexivity.
  - cbn [map]; rewrite Hcat; reflexivity.
  - unfold fetchResources, select_resources; cbn [authenticated].
    rewrite E; cbn [order_created_at_desc insert_desc map].
    rewrite Hlabel; reflexivity.
Defined.

(** ** Listing *)

Lemma startsWith_iff : forall p s,
  startsWith s p = true <-> exists rest, s = p ++ rest.
Proof.
  induction p as [|a p IH]; intros s.
  - destruct s; simpl; split; intros _; try reflexivity; eexists; reflexivity.
  - destruct s as [|b s]; simpl.
    + split; [discriminate | intros [rest H]; discriminate H].
    + rewrite andb_true_iff, IH; split.
      * intros [Hab [rest ->]]; apply Ascii.eqb_eq in Hab; subst.
        exists rest; reflexivity.
      * intros [rest H]; injection H as -> ->; split;
          [apply Ascii.eqb_refl | exists rest; reflexivity].
Qed.






(** *** Containment, case ignored, on ASCII texts *)












Lemma filter_absent_key : forall (A : Type) (key : A -> string) (k : string) (l : list A),
  ~ In k (map key l) -> filter (fun y => (key y =? k)%string) l = [].
Proof.
  intros A key k l; induction l as [|y l IH]; intros H; [reflexivity|].
  cbn [filter]; destruct (String.eqb_spec (key y) k) as [He|Hne].
  - exfalso; apply H; left; exact He.
  - apply IH; intros Hin; apply H; right; exact Hin.
Qed.

Lemma filter_unique_key : forall (A : Type) (key : A -> string) (l : list A) (x : A),
  NoDup (map key l) -> In x l ->
  filter (fun y => (key y =? key x)%string) l = [x].
Proof.
  intros A key l x; induction l as [|y l IH]; intros Hnd Hin; [destruct Hin|].
  cbn [map] in Hnd; inversion Hnd as [|? ? Hy Hl]; subst.
  cbn [filter]; destruct Hin as [->|Hin].
  - rewrite String.eqb_refl, filter_absent_key by exact Hy; reflexivity.
  - destruct (String.eqb_spec (key y) (key x)) as [He|Hne]; [|apply IH; assumption].
    exfalso; apply Hy; rewrite He; apply in_map; exact Hin.
Qed.


Lemma insert_desc_perm : forall r l, Permutation (insert_desc r l) (r :: l).
Proof.
  intros r l; induction l as [|x l IH]; cbn [insert_desc]; [reflexivity|].
  destruct (created_at x <=? created_at r); [reflexivity|].
  rewrite IH; apply perm_swap.
Qed.

Lemma order_created_at_desc_perm : forall l, Permutation (order_created_at_desc l) l.
Proof.
  induction l as [|r l IH]; cbn [order_created_at_desc]; [reflexivity|].
  rewrite insert_desc_perm, IH; reflexivity.
Qed.

Lemma insert_desc_sorted : forall r l,
  StronglySorted row_newest_first l ->
  StronglySorted row_newest_first (insert_desc r l).
Proof.
  intros r l; induction l as [|x l IH]; intros Hs; cbn [insert_desc].
  - constructor; constructor.
  - inversion Hs as [|? ? Hl Hx]; subst.
    destruct (Z.leb_spec (created_at x) (created_at r)) as [Hle|Hgt].
    + constructor; [exact Hs|].
      constructor; [exact Hle|].
      rewrite Forall_forall in *; intros y Hy.
      specialize (Hx y Hy); unfold row_newest_first in *; lia.
    + constructor; [apply IH; exact Hl|].
      rewrite Forall_forall in *; intros y Hy.
      apply (Permutation_in _ (insert_desc_perm r l)) in Hy.
      destruct Hy as [<-|Hy]; [unfold row_newest_first; lia | apply Hx; exact Hy].
Qed.

Lemma order_created_at_desc_sorted : forall l,
  StronglySorted row_newest_first (order_created_at_desc l).
Proof.
  induction l as [|r l IH]; cbn [order_created_at_desc];
    [constructor | apply insert_desc_sorted; exact IH].
Qed.






(** ** View trends *)

Lemma count_on_cons : forall tz d v l,
  count_on tz d (v :: l) =
  (if toLocaleDateString tz (rv_viewed_at v) =? d then 1 else 0) + count_on tz d l.
Proof.
  intros tz d v l; unfold count_on; cbn [filter].
  destruct (toLocaleDateString tz (rv_viewed_at v) =? d); cbn [List.length]; lia.
Qed.

Lemma count_on_nonneg : forall tz d l, 0 <= count_on tz d l.
Proof. intros; unfold count_on; lia. Qed.

Lemma count_on_pos : forall tz d l,
  1 <= count_on tz d l <->
  exists v, In v l /\ toLocaleDateString tz (rv_viewed_at v) = d.
Proof.
  intros tz d l; induction l as [|v l IH].
  - unfold count_on; cbn; split; [lia | intros [v [[] _]]].
  - rewrite count_on_cons.
    destruct (Z.eqb_spec (toLocaleDateString tz (rv_viewed_at v)) d) as [He|Hne].
    + split; [intros _; exists v; split; [left; reflexivity | exact He]|].
      intros _; pose proof (count_on_nonneg tz d l); lia.
    + rewrite Z.add_0_l, IH; split.
      * intros [w [Hw Hd]]; exists w; split; [right; exact Hw | exact Hd].
      * intros [w [[<-|Hw] Hd]]; [contradiction | exists w; split; assumption].
Qed.

Lemma trends_get_set : forall trends d n d',
  trends_get (trends_set trends d n) d' =
  if d =? d' then Some n else trends_get trends d'.
Proof.
  intros trends d n d'; induction trends as [|[k m] rest IH]; cbn [trends_set trends_get].
  - destruct (d =? d'); reflexivity.
  - destruct (Z.eqb_spec k d) as [Hk|Hk]; cbn [trends_get].
    + subst k; destruct (d =? d'); reflexivity.
    + rewrite IH; destruct (Z.eqb_spec k d') as [Hk'|Hk']; [|reflexivity].
      subst k; destruct (Z.eqb_spec d d'); [congruence | reflexivity].
Qed.

Lemma trends_set_keys : forall trends d n k,
  In k (map fst (trends_set trends d n)) <-> k = d \/ In k (map fst trends).
Proof.
  intros trends d n k; induction trends as [|[k0 m] rest IH]; cbn [trends_set map fst In].
  - split; [intros [H|[]]; left; congruence | intros [H|[]]; left; congruence].
  - destruct (Z.eqb_spec k0 d) as [Hk|Hk]; cbn [map fst In].
    + subst k0; split; [intros [H|H]; [left; congruence | right; right; exact H]|].
      intros [H|[H|H]]; [left; congruence | left; exact H | right; exact H].
    + rewrite IH; tauto.
Qed.

Lemma trends_set_NoDup : forall trends d n,
  NoDup (map fst trends) -> NoDup (map fst (trends_set trends d n)).
Proof.
  intros trends d n; induction trends as [|[k m] rest IH]; intros H;
    cbn [trends_set map fst].
  - constructor; [intros [] | constructor].
  - cbn [map fst] in H; inversion H as [|? ? Hk Hrest]; subst.
    destruct (Z.eqb_spec k d) as [He|Hne]; cbn [map fst].
    + constructor; assumption.
    + constructor; [|apply IH; exact Hrest].
      rewrite trends_set_keys; intros [He|Hin]; [congruence | exact (Hk Hin)].
Qed.

Lemma trends_get_In : forall trends d n,
  NoDup (map fst trends) ->
  (In (d, n) trends <-> trends_get trends d = Some n).
Proof.
  intros trends d n; induction trends as [|[k m] rest IH]; intros H; cbn [trends_get In].
  - split; [intros [] | discriminate].
  - cbn [map fst] in H; inversion H as [|? ? Hk Hrest]; subst.
    destruct (Z.eqb_spec k d) as [He|Hne].
    + subst k; split.
      * intros [Heq|Hin]; [congruence|].
        exfalso; apply Hk; apply in_map_iff; exists (d, n); split; [reflexivity | exact Hin].
      * intros Heq; left; congruence.
    + rewrite <- (IH Hrest); split; [intros [Heq|Hin]; [congruence | exact Hin]|].
      intros Hin; right; exact Hin.
Qed.

Lemma count_view_get : forall tz trends v d,
  trends_get (count_view tz trends v) d =
  if toLocaleDateString tz (rv_viewed_at v) =? d
  then Some (match trends_get trends d with Some n => n | None => 0 end + 1)
  else trends_get trends d.
Proof.
  intros tz trends v d; unfold count_view; rewrite trends_get_set.
  destruct (Z.eqb_spec (toLocaleDateString tz (rv_viewed_at v)) d) as [He|Hne];
    [|reflexivity].
  rewrite He; destruct (trends_get trends d) as [n|]; [|reflexivity].
  destruct (Z.eqb_spec n 0) as [Hz|Hz]; [subst n|]; reflexivity.
Qed.

Lemma fold_count_view_get : forall tz l trends d,
  trends_get (fold_left (count_view tz) l trends) d =
  match trends_get trends d with
  | Some n => Some (n + count_on tz d l)
  | None => if count_on tz d l =? 0 then None else Some (count_on tz d l)
  end.
Proof.
  intros tz l; induction l as [|v l IH]; intros trends d; cbn [fold_left].
  - unfold count_on; cbn; destruct (trends_get trends d); [f_equal; lia | reflexivity].
  - rewrite IH, count_view_get, count_on_cons.
    pose proof (count_on_nonneg tz d l) as Hpos.
    destruct (toLocaleDateString tz (rv_viewed_at v) =? d).
    + destruct (trends_get trends d) as [n|].
      * f_equal; lia.
      * destruct (Z.eqb_spec (1 + count_on tz d l) 0); [lia | f_equal; lia].
    + destruct (trends_get trends d) as [n|]; [f_equal; lia|].
      rewrite Z.add_0_l; reflexivity.
Qed.

Lemma fold_count_view_NoDup : forall tz l trends,
  NoDup (map fst trends) -> NoDup (map fst (fold_left (count_view tz) l trends)).
Proof.
  intros tz l; induction l as [|v l IH]; intros trends H; cbn [fold_left]; [exact H|].
  apply IH; unfold count_view; apply trends_set_NoDup; exact H.
Qed.

Lemma viewData_teacher : forall db uid now,
  authenticated uid = true -> teacher_or_admin db uid = true ->
  viewData db uid now =
  filter (fun v => now - SEVEN_DAYS_MS <=? rv_viewed_at v) (resource_views db).
Proof.
  intros db uid now Ha Hr; unfold viewData, select_resource_views.
  rewrite Ha, Hr; reflexivity.
Qed.

Lemma window_events_on_count : forall db tz now d,
  window_events_on db tz now d =
  count_on tz d (filter (fun v => now - SEVEN_DAYS_MS <=? rv_viewed_at v)
                        (resource_views db)).
Proof.
  intros db tz now d; unfold window_events_on, count_on; do 2 f_equal.
  induction (resource_views db) as [|v l IH]; cbn [filter]; [reflexivity|].
  destruct (now - SEVEN_DAYS_MS <=? rv_viewed_at v); cbn [andb filter];
    [|exact IH].
  destruct (toLocaleDateString tz (rv_viewed_at v) =? d); rewrite IH; reflexivity.
Qed.

Lemma window_dates : forall tz now t,
  now - SEVEN_DAYS_MS <= t -> t <= now -> tz t = tz now ->
  today tz now - 7 <= toLocaleDateString tz t <= today tz now.
Proof.
  intros tz now t Hlo Hhi Hzone; unfold today, toLocaleDateString; rewrite Hzone.
  assert (Hday : 0 < DAY_MS) by (unfold DAY_MS; lia).
  assert (Hshift : (now + tz now + (-7) * DAY_MS) / DAY_MS =
                   (now + tz now) / DAY_MS + -7)
    by (apply Z.div_add; lia).
  assert (Hlow : (now + tz now + (-7) * DAY_MS) / DAY_MS <= (t + tz now) / DAY_MS).
  { apply Z.div_le_mono; [exact Hday|]. unfold SEVEN_DAYS_MS, DAY_MS in *; lia. }
  assert (Hup : (t + tz now) / DAY_MS <= (now + tz now) / DAY_MS)
    by (apply Z.div_le_mono; [exact Hday | lia]).
  lia.
Qed.

(** C6, as stated, fails on the code: with events over ten days and the
    query at noon of day 10, the trend has eight buckets; the first is for
    day 3, which is not among the seven most recent dates, and counts 1 of
    the 2 events of that date, the one at 06:00 being older than 7 x 24
    hours. *)
Lemma view_trend_has_partial_eighth_day :
  today utc (at_day 10 12) = 10 /\
  List.length (viewTrends ten_days (Some tina) utc (at_day 10 12)) = 8%nat /\
  In (mk_ViewTrend 3 1) (viewTrends ten_days (Some tina) utc (at_day 10 12)) /\
  events_on ten_days utc 3 = 2 /\
  ~ view_trend_of_last_7_dates ten_days (Some tina) utc (at_day 10 12).
Proof.
  split; [reflexivity|]; split; [reflexivity|].
  split; [left; reflexivity|]; split; [reflexivity|].
  intros H; destruct (H (mk_ViewTrend 3 1)) as [[Hlo _] _]; [left; reflexivity|].
  vm_compute in Hlo; apply Hlo; reflexivity.
Qed.

(** The dates of the buckets follow the zone's clock: when the zone's
    offset changes inside the window, an event of the window can fall on
    the eighth date before the query date.  Here the event is 6 days 23
    hours 50 minutes old, at 23:30 local time of day 3, and the query runs
    at 00:20 local time of day 11. *)
Lemma zone_change_reaches_a_ninth_date :
  today (summer_time_from (at_day 7 1)) (at_day 10 22 + 20 * minute) = 11 /\
  viewTrends spring_week (Some tina) (summer_time_from (at_day 7 1))
    (at_day 10 22 + 20 * minute) = [mk_ViewTrend 3 1].
Proof. split; reflexivity. Qed.

(** C6, amended. For a teacher or admin, the view trend has one bucket per
    calendar date on which a view event not older than 7 x 24 hours at
    query time falls, and each bucket counts the events of its date that
    are not older than that.  When no such event is later than the query
    time and the zone's offset at each of them is the offset at query time,
    the dates are among the 8 calendar dates from 7 days before the query
    date to the query date. *)
Theorem viewTrends_window : forall db uid tz now,
  authenticated uid = true ->
  teacher_or_admin db uid = true ->
  NoDup (map date (viewTrends db uid tz now)) /\
  (forall d n, In (mk_ViewTrend d n) (viewTrends db uid tz now) <->
               n = window_events_on db tz now d /\ 1 <= n) /\
  ((forall v, In v (resource_views db) -> now - SEVEN_DAYS_MS <= rv_viewed_at v ->
              rv_viewed_at v <= now /\ tz (rv_viewed_at v) = tz now) ->
   forall b, In b (viewTrends db uid tz now) ->
             today tz now - 7 <= date b <= today tz now).
Proof.
  intros db uid tz now Ha Hr.
  unfold viewTrends; rewrite (viewData_teacher db uid now Ha Hr).
  set (data := filter (fun v => now - SEVEN_DAYS_MS <=? rv_viewed_at v)
                      (resource_views db)).
  set (trends := fold_left (count_view tz) data []).
  assert (Hnd : NoDup (map fst trends))
    by (apply fold_count_view_NoDup; constructor).
  assert (Hin : forall d n,
             In (mk_ViewTrend d n)
                (map (fun entry => mk_ViewTrend (fst entry) (snd entry)) trends) <->
             n = count_on tz d data /\ 1 <= n).
  { intros d n; rewrite in_map_iff; split.
    - intros [[d' n'] [Heq Hin]]; cbn [fst snd] in Heq; injection Heq as -> ->.
      apply (trends_get_In _ _ _ Hnd) in Hin.
      unfold trends in Hin; rewrite fold_count_view_get in Hin; cbn [trends_get] in Hin.
      pose proof (count_on_nonneg tz d data).
      destruct (Z.eqb_spec (count_on tz d data) 0); [discriminate Hin|].
      injection Hin as <-; lia.
    - intros [-> Hpos]; exists (d, count_on tz d data); split; [reflexivity|].
      apply (trends_get_In _ _ _ Hnd).
      unfold trends; rewrite fold_count_view_get; cbn [trends_get].
      destruct (Z.eqb_spec (count_on tz d data) 0); [lia | reflexivity]. }
  split; [|split].
  - rewrite map_map; cbn [date]; exact Hnd.
  - intros d n; rewrite Hin, window_events_on_count; reflexivity.
  - intros Hpast [d n] Hb; cbn [date].
    apply Hin in Hb; destruct Hb as [-> Hpos].
    apply count_on_pos in Hpos; destruct Hpos as [v [Hv <-]].
    unfold data in Hv; apply filter_In in Hv; destruct Hv as [Hv Hw].
    apply Z.leb_le in Hw.
    destruct (Hpast v Hv Hw) as [Hle Hzone].
    apply window_dates; assumption.
Qed.

Lemma viewTrends_window_witness :
  In (mk_ViewTrend 3 1) (viewTrends ten_days (Some tina) utc (at_day 10 12)) /\
  NoDup (map date (viewTrends ten_days (Some tina) utc (at_day 10 12))) /\
  forall b, In b (viewTrends ten_days (Some tina) utc (at_day 10 12)) ->
            3 <= date b <= 10.
Proof.
  destruct (viewTrends_window ten_days (Some tina) utc (at_day 10 12) eq_refl eq_refl)
    as [Hnd [Hin Hdates]].
  split; [|split].
  - apply Hin; split; [reflexivity | lia].
  - exact Hnd.
  - apply Hdates; intros v Hv _; split; [|reflexivity]; cbn in Hv.
    repeat (destruct Hv as [<-|Hv]; [vm_compute; discriminate|]); destruct Hv.
Defined.

(** * Further properties of the code *)

(** ** File kinds *)

(** The kind stored with an upload is "video" exactly for MIME types that
    begin with "video/", "image" exactly for those that begin with
    "image/", "pdf" exactly for "application/pdf" and "other" for every
    other type; the comparison is case-sensitive. *)
Theorem getFileType_classifies : forall file,
  (getFileType file = "video" <-> exists rest, File.type file = "video/" ++ rest) /\
  (getFileType file = "image" <-> exists rest, File.type file = "image/" ++ rest) /\
  (getFileType file = "pdf" <-> File.type file = "application/pdf") /\
  (getFileType file = "other" <->
     (forall rest, File.type file <> "video/" ++ rest) /\
     (forall rest, File.type file <> "image/" ++ rest) /\
     File.type file <> "application/pdf") /\
  getFileType (File.mk "clip" "Video/mp4" 1) = "other".
Proof.
  intros file; unfold getFileType.
  destruct (startsWith (File.type file) "video/") eqn:Hv.
  - apply startsWith_iff in Hv; destruct Hv as [rest Hv]; rewrite Hv.
    repeat split; try discriminate; try (intros _; exists rest; reflexivity).
    + intros [rest' H]; discriminate H.
    + intros [H _]; exfalso; apply (H rest); reflexivity.
  - assert (Hnv : forall rest, File.type file <> "video/" ++ rest).
    { intros rest H.
      assert (Ht : startsWith (File.type file) "video/" = true)
        by (apply startsWith_iff; exists rest; exact H).
      congruence. }
    destruct (startsWith (File.type file) "image/") eqn:Hi.
    + apply startsWith_iff in Hi; destruct Hi as [rest Hi].
      repeat split; try discriminate; try (intros _; exists rest; exact Hi).
      * intros [rest' H]; exfalso; exact (Hnv rest' H).
      * intros H; rewrite H in Hi; discriminate Hi.
      * intros [_ [H _]]; exfalso; exact (H rest Hi).
    + assert (Hni : forall rest, File.type file <> "image/" ++ rest).
      { intros rest H.
        assert (Ht : startsWith (File.type file) "image/" = true)
          by (apply startsWith_iff; exists rest; exact H).
        congruence. }
      destruct (String.eqb_spec (File.type file) "application/pdf") as [Hp|Hp].
      * repeat split; try discriminate; try (intros _; exact Hp).
        -- intros [rest H]; exfalso; exact (Hnv rest H).
        -- intros [rest H]; exfalso; exact (Hni rest H).
        -- intros [_ [_ H]]; contradiction.
      * repeat split; try discriminate; try assumption.
        -- intros [rest H]; exfalso; exact (Hnv rest H).
        -- intros [rest H]; exfalso; exact (Hni rest H).
        -- intros H; contradiction.
Qed.

(** ** Navigation *)

Lemma role_is_true : forall userRole s, role_is userRole s = true <-> userRole = Some s.
Proof.
  intros [r|] s; cbn [role_is]; [rewrite String.eqb_eq|]; split; congruence.
Qed.

Lemma nav_hrefs : forall userRole path,
  In path (map href (getNavItems userRole)) <->
  path = "/dashboard" \/
  ((path = "/upload" \/ path = "/analytics") /\
   (userRole = Some "teacher" \/ userRole = Some "admin")) \/
  (path = "/users" /\ userRole = Some "admin").
Proof.
  intros userRole path; unfold getNavItems, role_is.
  destruct userRole as [r|]; cbn [orb app map href In].
  - destruct (String.eqb_spec r "teacher") as [Ht|Ht];
      destruct (String.eqb_spec r "admin") as [Ha|Ha];
      subst; try discriminate; cbn [orb app map href In];
      split; intros H;
      repeat match goal with
             | H : _ \/ _ |- _ => destruct H as [H|H]
             | H : _ /\ _ |- _ => destruct H
             | H : False |- _ => destruct H
             | H : Some _ = Some _ |- _ => injection H as H
             end;
      subst; try congruence; auto 8.
  - split; intros H;
      repeat match goal with
             | H : _ \/ _ |- _ => destruct H as [H|H]
             | H : _ /\ _ |- _ => destruct H
             | H : False |- _ => destruct H
             end;
      subst; try congruence; auto 8.
Qed.

(** Every link the layout shows to a signed-in user leads to a route that
    the guard renders for that user, whatever the role, a missing one
    included: the navigation bar never offers a link that bounces. *)
Theorem nav_items_pass_guard : forall ctx u item,
  loading ctx = false -> user ctx = Some u ->
  In item (getNavItems (userRole ctx)) ->
  exists p, App ctx (href item) = Render p.
Proof.
  intros ctx u item Hload Hu Hin.
  assert (Hpath : In (href item) (map href (getNavItems (userRole ctx))))
    by (apply in_map; exact Hin).
  apply nav_hrefs in Hpath.
  destruct Hpath as [H|[[[H|H] [Hr|Hr]]|[H Hr]]]; rewrite H;
    unfold App, ProtectedRoute; cbn [String.eqb Ascii.eqb Bool.eqb];
    rewrite Hload, Hu; try rewrite Hr; cbn; eexists; reflexivity.
Qed.

Lemma nav_items_pass_guard_witness :
  exists p, App (mk_auth (Some tina) (Some "teacher") false) "/analytics" = Render p.
Proof.
  apply (nav_items_pass_guard (mk_auth (Some tina) (Some "teacher") false) tina
           (mk_nav_item "/analytics" "Analytics" ["teacher"; "admin"]) eq_refl eq_refl).
  right; right; left; reflexivity.
Defined.

(** For a signed-in user whose role is present, a gated route is rendered
    by the guard exactly when the layout links to it.  (With a missing role
    the two differ: the guard renders every gated route, the layout links to
    none.) *)
Theorem guard_renders_iff_linked : forall ctx u role path required,
  loading ctx = false -> user ctx = Some u ->
  userRole ctx = Some role -> role <> "" ->
  In (path, required) gated_routes ->
  ((exists p, App ctx path = Render p) <->
   In path (map href (getNavItems (userRole ctx)))) /\
  (exists p, App (mk_auth (Some u) None false) path = Render p) /\
  ~ In path (map href (getNavItems None)).
Proof.
  intros ctx u role path required Hload Hu Hrole Hne Hin.
  apply truthy_Some in Hne.
  assert (Hnone : ~ In path (map href (getNavItems None))).
  { cbn; intros [H|[]]; subst.
    cbn in Hin; destruct Hin as [H|[H|[H|[]]]]; discriminate H. }
  split; [|split; [|exact Hnone]].
  - rewrite nav_hrefs, Hrole.
    cbn in Hin; destruct Hin as [H|[H|[H|[]]]]; injection H as <- <-;
      unfold App, ProtectedRoute; cbn [String.eqb Ascii.eqb Bool.eqb];
      rewrite Hload, Hu, Hrole, Hne; cbn [andb role_included existsb].
    + destruct (String.eqb_spec "teacher" role) as [Ht|Ht];
        [|destruct (String.eqb_spec "admin" role) as [Ha|Ha]]; subst; cbn.
      * split; [auto 6 | intros _; eexists; reflexivity].
      * split; [auto 6 | intros _; eexists; reflexivity].
      * split; [intros [p H]; discriminate H|].
        intros [H|[[_ [H|H]]|[H _]]]; try discriminate H; injection H as H; congruence.
    + destruct (String.eqb_spec "teacher" role) as [Ht|Ht];
        [|destruct (String.eqb_spec "admin" role) as [Ha|Ha]]; subst; cbn.
      * split; [auto 6 | intros _; eexists; reflexivity].
      * split; [auto 6 | intros _; eexists; reflexivity].
      * split; [intros [p H]; discriminate H|].
        intros [H|[[_ [H|H]]|[H _]]]; try discriminate H; injection H as H; congruence.
    + destruct (String.eqb_spec "admin" role) as [Ha|Ha]; subst; cbn.
      * split; [auto 6 | intros _; eexists; reflexivity].
      * split; [intros [p H]; discriminate H|].
        intros [H|[[[H|H] _]|[_ H]]]; try discriminate H; injection H as H; congruence.
  - cbn in Hin; destruct Hin as [H|[H|[H|[]]]]; injection H as <- <-;
      eexists; reflexivity.
Qed.

Lemma guard_renders_iff_linked_witness :
  ~ (exists p, App (mk_auth (Some sam) (Some "student") false) "/upload" = Render p) /\
  (exists p, App (mk_auth (Some tina) (Some "teacher") false) "/upload" = Render p).
Proof.
  split.
  - intros H.
    apply (proj1 (guard_renders_iff_linked
                    (mk_auth (Some sam) (Some "student") false) sam "student"
                    "/upload" ["teacher"; "admin"] eq_refl eq_refl eq_refl
                    ltac:(discriminate) (or_introl eq_refl))) in H.
    cbn in H; destruct H as [H|[]]; discriminate H.
  - apply (proj1 (guard_renders_iff_linked
                    (mk_auth (Some tina) (Some "teacher") false) tina "teacher"
                    "/upload" ["teacher"; "admin"] eq_refl eq_refl eq_refl
                    ltac:(discriminate) (or_introl eq_refl))).
    cbn; right; left; reflexivity.
Defined.

(** A redirect is never followed by another one: a visit that is sent to
    the authentication route finds it rendered, and a visit that is sent to
    the dashboard route, by the guard or by the landing page, finds the
    dashboard or its loading indicator. *)
Theorem redirects_settle : forall ctx path to,
  visit ctx path = Navigate to ->
  (to = "/auth" /\ user ctx = None /\ visit ctx to = Render Auth) \/
  (to = "/dashboard" /\ user ctx <> None /\
   (visit ctx to = Render Dashboard \/ visit ctx to = Loader)).
Proof.
  intros ctx path to H.
  assert (Hauth : visit ctx "/auth" = Render Auth) by reflexivity.
  assert (Hdash : visit ctx "/dashboard" =
                  if loading ctx then Loader
                  else match user ctx with
                       | None => Navigate "/auth"
                       | Some _ => Render Dashboard
                       end).
  { unfold visit, App, ProtectedRoute; cbn [String.eqb Ascii.eqb Bool.eqb].
    destruct (loading ctx); [reflexivity|]; destruct (user ctx); reflexivity. }
  assert (Hguard : forall required children,
             children <> Index ->
             match ProtectedRoute ctx required children with
             | Render Index => False
             | Render _ | Loader => True
             | Navigate t =>
                 (t = "/auth" /\ user ctx = None /\ loading ctx = false) \/
                 (t = "/dashboard" /\ user ctx <> None /\ loading ctx = false)
             end).
  { intros required children Hc; unfold ProtectedRoute.
    destruct (loading ctx); [exact I|].
    destruct (user ctx) as [u|]; [|left; auto].
    destruct required as [rs|]; [|destruct children; try exact I; congruence].
    destruct (userRole ctx) as [r|]; [|destruct children; try exact I; congruence].
    destruct (truthy (Some r) && negb (role_included rs r));
      [right; repeat split; discriminate|].
    destruct children; try exact I; congruence. }
  assert (Hsettle : forall t,
             (t = "/auth" /\ user ctx = None /\ loading ctx = false) \/
             (t = "/dashboard" /\ user ctx <> None /\ loading ctx = false) ->
             (t = "/auth" /\ user ctx = None /\ visit ctx t = Render Auth) \/
             (t = "/dashboard" /\ user ctx <> None /\
              (visit ctx t = Render Dashboard \/ visit ctx t = Loader))).
  { intros t [[-> [Hu Hl]]|[-> [Hu Hl]]]; [left; auto|right].
    repeat split; [exact Hu|]; rewrite Hdash, Hl.
    destruct (user ctx); [left; reflexivity | contradiction Hu; reflexivity]. }
  unfold visit, App in H.
  destruct (path =? "/")%string.
  - unfold Index_effect in H; destruct (user ctx) as [u|] eqn:Hu; [|discriminate H].
    injection H as <-; right; repeat split; [discriminate|].
    rewrite Hdash; destruct (loading ctx); [right | left]; reflexivity.
  - destruct (path =? "/auth")%string; [discriminate H|].
    destruct (path =? "/dashboard")%string;
      [|destruct (path =? "/upload")%string;
        [|destruct (path =? "/analytics")%string;
          [|destruct (path =? "/users")%string; [|discriminate H]]]];
      match type of H with
      | context [ProtectedRoute ctx ?rq ?ch] =>
          pose proof (Hguard rq ch ltac:(discriminate)) as Hg;
          destruct (ProtectedRoute ctx rq ch) as [|t|p];
          [discriminate H | | destruct p; discriminate H || contradiction]
      end;
      injection H as <-; apply Hsettle; exact Hg.
Qed.

Lemma redirects_settle_witness :
  visit (mk_auth None None false) "/auth" = Render Auth /\
  (visit (mk_auth (Some sam) (Some "student") false) "/dashboard" = Render Dashboard \/
   visit (mk_auth (Some sam) (Some "student") false) "/dashboard" = Loader).
Proof.
  split.
  - destruct (redirects_settle (mk_auth None None false) "/users" "/auth" eq_refl)
      as [[_ [_ H]]|[H _]]; [exact H | discriminate H].
  - destruct (redirects_settle (mk_auth (Some sam) (Some "student") false) "/"
                "/dashboard" eq_refl) as [[H _]|[_ [_ H]]]; [discriminate H | exact H].
Defined.

(** ** Deleting a resource *)

Lemma filter_all : forall (A : Type) (f : A -> bool) (l : list A),
  (forall x, In x l -> f x = true) -> filter f l = l.
Proof.
  intros A f l; induction l as [|x l IH]; intros H; cbn [filter]; [reflexivity|].
  rewrite (H x (or_introl eq_refl)), IH; [reflexivity|].
  intros y Hy; apply H; right; exact Hy.
Qed.

Lemma database_eta : forall db,
  with_resource_views (resource_views db) (with_resources (resources db) db) = db.
Proof. intros []; reflexivity. Qed.

Lemma can_delete_other : forall db s r,
  has_role db (Some s) admin = false -> uploaded_by r <> s ->
  can_delete_resource db (Some s) r = false.
Proof.
  intros db s r Hadmin Hown; unfold can_delete_resource; cbn [authenticated is_uid andb].
  rewrite Hadmin, orb_false_r; apply String.eqb_neq; congruence.
Qed.

(** A delete by a user who neither owns the resource nor is an admin
    removes nothing, neither the row nor any view event, and the upload
    page still announces "Resource deleted successfully": the policy hides
    the row from the delete, which then reports no error. *)
Theorem handleDelete_by_other_reports_success : forall db s rid,
  has_role db (Some s) admin = false ->
  (forall r, In r (resources db) -> id r = rid -> uploaded_by r <> s) ->
  handleDelete true (Some s) rid db = (db, toast_success).
Proof.
  intros db s rid Hadmin Hown; unfold handleDelete, delete_resource; cbn [negb].
  assert (Hkeep : forall r, In r (resources db) ->
            (id r =? rid)%string && can_delete_resource db (Some s) r = false).
  { intros r Hr; destruct (String.eqb_spec (id r) rid) as [He|Hne]; [|reflexivity].
    cbn [andb]; apply can_delete_other; [exact Hadmin | exact (Hown r Hr He)]. }
  rewrite (filter_all _ _ (resources db)), (filter_all _ _ (resource_views db)).
  - rewrite database_eta; reflexivity.
  - intros v _; apply negb_true_iff.
    destruct (existsb _ (resources db)) eqn:E; [|reflexivity].
    apply existsb_exists in E; destruct E as [r [Hr E]].
    rewrite (Hkeep r Hr) in E; discriminate E.
  - intros r Hr; rewrite (Hkeep r Hr); reflexivity.
Qed.

Lemma handleDelete_by_other_reports_success_witness :
  handleDelete true (Some sam) "r1" school = (school, toast_success).
Proof.
  apply handleDelete_by_other_reports_success; [reflexivity|].
  intros r [<-|[]] _; discriminate.
Defined.

(** A delete by the owner needs no role: afterwards no row with the id is
    left, every other row is, the view events of the deleted resource are
    gone with it and all others stay; the stored file is not removed. *)
Theorem handleDelete_by_owner : forall db u rid,
  (forall r, In r (resources db) -> id r = rid -> uploaded_by r = u) ->
  snd (handleDelete true (Some u) rid db) = toast_success /\
  (forall r, In r (resources (fst (handleDelete true (Some u) rid db))) <->
             In r (resources db) /\ id r <> rid) /\
  (forall v, In v (resource_views (fst (handleDelete true (Some u) rid db))) <->
             In v (resource_views db) /\
             (rv_resource_id v = rid -> ~ In rid (map id (resources db)))) /\
  storage_objects (fst (handleDelete true (Some u) rid db)) = storage_objects db.
Proof.
  intros db u rid Hown; unfold handleDelete, delete_resource; cbn [negb fst snd].
  assert (Hdel : forall r, In r (resources db) ->
            (id r =? rid)%string && can_delete_resource db (Some u) r = (id r =? rid)%string).
  { intros r Hr; destruct (String.eqb_spec (id r) rid) as [He|Hne]; [|reflexivity].
    cbn [andb]; unfold can_delete_resource; cbn [authenticated is_uid andb].
    rewrite (Hown r Hr He), String.eqb_refl; reflexivity. }
  split; [reflexivity|]; split; [|split; [|reflexivity]].
  - intros r; cbn [resources with_resource_views with_resources].
    rewrite filter_In; split.
    + intros [Hr Hk]; split; [exact Hr|].
      rewrite (Hdel r Hr) in Hk; apply negb_true_iff, String.eqb_neq in Hk; exact Hk.
    + intros [Hr Hne]; split; [exact Hr|].
      rewrite (Hdel r Hr); apply negb_true_iff, String.eqb_neq; exact Hne.
  - intros v; cbn [resource_views with_resource_views].
    rewrite filter_In; split.
    + intros [Hv Hk]; split; [exact Hv|].
      intros He Hin; apply in_map_iff in Hin; destruct Hin as [r [Hid Hr]].
      apply negb_true_iff in Hk.
      assert (Ht : existsb (fun r0 => (id r0 =? rid)%string &&
                                      can_delete_resource db (Some u) r0 &&
                                      (id r0 =? rv_resource_id v)%string)
                           (resources db) = true).
      { apply existsb_exists; exists r; split; [exact Hr|].
        rewrite (Hdel r Hr), He, Hid, String.eqb_refl; reflexivity. }
      congruence.
    + intros [Hv Hk]; split; [exact Hv|].
      apply negb_true_iff.
      destruct (existsb _ (resources db)) eqn:E; [|reflexivity].
      apply existsb_exists in E; destruct E as [r [Hr E]].
      rewrite (Hdel r Hr) in E; apply andb_true_iff in E; destruct E as [E1 E2].
      apply String.eqb_eq in E1, E2.
      exfalso; apply Hk; [congruence|].
      apply in_map_iff; exists r; split; [exact E1 | exact Hr].
Qed.

Lemma handleDelete_by_owner_witness :
  map id (resources (fst (handleDelete true (Some tina) "r1" busy_school))) = ["r2"] /\
  map rv_id (resource_views (fst (handleDelete true (Some tina) "r1" busy_school))) = ["v2"] /\
  storage_objects (fst (handleDelete true (Some tina) "r1" busy_school)) =
    storage_objects busy_school.
Proof.
  destruct (handleDelete_by_owner busy_school tina "r1") as [_ [_ [_ Hs]]].
  - intros r [<-|[<-|[]]] H; [reflexivity | discriminate H].
  - split; [reflexivity|]; split; [reflexivity | exact Hs].
Defined.

(** ** Counters under the update policy *)

(** For the owner of the resource or an admin, [handleView] writes the
    count of the displayed copy plus one whatever count is stored: see
    [handleView_owner_or_admin].  A copy that shows 0 while 7 is stored
    brings the counter down to 1. *)
Lemma handleView_owner_or_admin_witness :
  map view_count (resources busy_school) = [7; 3] /\
  map view_count
      (resources (handleView (Some tina) (mk_view_env "v9" 300 301) algebra_shown
                    busy_school)) = [1; 3].
Proof.
  split; [reflexivity|].
  destruct (handleView_owner_or_admin busy_school tina (mk_view_env "v9" 300 301)
              algebra_shown eq_refl eq_refl eq_refl) as [_ Hrows].
  remember (resources (handleView (Some tina) (mk_view_env "v9" 300 301)
                         algebra_shown busy_school)) as after eqn:E.
  cbn [resources busy_school with_resource_views with_resources] in Hrows.
  inversion Hrows as [|r1 a1 l1 l1' [Hfirst _] Hrest]; subst.
  inversion Hrest as [|r2 a2 l2 l2' [_ Hsecond] Hnil]; subst.
  inversion Hnil; subst.
  cbn [map]; rewrite (Hfirst eq_refl (or_introl eq_refl)), (Hsecond ltac:(discriminate)).
  reflexivity.
Defined.

(** A download by a viewer who neither owns the resource nor is an admin
    changes nothing in the backend: the download is not counted.  For the
    owner the stored [download_count] becomes the displayed count plus
    one. *)
Theorem handleDownload_by_viewer : forall db s now resource,
  (has_role db (Some s) admin = false ->
   (forall r, In r (resources db) -> id r = id (res_row resource) ->
              uploaded_by r <> s) ->
   handleDownload (Some s) now resource db = db) /\
  (int4_ok (download_count (res_row resource) + 1) = true ->
   forall r, In r (resources db) -> id r = id (res_row resource) ->
             uploaded_by r = s ->
             In (update_updated_at_column now
                   (set_download_count (download_count (res_row resource) + 1) r))
                (resources (handleDownload (Some s) now resource db))).
Proof.
  intros db s now resource; unfold handleDownload, handleDownload_requests, run.
  cbn [fold_left exec]; unfold update_resource; cbn [patch_value]; split.
  - intros Hadmin Hown.
    destruct (int4_ok _); cbn [negb fst]; [|reflexivity].
    rewrite <- (database_eta db) at 3.
    destruct db as [au ur pf cs rs vs os]; unfold with_resources, with_resource_views.
    cbn [auth_users user_roles profiles categories resources resource_views
         storage_objects] in *.
    f_equal; rewrite <- (map_id rs) at 2.
    apply map_ext_in; intros r Hr.
    destruct (String.eqb_spec (id r) (id (res_row resource))) as [He|Hne];
      cbn [andb]; [|reflexivity].
    unfold can_update_resource; cbn [authenticated is_uid andb].
    rewrite Hadmin, orb_false_r.
    destruct (String.eqb_spec s (uploaded_by r)) as [Hs|Hs]; [|reflexivity].
    exfalso; apply (Hown r Hr He); symmetry; exact Hs.
  - intros Hok r Hr Hid Hown; rewrite Hok; cbn [negb fst with_resources resources].
    apply in_map_iff; exists r; split; [|exact Hr].
    rewrite Hid, String.eqb_refl; unfold can_update_resource.
    cbn [authenticated is_uid andb apply_patch].
    rewrite Hown, String.eqb_refl; reflexivity.
Qed.

Lemma handleDownload_by_viewer_witness :
  handleDownload (Some sam) 400 algebra_shown school = school /\
  map download_count (resources (handleDownload (Some tina) 400 algebra_shown school)) = [1].
Proof.
  pose proof (handleDownload_by_viewer school sam 400 algebra_shown) as [Hs _].
  pose proof (handleDownload_by_viewer school tina 400 algebra_shown) as [_ Ht].
  split.
  - apply Hs; [reflexivity|].
    intros r [<-|[]] _; discriminate.
  - specialize (Ht eq_refl algebra (or_introl eq_refl) eq_refl eq_refl).
    destruct (resources (handleDownload (Some tina) 400 algebra_shown school))
      as [|a [|b rest]] eqn:E; try (vm_compute in E; discriminate E).
    destruct Ht as [Ha|[]]; rewrite Ha; reflexivity.
Defined.

(** ** The upload page's own list *)

Lemma In_order_created_at_desc : forall r l,
  In r (order_created_at_desc l) <-> In r l.
Proof.
  intros r l; split; apply Permutation_in;
    [|apply Permutation_sym]; apply order_created_at_desc_perm.
Qed.

(** Without a user nothing is fetched.  For a user the list holds exactly
    the resources that user uploaded, each once per stored row, newest
    first. *)
Theorem fetchMyResources_own_newest_first : forall db u,
  fetchMyResources db None = None /\
  exists l,
    fetchMyResources db (Some u) = Some l /\
    StronglySorted my_newest_first l /\
    (forall item, In item l <->
       exists r, In r (resources db) /\ uploaded_by r = u /\
                 item = my_resource db (Some u) r) /\
    List.length l =
      List.length (filter (fun r => (uploaded_by r =? u)%string) (resources db)).
Proof.
  intros db u; split; [reflexivity|].
  eexists; split; [reflexivity|].
  unfold select_resources; cbn [authenticated].
  set (own := filter (fun r => (uploaded_by r =? u)%string) (resources db)).
  split; [|split].
  - pose proof (order_created_at_desc_sorted own) as H.
    induction H as [|x l Hl IH Hx]; cbn [map]; constructor; [exact IH|].
    rewrite Forall_forall in *; intros y Hy.
    apply in_map_iff in Hy; destruct Hy as [y0 [<- Hy0]].
    exact (Hx y0 Hy0).
  - intros item; rewrite in_map_iff; split.
    + intros [r [<- Hr]]; apply In_order_created_at_desc, filter_In in Hr.
      destruct Hr as [Hr Hu]; apply String.eqb_eq in Hu.
      exists r; repeat split; assumption.
    + intros [r [Hr [Hu ->]]]; exists r; split; [reflexivity|].
      apply In_order_created_at_desc, filter_In; split; [exact Hr|].
      apply String.eqb_eq; exact Hu.
  - rewrite length_map.
    apply Permutation_length, order_created_at_desc_perm.
Qed.

(** ** From upload to the listings *)

Lemma handleUpload_ok : forall db form u e file,
  teacher_or_admin db (Some u) = true ->
  form_file form = Some file ->
  user_exists db u = true ->
  existsb (fun o => (bucket_id o =? "learning-resources")%string &&
                    (object_name o =? filePath u e file)%string)
          (storage_objects db) = false ->
  (form_categoryId form = "" \/ category_exists db (form_categoryId form) = true) ->
  resource_exists db (ue_new_id e) = false ->
  handleUpload form (Some u) e db =
    (with_resources
       (resources db ++
        [new_resource_row (ue_new_id e) (ue_now e) (upload_payload form u e file)])
       (with_storage_objects
          (storage_objects db ++
           [mk_object "learning-resources" (filePath u e file)]) db),
     toast_success).
Proof.
  intros db form u e file Hrole Hfile Huser Hfree Hcat Hfresh.
  unfold handleUpload; rewrite Hfile.
  rewrite storage_upload_ok by assumption.
  rewrite insert_resource_ok; [reflexivity | exact Hrole | exact Hfresh | | exact Huser].
  unfold upload_payload; cbn [ins_category_id truthy].
  destruct (String.eqb_spec (form_categoryId form) "") as [He|Hne];
    cbn [negb]; [exact I|].
  destruct Hcat as [Hcat|Hcat]; [contradiction | exact Hcat].
Qed.

Lemma listResources_In : forall unicode_lower db uid q c r,
  In r (listResources unicode_lower db uid q c) <->
  (exists row, In row (select_resources db uid) /\ r = enrich db uid row) /\
  matchesSearch unicode_lower q r = true /\ matchesCategory c r = true.
Proof.
  intros unicode_lower db uid q c r; unfold listResources, filteredResources, fetchResources.
  rewrite filter_In, andb_true_iff, in_map_iff; split.
  - intros [[row [<- Hrow]] Hm]; split; [|exact Hm].
    exists row; split; [apply In_order_created_at_desc; exact Hrow | reflexivity].
  - intros [[row [Hrow ->]] Hm]; split; [|exact Hm].
    exists row; split; [reflexivity | apply In_order_created_at_desc; exact Hrow].
Qed.

Lemma includes_empty : forall s, includes s "" = true.
Proof. intros []; reflexivity. Qed.

(** After a successful submission the new resource, with the form's title
    and the kind of its file, is in the uploader's own list and in every
    signed-in viewer's dashboard listing under "all"; submitted without a
    category, it is in no listing under a specific category. *)
Theorem uploaded_resource_is_listed : forall unicode_lower db form u e file viewer,
  teacher_or_admin db (Some u) = true ->
  form_file form = Some file ->
  user_exists db u = true ->
  existsb (fun o => (bucket_id o =? "learning-resources")%string &&
                    (object_name o =? filePath u e file)%string)
          (storage_objects db) = false ->
  (form_categoryId form = "" \/ category_exists db (form_categoryId form) = true) ->
  resource_exists db (ue_new_id e) = false ->
  (exists l item,
      fetchMyResources (fst (handleUpload form (Some u) e db)) (Some u) = Some l /\
      In item l /\ my_id item = ue_new_id e /\ my_title item = form_title form /\
      my_file_type item = getFileType file /\ my_created_at item = ue_now e) /\
  (exists r,
      In r (listResources unicode_lower (fst (handleUpload form (Some u) e db))
              (Some viewer) "" "all") /\
      id (res_row r) = ue_new_id e /\ title (res_row r) = form_title form) /\
  (form_categoryId form = "" ->
   forall q c r,
     In r (listResources unicode_lower (fst (handleUpload form (Some u) e db))
             (Some viewer) q c) ->
     id (res_row r) = ue_new_id e -> c = "all").
Proof.
  intros unicode_lower db form u e file viewer Hrole Hfile Huser Hfree Hcat Hfresh.
  rewrite (handleUpload_ok db form u e file Hrole Hfile Huser Hfree Hcat Hfresh).
  cbn [fst].
  set (row := new_resource_row (ue_new_id e) (ue_now e) (upload_payload form u e file)).
  set (db' := with_resources (resources db ++ [row]) _).
  assert (Hrow : In row (resources db')) by (apply in_or_app; right; left; reflexivity).
  split; [|split].
  - eexists; exists (my_resource db' (Some u) row); split; [reflexivity|].
    split; [|repeat split].
    apply in_map, In_order_created_at_desc, filter_In; split; [exact Hrow|].
    apply String.eqb_refl.
  - exists (enrich db' (Some viewer) row); split; [|split; reflexivity].
    apply listResources_In; split; [exists row; split; [exact Hrow | reflexivity]|].
    split; [|reflexivity].
    unfold matchesSearch; change (toLowerCase unicode_lower "") with "".
    rewrite includes_empty; reflexivity.
  - intros Hnone q c r Hr Hid.
    apply listResources_In in Hr; destruct Hr as [[row0 [Hrow0 ->]] [_ Hc]].
    cbn [enrich res_row] in Hid.
    assert (row0 = row).
    { cbn [select_resources authenticated db' resources with_resources] in Hrow0.
      apply in_app_or in Hrow0; destruct Hrow0 as [Hold|[<-|[]]]; [|reflexivity].
      exfalso.
      assert (Ht : resource_exists db (ue_new_id e) = true).
      { apply existsb_exists; exists row0; split; [exact Hold|].
        apply String.eqb_eq; exact Hid. }
      congruence. }
    subst row0; unfold matchesCategory in Hc.
    apply orb_true_iff in Hc; destruct Hc as [Hc|Hc]; [apply String.eqb_eq; exact Hc|].
    unfold enrich, row, new_resource_row, upload_payload in Hc.
    cbn [res_categories category_id ins_category_id truthy] in Hc.
    rewrite Hnone in Hc; discriminate Hc.
Qed.

Lemma uploaded_resource_is_listed_witness :
  (exists l item,
      fetchMyResources (fst (handleUpload a_form (Some tina) an_upload school))
        (Some tina) = Some l /\
      In item l /\ my_id item = "r2" /\ my_title item = "Geometry" /\
      my_file_type item = "pdf" /\ my_created_at item = 200) /\
  forall r,
    In r (listResources no_unicode_tables
            (fst (handleUpload a_form (Some tina) an_upload school))
            (Some sam) "" "Mathematics") ->
    id (res_row r) <> "r2".
Proof.
  destruct (uploaded_resource_is_listed no_unicode_tables school a_form tina an_upload pdf_file sam
              eq_refl eq_refl eq_refl eq_refl (or_introl eq_refl) eq_refl)
    as [Hmine [_ Hcat]].
  split; [exact Hmine|].
  intros r Hr Hid; specialize (Hcat eq_refl "" "Mathematics" r Hr Hid).
  discriminate Hcat.
Defined.

(** A resource listed under a specific category carries a category
    reference, and the referenced category has the selected name: a
    resource without category is found under "all" only. *)
Theorem listed_under_category : forall unicode_lower db uid q c r,
  In r (listResources unicode_lower db uid q c) -> c <> "all" ->
  exists cid,
    category_id (res_row r) = Some cid /\
    exists cat, In cat (categories db) /\ cat_id cat = cid /\ cat_name cat = c.
Proof.
  intros unicode_lower db uid q c r Hr Hc.
  apply listResources_In in Hr; destruct Hr as [[row [_ ->]] [_ Hm]].
  unfold matchesCategory in Hm; apply orb_true_iff in Hm.
  destruct Hm as [Hm|Hm]; [apply String.eqb_eq in Hm; contradiction|].
  cbn [enrich res_categories res_row] in *.
  destruct (category_id row) as [cid|]; [|discriminate Hm].
  exists cid; split; [reflexivity|].
  unfold select_category_name in Hm.
  destruct (authenticated uid); [|discriminate Hm].
  destruct (filter (fun c0 => (cat_id c0 =? cid)%string) (categories db))
    as [|cat [|cat' rest]] eqn:E; try discriminate Hm.
  apply String.eqb_eq in Hm.
  assert (Hin : In cat (filter (fun c0 => (cat_id c0 =? cid)%string) (categories db)))
    by (rewrite E; left; reflexivity).
  apply filter_In in Hin; destruct Hin as [Hin Hid]; apply String.eqb_eq in Hid.
  exists cat; repeat split; assumption.
Qed.

Lemma listed_under_category_witness :
  exists cid, category_id (res_row algebra_shown) = Some cid /\
    exists cat, In cat (categories school) /\ cat_id cat = cid /\
                cat_name cat = "Mathematics".
Proof.
  apply (listed_under_category no_unicode_tables school (Some sam) "" "Mathematics"
           algebra_shown).
  - left; reflexivity.
  - discriminate.
Defined.

(** ** The view log under calls in flight together *)

Lemma concat_all_nil : forall (A : Type) (ls : list (list A)),
  Forall (fun l => l = []) ls -> List.concat ls = [].
Proof.
  intros A ls; induction 1 as [|l ls Hl _ IH]; [reflexivity|].
  cbn [List.concat]; rewrite Hl, IH; reflexivity.
Qed.

Lemma interleaving_perm : forall calls s,
  interleaving calls s -> Permutation s (List.concat calls).
Proof.
  induction 1 as [calls Hnil | before q c after s _ IH].
  - rewrite concat_all_nil by exact Hnil; constructor.
  - rewrite concat_app in *; cbn [List.concat app] in *.
    rewrite <- Permutation_middle; constructor; exact IH.
Qed.

Lemma update_resource_exists : forall db uid now rid p rid',
  resource_exists (fst (update_resource db uid now rid p)) rid' = resource_exists db rid'.
Proof.
  intros db uid now rid p rid'; unfold update_resource.
  destruct (int4_ok (patch_value p)); cbn [negb fst]; [|reflexivity].
  unfold resource_exists; cbn [resources with_resources].
  induction (resources db) as [|r l IH]; [reflexivity|].
  cbn [map existsb]; rewrite IH; f_equal.
  destruct ((id r =? rid)%string && can_update_resource db uid r); [|reflexivity].
  destruct p; reflexivity.
Qed.

Lemma run_appends_views : forall u rid s db,
  Forall (fun q => match q with
                   | req_insert_view uid _ _ resource_id user_id =>
                       uid = Some u /\ user_id = Some u /\ resource_id = rid
                   | req_update _ _ _ _ => True
                   end) s ->
  resource_exists db rid = true ->
  NoDup (map rv_id (resource_views db) ++ map rv_id (flat_map view_of_request s)) ->
  resource_views (run s db) = (resource_views db ++ flat_map view_of_request s)%list.
Proof.
  intros u rid s; induction s as [|q s IH]; intros db Hall Hex Hnd.
  - cbn; rewrite app_nil_r; reflexivity.
  - inversion Hall as [|q' s' Hq Hs]; subst.
    change (run (q :: s) db) with (run s (fst (exec q db))).
    destruct q as [uid new_id now resource_id user_id | uid now rid' p]; cbn [exec].
    + destruct Hq as [-> [-> ->]].
      cbn [flat_map view_of_request app map rv_id] in Hnd.
      assert (Hfresh : existsb (fun v => (rv_id v =? new_id)%string)
                               (resource_views db) = false).
      { destruct (existsb _ (resource_views db)) eqn:E; [|reflexivity].
        apply existsb_exists in E; destruct E as [v [Hv E]]; apply String.eqb_eq in E.
        exfalso; apply NoDup_remove_2 in Hnd; apply Hnd.
        apply in_or_app; left; apply in_map_iff; exists v; split; assumption. }
      assert (Hdb : fst (insert_resource_view db (Some u) new_id now rid (Some u)) =
                    with_resource_views
                      (resource_views db ++ [mk_view new_id rid (Some u) now]) db).
      { unfold insert_resource_view; cbn [authenticated is_uid andb].
        rewrite String.eqb_refl, Hfresh, Hex; reflexivity. }
      rewrite Hdb, IH; [| exact Hs | exact Hex |].
      * cbn [resource_views with_resource_views flat_map view_of_request].
        rewrite <- app_assoc; reflexivity.
      * cbn [resource_views with_resource_views].
        rewrite map_app, <- app_assoc; cbn [map rv_id app].
        exact Hnd.
    + rewrite IH; [| exact Hs | rewrite update_resource_exists; exact Hex |].
      * rewrite update_resource_views; reflexivity.
      * rewrite update_resource_views; exact Hnd.
Qed.

Lemma views_of_calls : forall u rid calls,
  Forall (fun call => id (res_row (snd call)) = rid) calls ->
  flat_map view_of_request
    (List.concat (map (fun call => handleView_requests (Some u) (fst call) (snd call)) calls)) =
  map (view_of_call u rid) calls.
Proof.
  intros u rid calls; induction 1 as [|call calls Hc _ IH]; [reflexivity|].
  cbn [map List.concat]; rewrite flat_map_app, IH.
  unfold handleView_requests, view_of_call; cbn [flat_map view_of_request app].
  rewrite Hc; reflexivity.
Qed.

(** The view log, unlike the counter, takes every call: [handleView] calls
    of one user in flight together for one existing resource, with distinct
    fresh event ids, append exactly one view event each, in the order in
    which the backend serves the inserts. *)
Theorem concurrent_views_all_logged : forall db u rid calls s,
  Forall (fun call => id (res_row (snd call)) = rid) calls ->
  resource_exists db rid = true ->
  NoDup (map rv_id (resource_views db) ++ map (fun call => ve_new_id (fst call)) calls) ->
  interleaving
    (map (fun call => handleView_requests (Some u) (fst call) (snd call)) calls) s ->
  exists added,
    resource_views (run s db) = (resource_views db ++ added)%list /\
    Permutation added (map (view_of_call u rid) calls) /\
    List.length added = List.length calls.
Proof.
  intros db u rid calls s Hids Hex Hnd Hs.
  pose proof (interleaving_perm _ _ Hs) as Hperm.
  assert (Hadded : Permutation (flat_map view_of_request s)
                               (map (view_of_call u rid) calls)).
  { rewrite <- (views_of_calls u rid calls Hids).
    apply Permutation_flat_map; exact Hperm. }
  exists (flat_map view_of_request s); split; [|split].
  - apply (run_appends_views u rid).
    + apply Forall_forall; intros q Hq.
      apply (Permutation_in _ Hperm) in Hq.
      apply in_concat in Hq; destruct Hq as [c [Hc Hq]].
      apply in_map_iff in Hc; destruct Hc as [call [<- Hcall]].
      rewrite Forall_forall in Hids; specialize (Hids call Hcall).
      destruct Hq as [<-|[<-|[]]]; [repeat split; exact Hids | exact I].
    + exact Hex.
    + apply (Permutation_NoDup (l := map rv_id (resource_views db) ++
                                     map (fun call => ve_new_id (fst call)) calls));
        [|exact Hnd].
      apply Permutation_app_head.
      apply Permutation_sym.
      rewrite (Permutation_map rv_id Hadded), map_map; reflexivity.
  - exact Hadded.
  - rewrite (Permutation_length Hadded), length_map; reflexivity.
Qed.

Lemma concurrent_views_all_logged_witness :
  exists added,
    resource_views
      (run [ req_insert_view (Some tina) "v1" 300 "r1" (Some tina);
             req_insert_view (Some tina) "v2" 301 "r1" (Some tina);
             req_update (Some tina) 302 "r1" (patch_view_count 1);
             req_update (Some tina) 303 "r1" (patch_view_count 1) ] school) =
      (resource_views school ++ added)%list /\
    Permutation added
      (map (view_of_call tina "r1")
           [ (mk_view_env "v1" 300 302, algebra_shown);
             (mk_view_env "v2" 301 303, algebra_shown) ]) /\
    List.length added = 2%nat.
Proof.
  apply (concurrent_views_all_logged school tina "r1"
           [ (mk_view_env "v1" 300 302, algebra_shown);
             (mk_view_env "v2" 301 303, algebra_shown) ]).
  - repeat constructor.
  - reflexivity.
  - cbn; constructor; [intros [H|[]]; discriminate H|].
    constructor; [intros [] | constructor].
  - cbn [map fst snd].
    apply (interleaving_next [] _ _ [_]).
    apply (interleaving_next [_] _ _ []).
    apply (interleaving_next [] _ _ [_]).
    apply (interleaving_next [_] _ _ []).
    apply interleaving_done; repeat constructor.
Defined.

(** ** Totals of the analytics page *)

Lemma or_zero_id : forall v, or_zero v = v.
Proof. intros v; unfold or_zero; destruct (Z.eqb_spec v 0); congruence. Qed.

Lemma fold_sum_from : forall (A : Type) (g : A -> Z) (l : list A) (a : Z),
  fold_left (fun sum r => sum + g r) l a = a + fold_left (fun sum r => sum + g r) l 0.
Proof.
  intros A g l; induction l as [|x l IH]; intros a; cbn [fold_left]; [lia|].
  rewrite IH, (IH (0 + g x)); lia.
Qed.

Lemma fold_sum_cons : forall (A : Type) (g : A -> Z) (x : A) (l : list A),
  fold_left (fun sum r => sum + g r) (x :: l) 0 =
  g x + fold_left (fun sum r => sum + g r) l 0.
Proof. intros; cbn [fold_left]; rewrite fold_sum_from; lia. Qed.

Lemma sum_unchanged : forall (A : Type) (g : A -> Z) (f : A -> A) (l : list A),
  (forall r, In r l -> g (f r) = g r) ->
  fold_left (fun sum r => sum + g r) (map f l) 0 =
  fold_left (fun sum r => sum + g r) l 0.
Proof.
  intros A g f l; induction l as [|x l IH]; intros H; [reflexivity|].
  cbn [map]; rewrite !fold_sum_cons, IH, (H x (or_introl eq_refl)); [reflexivity|].
  intros r Hr; apply H; right; exact Hr.
Qed.

Lemma sum_after_one_change : forall (g : resources_row -> Z)
    (f : resources_row -> resources_row) (l : list resources_row)
    (r0 : resources_row) (d : Z),
  NoDup (map id l) -> In r0 l ->
  (forall r, In r l -> id r <> id r0 -> g (f r) = g r) ->
  g (f r0) = g r0 + d ->
  fold_left (fun sum r => sum + g r) (map f l) 0 =
  fold_left (fun sum r => sum + g r) l 0 + d.
Proof.
  intros g f l r0 d; induction l as [|x l IH]; intros Hnd Hin Hother Hone;
    [destruct Hin|].
  cbn [map] in *; rewrite !fold_sum_cons.
  inversion Hnd as [|? ? Hx Hl]; subst.
  destruct Hin as [->|Hin].
  - rewrite Hone, sum_unchanged; [lia|].
    intros r Hr; apply Hother; [right; exact Hr|].
    intros He; apply Hx; rewrite <- He; apply in_map; exact Hr.
  - rewrite (Hother x); [| left; reflexivity |].
    + rewrite IH; [lia | exact Hl | exact Hin | | exact Hone].
      intros r Hr Hne; apply Hother; [right; exact Hr | exact Hne].
    + intros He; apply Hx; rewrite He; apply in_map; exact Hin.
Qed.

Lemma handleView_resources : forall db u e resource,
  resources (handleView (Some u) e resource db) =
  if int4_ok (view_count (res_row resource) + 1)
  then map (fun r => if (id r =? id (res_row resource))%string &&
                        can_update_resource db (Some u) r
                     then update_updated_at_column (ve_update_time e)
                            (set_view_count (view_count (res_row resource) + 1) r)
                     else r)
           (resources db)
  else resources db.
Proof.
  intros db u e resource; unfold handleView, handleView_requests, run.
  cbn [fold_left exec].
  destruct (insert_resource_view_resources db (Some u) (ve_new_id e) (ve_insert_time e)
              (id (res_row resource)) (Some u)) as [Hres Hroles].
  unfold update_resource; cbn [patch_value].
  destruct (int4_ok _); cbn [negb fst with_resources resources]; [|exact Hres].
  rewrite Hres; apply map_ext; intros r.
  rewrite (can_update_user_roles _ _ (Some u) r Hroles); reflexivity.
Qed.

(** With unique resource ids, a view by the owner or an admin on a current
    copy raises the analytics page's total of views by exactly one, whether
    or not the view event itself could be stored; a view by anybody else
    leaves the total as it was. *)
Theorem handleView_and_totalViews : forall db u e resource viewer,
  NoDup (map id (resources db)) ->
  (forall r0, In r0 (resources db) -> id r0 = id (res_row resource) ->
              view_count r0 = view_count (res_row resource) ->
              uploaded_by r0 = u \/ has_role db (Some u) admin = true ->
              int4_ok (view_count r0 + 1) = true ->
              totalViews (handleView (Some u) e resource db) (Some viewer) =
              totalViews db (Some viewer) + 1) /\
  (has_role db (Some u) admin = false ->
   (forall r, In r (resources db) -> id r = id (res_row resource) ->
              uploaded_by r <> u) ->
   totalViews (handleView (Some u) e resource db) (Some viewer) =
   totalViews db (Some viewer)).
Proof.
  intros db u e resource viewer Hnd.
  unfold totalViews, select_resources; cbn [authenticated].
  rewrite handleView_resources; split.
  - intros r0 Hr0 Hid Hcur Hmay Hok.
    rewrite <- Hcur, Hok.
    apply (sum_after_one_change _ _ _ r0); [exact Hnd | exact Hr0 | |].
    + intros r _ Hne; rewrite <- Hid.
      apply String.eqb_neq in Hne; rewrite Hne; reflexivity.
    + rewrite Hid, String.eqb_refl; cbn [andb].
      assert (Hcan : can_update_resource db (Some u) r0 = true).
      { unfold can_update_resource; cbn [authenticated is_uid andb].
        destruct Hmay as [<-|Hadm];
          [rewrite String.eqb_refl; reflexivity | rewrite Hadm; apply orb_true_r]. }
      rewrite Hcan, !or_zero_id; reflexivity.
  - intros Hadmin Hown.
    destruct (int4_ok _); [|reflexivity].
    f_equal; rewrite <- (map_id (resources db)) at 2.
    apply map_ext_in; intros r Hr.
    destruct (String.eqb_spec (id r) (id (res_row resource))) as [He|Hne];
      cbn [andb]; [|reflexivity].
    unfold can_update_resource; cbn [authenticated is_uid andb].
    rewrite Hadmin, orb_false_r.
    destruct (String.eqb_spec u (uploaded_by r)) as [Hs|Hs]; [|reflexivity].
    exfalso; apply (Hown r Hr He); symmetry; exact Hs.
Qed.

Lemma handleView_and_totalViews_witness :
  totalViews school (Some ada) = 0 /\
  totalViews (handleView (Some tina) (mk_view_env "v1" 300 301) algebra_shown school)
    (Some ada) = 0 + 1 /\
  totalViews (handleView (Some sam) (mk_view_env "v1" 300 301) algebra_shown school)
    (Some ada) = 0.
Proof.
  assert (Hnd : NoDup (map id (resources school)))
    by (cbn; constructor; [intros [] | constructor]).
  split; [reflexivity|]; split.
  - apply (proj1 (handleView_and_totalViews school tina (mk_view_env "v1" 300 301)
                    algebra_shown ada Hnd) algebra (or_introl eq_refl) eq_refl eq_refl
                 (or_introl eq_refl) eq_refl).
  - apply (proj2 (handleView_and_totalViews school sam (mk_view_env "v1" 300 301)
                    algebra_shown ada Hnd) eq_refl).
    intros r [<-|[]] _; discriminate.
Defined.
(** ** Category distribution *)

Section OwnProperties.
Variable V : Type.

Lemma own_property_set : forall (o : list (string * V)) k v k',
  own_property (prop_set o k v) k' =
  if (k =? k')%string then Some v else own_property o k'.
Proof.
  intros o k v k'; induction o as [|[k0 m] rest IH]; cbn [prop_set own_property].
  - destruct (k =? k')%string; reflexivity.
  - destruct (String.eqb_spec k0 k) as [Hk|Hk]; cbn [own_property].
    + subst k0; destruct (k =? k')%string; reflexivity.
    + rewrite IH; destruct (String.eqb_spec k0 k') as [Hk'|Hk']; [|reflexivity].
      subst k0; destruct (String.eqb_spec k k'); [congruence | reflexivity].
Qed.

Lemma prop_set_keys : forall (o : list (string * V)) k v k',
  In k' (map fst (prop_set o k v)) <-> k' = k \/ In k' (map fst o).
Proof.
  intros o k v k'; induction o as [|[k0 m] rest IH]; cbn [prop_set map fst In].
  - split; [intros [H|[]]; left; congruence | intros [H|[]]; left; congruence].
  - destruct (String.eqb_spec k0 k) as [Hk|Hk]; cbn [map fst In].
    + subst k0; split; [intros [H|H]; [left; congruence | right; right; exact H]|].
      intros [H|[H|H]]; [left; congruence | left; exact H | right; exact H].
    + rewrite IH; tauto.
Qed.

Lemma prop_set_NoDup : forall (o : list (string * V)) k v,
  NoDup (map fst o) -> NoDup (map fst (prop_set o k v)).
Proof.
  intros o k v; induction o as [|[k0 m] rest IH]; intros H; cbn [prop_set map fst].
  - constructor; [intros [] | constructor].
  - cbn [map fst] in H; inversion H as [|? ? Hk Hrest]; subst.
    destruct (String.eqb_spec k0 k) as [He|Hne]; cbn [map fst].
    + constructor; assumption.
    + constructor; [|apply IH; exact Hrest].
      rewrite prop_set_keys; intros [He|Hin]; [congruence | exact (Hk Hin)].
Qed.

Lemma own_property_In : forall (o : list (string * V)) k v,
  NoDup (map fst o) -> (In (k, v) o <-> own_property o k = Some v).
Proof.
  intros o k v; induction o as [|[k0 m] rest IH]; intros H; cbn [own_property In].
  - split; [intros [] | discriminate].
  - cbn [map fst] in H; inversion H as [|? ? Hk Hrest]; subst.
    destruct (String.eqb_spec k0 k) as [He|Hne].
    + subst k0; split.
      * intros [Heq|Hin]; [congruence|].
        exfalso; apply Hk; apply in_map_iff; exists (k, v); split; [reflexivity | exact Hin].
      * intros Heq; left; congruence.
    + rewrite <- (IH Hrest); split; [intros [Heq|Hin]; [congruence | exact Hin]|].
      intros Hin; right; exact Hin.
Qed.

End OwnProperties.

Section Tally.
Variable A : Type.
Variable key : A -> string.

Lemma tally_get : forall l o k,
  own_property (fold_left (fun stats item => count_up stats (key item)) l o) k =
  match own_property o k with
  | Some n =>
      Some (n + Z.of_nat (List.length (filter (fun item => (key item =? k)%string) l)))
  | None =>
      if Z.of_nat (List.length (filter (fun item => (key item =? k)%string) l)) =? 0
      then None
      else Some (Z.of_nat (List.length (filter (fun item => (key item =? k)%string) l)))
  end.
Proof.
  intros l; induction l as [|x l IH]; intros o k; cbn [fold_left filter].
  - cbn; destruct (own_property o k); [f_equal; lia | reflexivity].
  - rewrite IH; unfold count_up; rewrite own_property_set.
    destruct (String.eqb_spec (key x) k) as [He|Hne]; cbn [List.length].
    + subst k; destruct (own_property o (key x)) as [n|].
      * f_equal; lia.
      * match goal with
        | |- context [Z.of_nat (S ?m)] =>
            destruct (Z.eqb_spec (Z.of_nat (S m)) 0); [lia|]
        end.
        f_equal; lia.
    + reflexivity.
Qed.

Lemma tally_NoDup : forall l o,
  NoDup (map fst o) ->
  NoDup (map fst (fold_left (fun stats item => count_up stats (key item)) l o)).
Proof.
  intros l; induction l as [|x l IH]; intros o H; cbn [fold_left]; [exact H|].
  apply IH; unfold count_up; apply prop_set_NoDup; exact H.
Qed.

Lemma tally_sum : forall l o,
  fold_left (fun sum e => sum + snd e)
            (fold_left (fun stats item => count_up stats (key item)) l o) 0 =
  fold_left (fun sum e => sum + snd e) o 0 + Z.of_nat (List.length l).
Proof.
  intros l; induction l as [|x l IH]; intros o; cbn [fold_left].
  - cbn; lia.
  - rewrite IH; cbn [List.length]; unfold count_up.
    assert (Hset : forall (o0 : list (string * Z)) k,
              fold_left (fun sum e => sum + snd e)
                (prop_set o0 k (match own_property o0 k with Some n => n | None => 0 end + 1)) 0 =
              fold_left (fun sum e => sum + snd e) o0 0 + 1).
    { intros o0 k; induction o0 as [|[k0 m] rest IHo]; [reflexivity|].
      cbn [prop_set own_property].
      destruct (k0 =? k)%string; rewrite !fold_sum_cons; cbn [snd]; [lia|].
      rewrite IHo; lia. }
    rewrite Hset; lia.
Qed.

(** While every key is an ordinary one the object holds numbers only and
    is the numeric count. *)
Lemma own_property_numbers : forall o k,
  own_property (numbers o) k = option_map js_number (own_property o k).
Proof.
  intros o k; induction o as [|[k0 n] rest IH]; [reflexivity|].
  cbn [numbers map fst snd own_property]; destruct (k0 =? k)%string; [reflexivity | exact IH].
Qed.

Lemma prop_set_numbers : forall o k n,
  prop_set (numbers o) k (js_number n) = numbers (prop_set o k n).
Proof.
  intros o k n; induction o as [|[k0 m] rest IH]; [reflexivity|].
  cbn [numbers map fst snd prop_set]; destruct (k0 =? k)%string; [reflexivity|].
  cbn [map fst snd]; f_equal; exact IH.
Qed.

Lemma inherits_function_ordinary : forall k,
  ~ In k Object_prototype_functions -> inherits_function k = false.
Proof.
  intros k Hk; unfold inherits_function.
  destruct (existsb (String.eqb k) Object_prototype_functions) eqn:E; [|reflexivity].
  apply existsb_exists in E; destruct E as [f [Hf He]].
  apply String.eqb_eq in He; subst f; contradiction.
Qed.

Lemma increment_prop_ordinary : forall function_text o k,
  ordinary_key k ->
  increment_prop function_text (numbers o) k = numbers (count_up o k).
Proof.
  intros function_text o k [Hproto Hfun].
  unfold increment_prop, assign_prop, or_zero_plus_one, count_up.
  destruct (String.eqb_spec k "__proto__") as [He|_]; [contradiction|].
  rewrite own_property_numbers, (inherits_function_ordinary k Hfun).
  destruct (own_property o k) as [n|]; cbn [option_map].
  - rewrite or_zero_id; apply prop_set_numbers.
  - apply prop_set_numbers.
Qed.

Lemma tally_ordinary : forall function_text l o,
  Forall (fun item => ordinary_key (key item)) l ->
  fold_left (fun stats item => increment_prop function_text stats (key item)) l (numbers o) =
  numbers (fold_left (fun stats item => count_up stats (key item)) l o).
Proof.
  intros function_text l; induction l as [|x l IH]; intros o H; [reflexivity|].
  inversion H as [|? ? Hx Hl]; subst; cbn [fold_left].
  rewrite (increment_prop_ordinary function_text o (key x) Hx); apply IH; exact Hl.
Qed.

(** Whatever the keys, [__proto__] never becomes an own property. *)
Lemma tally_without_proto : forall function_text l o,
  ~ In "__proto__" (map fst o) ->
  ~ In "__proto__"
       (map fst (fold_left (fun stats item => increment_prop function_text stats (key item))
                           l o)).
Proof.
  intros function_text l; induction l as [|x l IH]; intros o H; [exact H|].
  cbn [fold_left]; apply IH; unfold increment_prop, assign_prop.
  destruct (String.eqb_spec (key x) "__proto__") as [He|Hne]; [exact H|].
  rewrite prop_set_keys; intros [He|Hin]; [congruence | exact (H Hin)].
Qed.
End Tally.

Lemma insert_index_perm : forall e l, Permutation (insert_index e l) (e :: l).
Proof.
  intros e l; induction l as [|x l IH]; cbn [insert_index]; [reflexivity|].
  destruct (fst e <=? fst x)%N; [reflexivity|].
  rewrite IH; apply perm_swap.
Qed.

Lemma sort_index_perm : forall l, Permutation (sort_index l) l.
Proof.
  induction l as [|e l IH]; cbn [sort_index]; [reflexivity|].
  rewrite insert_index_perm, IH; reflexivity.
Qed.

Lemma Object_entries_perm : forall o, Permutation (Object_entries o) o.
Proof.
  intros o; unfold Object_entries.
  rewrite (Permutation_map snd (sort_index_perm _)).
  induction o as [|e o IH]; [reflexivity|].
  cbn [flat_map filter].
  destruct (array_index (fst e)); cbn [app map snd].
  - constructor; exact IH.
  - rewrite <- Permutation_middle; constructor; exact IH.
Qed.

Lemma sum_perm : forall (A : Type) (g : A -> Z) (l l' : list A),
  Permutation l l' ->
  fold_left (fun sum r => sum + g r) l 0 = fold_left (fun sum r => sum + g r) l' 0.
Proof.
  intros A g l l'; induction 1 as [|x l l' _ IH|x y l|l l' l'' _ IH1 _ IH2].
  - reflexivity.
  - rewrite !fold_sum_cons, IH; reflexivity.
  - rewrite !fold_sum_cons; lia.
  - rewrite IH1; exact IH2.
Qed.

Lemma fold_add_map : forall (A : Type) (g : A -> Z) (l : list A) (a : Z),
  fold_left Z.add (map g l) a = fold_left (fun sum r => sum + g r) l a.
Proof.
  intros A g l; induction l as [|x l IH]; intros a; [reflexivity|].
  cbn [map fold_left]; apply IH.
Qed.

Lemma In_numbers : forall o k v,
  In (k, v) (numbers o) <-> exists n, v = js_number n /\ In (k, n) o.
Proof.
  intros o k v; unfold numbers; rewrite in_map_iff; split.
  - intros [[k' n] [Heq Hin]]; cbn [fst snd] in Heq; injection Heq as -> <-.
    exists n; split; [reflexivity | exact Hin].
  - intros [n [-> Hin]]; exists (k, n); split; [reflexivity | exact Hin].
Qed.

Lemma keys_numbers : forall o, map fst (numbers o) = map fst o.
Proof. intros o; unfold numbers; rewrite map_map; reflexivity. Qed.

(** An object never gets an own property [__proto__] by counting, so the
    category distribution has no entry of that name, and the resources of
    a category so named are in no entry.  When no label in use is
    [__proto__] or the name of a function of [Object.prototype], the
    distribution has one entry per label in use; each entry counts, as a
    number, the resources of its label, those without a category under
    "Uncategorized", and the counts add up to the number of resources. *)
Theorem categoryStats_counts : forall function_text db u,
  ~ In "__proto__" (map name (categoryStats function_text db (Some u))) /\
  ((forall r, In r (resources db) -> ordinary_key (category_label_of db (Some u) r)) ->
   NoDup (map name (categoryStats function_text db (Some u))) /\
   (forall k v,
       In (mk_CategoryStats k v) (categoryStats function_text db (Some u)) <->
       v = js_number
             (Z.of_nat (List.length
                          (filter (fun r => (category_label_of db (Some u) r =? k)%string)
                                  (resources db)))) /\
       (1 <= List.length (filter (fun r => (category_label_of db (Some u) r =? k)%string)
                                 (resources db)))%nat) /\
   (exists counts,
       map count (categoryStats function_text db (Some u)) = map js_number counts /\
       fold_left Z.add counts 0 = Z.of_nat (List.length (resources db)))) /\
  (forall r, In r (resources db) -> category_id r = None ->
             category_label_of db (Some u) r = "Uncategorized").
Proof.
  intros function_text db u; unfold categoryStats.
  set (key := fun item : option string => categoryName item).
  set (o := fold_left (fun stats item => increment_prop function_text stats (key item))
                      (categoryData db (Some u)) []).
  split; [|split].
  - rewrite map_map; cbn [name]; intros Hin.
    apply (Permutation_in _ (Permutation_map fst (Object_entries_perm o))) in Hin.
    revert Hin; apply (tally_without_proto _ key); intros [].
  - intros Hord.
    set (zo := fold_left (fun stats item => count_up stats (key item))
                         (categoryData db (Some u)) []).
    assert (Ho : o = numbers zo).
    { apply (tally_ordinary _ key function_text (categoryData db (Some u)) []).
      unfold categoryData, select_resources; cbn [authenticated].
      apply Forall_forall; intros item Hitem.
      apply in_map_iff in Hitem; destruct Hitem as [r [<- Hr]].
      exact (Hord r Hr). }
    assert (Hnd : NoDup (map fst zo)) by (apply (tally_NoDup _ key); constructor).
    assert (Hocc : forall k,
               List.length (filter (fun item => (key item =? k)%string)
                                   (categoryData db (Some u))) =
               List.length (filter (fun r => (category_label_of db (Some u) r =? k)%string)
                                   (resources db))).
    { clear Hord; intros k; unfold categoryData, select_resources; cbn [authenticated].
      induction (resources db) as [|r l IH]; [reflexivity|].
      cbn [map filter]; unfold key at 1, category_label_of at 1.
      destruct (_ =? k)%string; cbn [List.length]; rewrite IH; reflexivity. }
    assert (Hget : forall k n,
               In (k, n) zo <->
               n = Z.of_nat (List.length
                     (filter (fun r => (category_label_of db (Some u) r =? k)%string)
                             (resources db))) /\ 1 <= n).
    { intros k n; rewrite (own_property_In _ _ _ _ Hnd).
      unfold zo; rewrite (tally_get _ key); cbn [own_property]; rewrite Hocc.
      destruct (Z.eqb_spec (Z.of_nat (List.length
                  (filter (fun r => (category_label_of db (Some u) r =? k)%string)
                          (resources db)))) 0) as [Hz|Hz].
      - split; [discriminate | intros [-> Hpos]; lia].
      - split; [intros H; injection H as <-; lia | intros [-> _]; reflexivity]. }
    rewrite Ho; split; [|split].
    + rewrite map_map; cbn [name].
      apply (Permutation_NoDup (l := map fst (numbers zo)));
        [|rewrite keys_numbers; exact Hnd].
      apply Permutation_map, Permutation_sym, Object_entries_perm.
    + intros k v; rewrite in_map_iff; split.
      * intros [[k' v'] [Heq Hin]]; cbn [fst snd] in Heq; injection Heq as -> ->.
        apply (Permutation_in _ (Object_entries_perm (numbers zo))) in Hin.
        apply In_numbers in Hin; destruct Hin as [n [-> Hin]].
        apply Hget in Hin; destruct Hin as [-> Hpos]; split; [reflexivity | lia].
      * intros [-> Hpos]; eexists (k, _); split; [reflexivity|].
        apply (Permutation_in _ (Permutation_sym (Object_entries_perm (numbers zo)))).
        apply In_numbers; eexists; split; [reflexivity|].
        apply Hget; split; [reflexivity | lia].
    + destruct (Permutation_map_inv _ _ (Object_entries_perm (numbers zo)))
        as [zl [Hzl Hperm]].
      exists (map snd zl); split.
      * rewrite Hzl, !map_map; reflexivity.
      * rewrite fold_add_map, (sum_perm _ _ _ _ (Permutation_sym Hperm)).
        unfold zo; rewrite (tally_sum _ key); cbn [fold_left].
        unfold categoryData, select_resources; cbn [authenticated].
        rewrite length_map; lia.
  - intros r _ Hnone; unfold category_label_of; rewrite Hnone; reflexivity.
Qed.

Lemma categoryStats_counts_witness :
  (forall r, In r (resources school) ->
             ordinary_key (category_label_of school (Some sam) r)) /\
  In (mk_CategoryStats "Mathematics" (js_number 1))
     (categoryStats native_code school (Some sam)).
Proof.
  assert (Hord : forall r, In r (resources school) ->
                           ordinary_key (category_label_of school (Some sam) r)).
  { intros r [<-|[]]; split; [discriminate|].
    vm_compute; intros H0; repeat (destruct H0 as [H0|H0]; [discriminate H0|]); exact H0. }
  split; [exact Hord|].
  destruct (categoryStats_counts native_code school sam) as [_ [H _]].
  destruct (H Hord) as [_ [Hin _]].
  apply (proj2 (Hin "Mathematics" (js_number 1))).
  split; [reflexivity | apply le_n].
Defined.

(** A category named after a function of [Object.prototype] gets a text
    for its count, and one named [__proto__] gets no entry. *)
Example counting_keys_of_Object_prototype :
  fold_left (fun stats item => increment_prop native_code stats item)
            ["constructor"; "Maths"; "constructor"; "__proto__"] [] =
  [("constructor", js_string "function Object() { [native code] }11");
   ("Maths", js_number 1)].
Proof. reflexivity. Qed.

(** ** Top resources *)








(** ** Admin user overview *)

Lemma role_text_eqb : forall r r',
  (role_text r =? role_text r')%string = app_role_eqb r r'.
Proof. intros [] []; reflexivity. Qed.

Lemma length_filter_map : forall (A B : Type) (f : B -> bool) (g : A -> B) (l : list A),
  List.length (filter f (map g l)) = List.length (filter (fun x => f (g x)) l).
Proof.
  intros A B f g l; induction l as [|x l IH]; [reflexivity|].
  cbn [map filter]; destruct (f (g x)); cbn [List.length]; rewrite IH; reflexivity.
Qed.

Lemma roles_seen_by_admin : forall db a u r,
  has_role db (Some a) admin = true ->
  existsb (fun t => (t =? role_text r)%string) (select_user_roles db (Some a) u) =
  has_role db (Some u) r.
Proof.
  intros db a u r Hadmin; unfold select_user_roles, has_role at 2.
  cbn [authenticated andb]; rewrite Hadmin.
  induction (user_roles db) as [|row l IH]; [reflexivity|].
  cbn [filter existsb].
  rewrite orb_true_r, andb_true_r.
  destruct (ur_user_id row =? u)%string; cbn [map existsb andb]; [|exact IH].
  rewrite IH, role_text_eqb; reflexivity.
Qed.

Lemma count_with_role_seen_by_admin : forall db a r,
  has_role db (Some a) admin = true ->
  count_with_role (role_text r) (usersWithData db (Some a)) =
  List.length (filter (fun p => has_role db (Some (pf_user_id p)) r) (profiles db)).
Proof.
  intros db a r Hadmin; unfold usersWithData, select_profiles, count_with_role.
  cbn [authenticated]; rewrite length_filter_map; cbn [ud_user_roles].
  f_equal; apply filter_ext; intros p.
  apply roles_seen_by_admin; exact Hadmin.
Qed.

(** For an admin the statistics handed to the page count all profiles as
    the total and, as students, teachers and admins, the profiles whose
    user holds that role, a user with several roles counting once under
    each; a viewer without the admin role gets no role of any other
    user. *)
Theorem fetchUsers_roles : forall db viewer,
  (has_role db (Some viewer) admin = true ->
   total (snd (fetchUsers db (Some viewer))) = List.length (profiles db) /\
   students (snd (fetchUsers db (Some viewer))) =
     List.length (filter (fun p => has_role db (Some (pf_user_id p)) student) (profiles db)) /\
   teachers (snd (fetchUsers db (Some viewer))) =
     List.length (filter (fun p => has_role db (Some (pf_user_id p)) teacher) (profiles db)) /\
   admins (snd (fetchUsers db (Some viewer))) =
     List.length (filter (fun p => has_role db (Some (pf_user_id p)) admin) (profiles db))) /\
  (has_role db (Some viewer) admin = false ->
   forall d, In d (fst (fetchUsers db (Some viewer))) ->
             ud_user_id d <> viewer -> ud_user_roles d = []).
Proof.
  intros db viewer; split.
  - intros Hadmin; unfold fetchUsers; cbn [snd total students teachers admins].
    split; [|split; [|split]].
    + unfold usersWithData, select_profiles; cbn [authenticated]; apply length_map.
    + exact (count_with_role_seen_by_admin db viewer student Hadmin).
    + exact (count_with_role_seen_by_admin db viewer teacher Hadmin).
    + exact (count_with_role_seen_by_admin db viewer admin Hadmin).
  - unfold fetchUsers, usersWithData, select_profiles; cbn [authenticated fst].
    intros Hadmin d Hd Hne.
    apply in_map_iff in Hd; destruct Hd as [p [<- _]].
    cbn [ud_user_roles ud_user_id] in *.
    unfold select_user_roles; cbn [authenticated is_uid andb]; rewrite Hadmin.
    induction (user_roles db) as [|row l IH]; [reflexivity|].
    cbn [filter]; rewrite orb_false_r.
    destruct (String.eqb_spec (ur_user_id row) (pf_user_id p)) as [He|He];
      cbn [andb]; [|exact IH].
    destruct (String.eqb_spec viewer (ur_user_id row)) as [Hv|Hv]; [|exact IH].
    exfalso; apply Hne; congruence.
Qed.

Lemma fetchUsers_roles_witness :
  snd (fetchUsers school (Some ada)) =
    mk_user_stats (List.length (profiles school))
      (List.length (filter (fun p => has_role school (Some (pf_user_id p)) student)
                           (profiles school)))
      (List.length (filter (fun p => has_role school (Some (pf_user_id p)) teacher)
                           (profiles school)))
      (List.length (filter (fun p => has_role school (Some (pf_user_id p)) admin)
                           (profiles school))) /\
  forall d, In d (fst (fetchUsers school (Some sam))) ->
            ud_user_id d <> sam -> ud_user_roles d = [].
Proof.
  destruct (fetchUsers_roles school ada) as [Ha _].
  destruct (fetchUsers_roles school sam) as [_ Hs].
  split.
  - destruct (Ha eq_refl) as [Ht [Hst [Hte Had]]].
    destruct (snd (fetchUsers school (Some ada))) as [t s te a].
    cbn [total students teachers admins] in Ht, Hst, Hte, Had.
    rewrite Ht, Hst, Hte, Had; reflexivity.
  - apply Hs; reflexivity.
Defined.

(** ** Role management *)

Lemma has_role_Some : forall db p r,
  has_role db (Some p) r =
  existsb (fun row => (ur_user_id row =? p)%string && app_role_eqb (ur_role row) r)
          (user_roles db).
Proof. reflexivity. Qed.

Lemma existsb_filter_out : forall (A : Type) (f g : A -> bool) (l : list A),
  existsb f (filter (fun x => negb (g x)) l) =
  existsb (fun x => f x && negb (g x)) l.
Proof.
  intros A f g l; induction l as [|x l IH]; [reflexivity|].
  cbn [filter existsb]; destruct (g x); cbn [negb existsb];
    rewrite IH; [rewrite andb_false_r | rewrite andb_true_r]; reflexivity.
Qed.

(** Roles change through admins only: no statement of a session without
    the admin role, whatever it is, changes a result of [has_role]. *)
Theorem roles_change_through_admins_only : forall db uid st p r,
  has_role db uid admin = false ->
  has_role (fst (execute uid st db)) p r = has_role db p r.
Proof.
  intros db uid st p r Hadmin.
  apply has_role_user_roles.
  destruct st; cbn [execute].
  - unfold insert_resource.
    repeat match goal with |- context [if ?b then _ else _] => destruct b end;
      reflexivity.
  - apply update_resource_user_roles.
  - reflexivity.
  - apply insert_resource_view_resources.
  - unfold delete_category.
    destruct (authenticated uid && teacher_or_admin db uid && category_exists db cid);
      reflexivity.
  - unfold insert_user_role; rewrite Hadmin, andb_false_r; reflexivity.
  - unfold delete_user_role; rewrite Hadmin, andb_false_r; reflexivity.
  - unfold storage_upload.
    repeat match goal with |- context [if ?b then _ else _] => destruct b end;
      reflexivity.
Qed.

Lemma roles_change_through_admins_only_witness :
  has_role (fst (execute (Some sam) (st_insert_user_role "a9" 500 sam admin) school))
           (Some sam) admin = false.
Proof.
  rewrite (roles_change_through_admins_only school (Some sam)
             (st_insert_user_role "a9" 500 sam admin) (Some sam) admin eq_refl).
  reflexivity.
Defined.

(** An admin's grant of a role to an existing user makes [has_role] true
    for that user and role and changes it for no other pair; granting a
    role the user already holds is refused and changes nothing; an admin's
    revocation makes [has_role] false for the pair and changes it for no
    other. *)
Theorem grant_and_revoke : forall db a new_id now p r,
  has_role db (Some a) admin = true ->
  user_exists db p = true ->
  existsb (fun row => (ur_id row =? new_id)%string) (user_roles db) = false ->
  (has_role db (Some p) r = false ->
   has_role (fst (insert_user_role db (Some a) new_id now p r)) (Some p) r = true /\
   forall p' r', (p', r') <> (p, r) ->
     has_role (fst (insert_user_role db (Some a) new_id now p r)) (Some p') r' =
     has_role db (Some p') r') /\
  (has_role db (Some p) r = true ->
   fst (insert_user_role db (Some a) new_id now p r) = db /\
   snd (insert_user_role db (Some a) new_id now p r) <> None) /\
  has_role (fst (delete_user_role db (Some a) p r)) (Some p) r = false /\
  (forall p' r', (p', r') <> (p, r) ->
     has_role (fst (delete_user_role db (Some a) p r)) (Some p') r' =
     has_role db (Some p') r').
Proof.
  intros db a new_id now p r Hadmin Huser Hfresh.
  split; [|split; [|split]].
  - intros Hnot; rewrite has_role_Some in Hnot.
    unfold insert_user_role; rewrite Hadmin, Hfresh, Hnot, Huser.
    cbn [authenticated andb negb fst]; split.
    + rewrite has_role_Some; cbn [user_roles with_user_roles].
      rewrite existsb_app; cbn [existsb ur_user_id ur_role].
      rewrite String.eqb_refl, (proj2 (app_role_eqb_eq r r) eq_refl).
      apply orb_true_r.
    + intros p' r' Hne; rewrite !has_role_Some; cbn [user_roles with_user_roles].
      rewrite existsb_app; cbn [existsb ur_user_id ur_role].
      destruct (String.eqb_spec p p') as [Hp|Hp]; cbn [andb];
        [|rewrite !orb_false_r; reflexivity].
      destruct (app_role_eqb r r') eqn:Hr; [|rewrite !orb_false_r; reflexivity].
      apply app_role_eqb_eq in Hr; exfalso; apply Hne; congruence.
  - intros Hhas; rewrite has_role_Some in Hhas.
    unfold insert_user_role; rewrite Hadmin, Hfresh, Hhas.
    cbn [authenticated andb negb fst snd]; split; [reflexivity | discriminate].
  - unfold delete_user_role; rewrite Hadmin; cbn [authenticated andb fst].
    rewrite has_role_Some; cbn [user_roles with_user_roles].
    rewrite existsb_filter_out; clear Hfresh.
    induction (user_roles db) as [|row l IH]; [reflexivity|].
    cbn [existsb]; rewrite IH, orb_false_r.
    destruct ((ur_user_id row =? p)%string && app_role_eqb (ur_role row) r); reflexivity.
  - intros p' r' Hne.
    unfold delete_user_role; rewrite Hadmin; cbn [authenticated andb fst].
    rewrite !has_role_Some; cbn [user_roles with_user_roles].
    rewrite existsb_filter_out; clear Hfresh.
    induction (user_roles db) as [|row l IH]; [reflexivity|].
    cbn [existsb]; rewrite IH; f_equal.
    destruct (String.eqb_spec (ur_user_id row) p') as [Hp'|Hp']; cbn [andb]; [|reflexivity].
    destruct (app_role_eqb (ur_role row) r') eqn:Hr'; [|reflexivity].
    destruct (String.eqb_spec (ur_user_id row) p) as [Hp|Hp]; cbn [andb negb]; [|reflexivity].
    destruct (app_role_eqb (ur_role row) r) eqn:Hr; [|reflexivity].
    apply app_role_eqb_eq in Hr, Hr'; exfalso; apply Hne; congruence.
Qed.

Lemma grant_and_revoke_witness :
  has_role (fst (insert_user_role school (Some ada) "a9" 500 sam teacher))
           (Some sam) teacher = true /\
  has_role (fst (insert_user_role school (Some ada) "a9" 500 sam teacher))
           (Some sam) admin = false /\
  fst (insert_user_role school (Some ada) "a9" 500 tina teacher) = school /\
  has_role (fst (delete_user_role school (Some ada) tina teacher))
           (Some tina) teacher = false.
Proof.
  destruct (grant_and_revoke school ada "a9" 500 sam teacher eq_refl eq_refl eq_refl)
    as [Hgrant _].
  destruct (grant_and_revoke school ada "a9" 500 tina teacher eq_refl eq_refl eq_refl)
    as [_ [Hdup [Hrevoke _]]].
  destruct (Hgrant eq_refl) as [Hyes Hothers].
  split; [exact Hyes|]; split; [|split; [exact (proj1 (Hdup eq_refl)) | exact Hrevoke]].
  rewrite (Hothers sam admin); [reflexivity | discriminate].
Defined.

(** ** Keys and references *)

Lemma NoDup_map_filter : forall (A B : Type) (f : A -> B) (p : A -> bool) (l : list A),
  NoDup (map f l) -> NoDup (map f (filter p l)).
Proof.
  intros A B f p l; induction l as [|x l IH]; intros H; [constructor|].
  cbn [map] in H; inversion H as [|? ? Hx Hl]; subst.
  cbn [filter]; destruct (p x); [|apply IH; exact Hl].
  cbn [map]; constructor; [|apply IH; exact Hl].
  intros Hin; apply Hx.
  apply in_map_iff in Hin; destruct Hin as [y [Hy Hin]].
  apply filter_In in Hin; apply in_map_iff; exists y; split; [exact Hy | apply Hin].
Qed.

Lemma NoDup_snoc : forall (A : Type) (l : list A) (x : A),
  NoDup l -> ~ In x l -> NoDup (l ++ [x]).
Proof.
  intros A l x Hl Hx.
  apply (Permutation_NoDup (l := x :: l)); [|constructor; assumption].
  apply Permutation_cons_append.
Qed.

Lemma existsb_eqb_false : forall (A : Type) (key : A -> string) (k : string) (l : list A),
  existsb (fun x => (key x =? k)%string) l = false -> ~ In k (map key l).
Proof.
  intros A key k l H Hin; apply in_map_iff in Hin; destruct Hin as [x [Hk Hx]].
  assert (Ht : existsb (fun x => (key x =? k)%string) l = true).
  { apply existsb_exists; exists x; split; [exact Hx | apply String.eqb_eq; exact Hk]. }
  congruence.
Qed.

Lemma existsb_eqb_true : forall (A : Type) (key : A -> string) (k : string) (l : list A),
  existsb (fun x => (key x =? k)%string) l = true -> In k (map key l).
Proof.
  intros A key k l H; apply existsb_exists in H; destruct H as [x [Hx Hk]].
  apply String.eqb_eq in Hk; apply in_map_iff; exists x; split; assumption.
Qed.

Lemma user_exists_In : forall db u, user_exists db u = true -> In u (auth_users db).
Proof.
  intros db u H; apply (existsb_eqb_true _ (fun a => a)) in H.
  rewrite map_id in H; exact H.
Qed.

Lemma insert_resource_integrity : forall db uid new_id now p,
  integrity db -> integrity (fst (insert_resource db uid new_id now p)).
Proof.
  intros db uid new_id now p Hi; unfold insert_resource.
  destruct (negb (authenticated uid && teacher_or_admin db uid)); [exact Hi|].
  destruct (resource_exists db new_id) eqn:Hfresh; [exact Hi|].
  destruct (match ins_category_id p with
            | Some cid => negb (category_exists db cid)
            | None => false
            end) eqn:Hcat; [exact Hi|].
  destruct (user_exists db (ins_uploaded_by p)) eqn:Huser; cbn [negb fst]; [|exact Hi].
  destruct Hi as [Hrp Hcp Hvp Hup Huu Hufk Hrfk Hcfk Hvfk Hvu].
  constructor; cbn [resources categories resource_views user_roles auth_users
                    with_resources]; try assumption.
  - rewrite map_app; apply NoDup_snoc; [exact Hrp|].
    apply existsb_eqb_false; exact Hfresh.
  - intros r Hr; apply in_app_or in Hr; destruct Hr as [Hr|[<-|[]]]; [exact (Hrfk r Hr)|].
    apply user_exists_In; exact Huser.
  - intros r cid Hr Hc; apply in_app_or in Hr; destruct Hr as [Hr|[<-|[]]];
      [exact (Hcfk r cid Hr Hc)|].
    cbn [new_resource_row category_id] in Hc; rewrite Hc in Hcat.
    apply negb_false_iff in Hcat; apply existsb_eqb_true; exact Hcat.
  - intros v Hv; rewrite map_app; apply in_or_app; left; exact (Hvfk v Hv).
Qed.

Lemma update_resource_integrity : forall db uid now rid p,
  integrity db -> integrity (fst (update_resource db uid now rid p)).
Proof.
  intros db uid now rid p Hi; unfold update_resource.
  destruct (int4_ok (patch_value p)); cbn [negb fst]; [|exact Hi].
  destruct Hi as [Hrp Hcp Hvp Hup Huu Hufk Hrfk Hcfk Hvfk Hvu].
  set (f := fun r => if (id r =? rid)%string && can_update_resource db uid r
                     then update_updated_at_column now (apply_patch p r) else r).
  assert (Hid : forall r, id (f r) = id r /\ uploaded_by (f r) = uploaded_by r /\
                          category_id (f r) = category_id r).
  { intros r; unfold f.
    destruct ((id r =? rid)%string && can_update_resource db uid r);
      [destruct p|]; repeat split. }
  assert (Hids : map id (map f (resources db)) = map id (resources db)).
  { rewrite map_map; apply map_ext; intros r; apply Hid. }
  constructor; cbn [resources categories resource_views user_roles auth_users
                    with_resources]; try assumption.
  - rewrite Hids; exact Hrp.
  - intros r Hr; apply in_map_iff in Hr; destruct Hr as [r0 [<- Hr0]].
    destruct (Hid r0) as [_ [-> _]]; exact (Hrfk r0 Hr0).
  - intros r cid Hr Hc; apply in_map_iff in Hr; destruct Hr as [r0 [<- Hr0]].
    destruct (Hid r0) as [_ [_ He]]; rewrite He in Hc; exact (Hcfk r0 cid Hr0 Hc).
  - intros v Hv; rewrite Hids; exact (Hvfk v Hv).
Qed.

Lemma delete_resource_integrity : forall db uid rid,
  integrity db -> integrity (fst (delete_resource db uid rid)).
Proof.
  intros db uid rid Hi; unfold delete_resource; cbn [fst].
  destruct Hi as [Hrp Hcp Hvp Hup Huu Hufk Hrfk Hcfk Hvfk Hvu].
  constructor; cbn [resources categories resource_views user_roles auth_users
                    with_resources with_resource_views]; try assumption.
  - apply NoDup_map_filter; exact Hrp.
  - apply NoDup_map_filter; exact Hvp.
  - intros r Hr; apply filter_In in Hr; apply Hrfk, Hr.
  - intros r cid Hr Hc; apply filter_In in Hr; exact (Hcfk r cid (proj1 Hr) Hc).
  - intros v Hv; apply filter_In in Hv; destruct Hv as [Hv Hkeep].
    apply negb_true_iff in Hkeep.
    pose proof (Hvfk v Hv) as Href; apply in_map_iff in Href.
    destruct Href as [r [Hid Hr]].
    apply in_map_iff; exists r; split; [exact Hid|].
    apply filter_In; split; [exact Hr|].
    destruct ((id r =? rid)%string && can_delete_resource db uid r) eqn:Hdel;
      [|reflexivity].
    exfalso.
    assert (Ht : existsb (fun r0 => (id r0 =? rid)%string &&
                                    can_delete_resource db uid r0 &&
                                    (id r0 =? rv_resource_id v)%string)
                         (resources db) = true).
    { apply existsb_exists; exists r; split; [exact Hr|].
      rewrite Hdel, Hid, String.eqb_refl; reflexivity. }
    congruence.
  - intros v u Hv Hu; apply filter_In in Hv; exact (Hvu v u (proj1 Hv) Hu).
Qed.

Lemma insert_resource_view_integrity : forall db uid new_id now resource_id user_id,
  integrity db -> session_of_user db uid ->
  integrity (fst (insert_resource_view db uid new_id now resource_id user_id)).
Proof.
  intros db uid new_id now resource_id user_id Hi Hsession; unfold insert_resource_view.
  destruct (authenticated uid &&
            match user_id with Some u => is_uid uid u | None => false end) eqn:Hpol;
    cbn [negb]; [|exact Hi].
  destruct (existsb (fun v => (rv_id v =? new_id)%string) (resource_views db)) eqn:Hfresh;
    [exact Hi|].
  destruct (resource_exists db resource_id) eqn:Hex; cbn [negb fst]; [|exact Hi].
  destruct Hi as [Hrp Hcp Hvp Hup Huu Hufk Hrfk Hcfk Hvfk Hvu].
  constructor; cbn [resources categories resource_views user_roles auth_users
                    with_resource_views]; try assumption.
  - rewrite map_app; apply NoDup_snoc; [exact Hvp|].
    apply existsb_eqb_false; exact Hfresh.
  - intros v Hv; apply in_app_or in Hv; destruct Hv as [Hv|[<-|[]]]; [exact (Hvfk v Hv)|].
    apply existsb_eqb_true; exact Hex.
  - intros v u Hv Hu; apply in_app_or in Hv; destruct Hv as [Hv|[<-|[]]];
      [exact (Hvu v u Hv Hu)|].
    cbn [rv_user_id] in Hu; subst user_id.
    apply andb_true_iff in Hpol; destruct Hpol as [_ Hpol].
    destruct uid as [a|]; [|discriminate Hpol].
    apply String.eqb_eq in Hpol; subst a; apply Hsession; reflexivity.
Qed.

Lemma delete_category_integrity : forall db uid now cid,
  integrity db -> integrity (fst (delete_category db uid now cid)).
Proof.
  intros db uid now cid Hi; unfold delete_category.
  destruct (authenticated uid && teacher_or_admin db uid && category_exists db cid);
    cbn [fst]; [|exact Hi].
  destruct Hi as [Hrp Hcp Hvp Hup Huu Hufk Hrfk Hcfk Hvfk Hvu].
  set (f := fun r => match category_id r with
                     | Some c => if (c =? cid)%string
                                 then update_updated_at_column now (set_category_id None r)
                                 else r
                     | None => r
                     end).
  assert (Hid : forall r, id (f r) = id r /\ uploaded_by (f r) = uploaded_by r /\
                          (forall c, category_id (f r) = Some c ->
                                     category_id r = Some c /\ c <> cid)).
  { intros r; unfold f; destruct (category_id r) as [c|] eqn:Hc.
    - destruct (String.eqb_spec c cid) as [He|Hne];
        (split; [reflexivity|]; split; [reflexivity|]); intros c' Hc'.
      + discriminate Hc'.
      + rewrite Hc in Hc'; injection Hc' as <-; split; [reflexivity | exact Hne].
    - split; [reflexivity|]; split; [reflexivity|].
      intros c' Hc'; rewrite Hc in Hc'; discriminate Hc'. }
  assert (Hids : map id (map f (resources db)) = map id (resources db)).
  { rewrite map_map; apply map_ext; intros r; apply Hid. }
  constructor; cbn [resources categories resource_views user_roles auth_users
                    with_resources with_categories]; try assumption.
  - rewrite Hids; exact Hrp.
  - apply NoDup_map_filter; exact Hcp.
  - intros r Hr; apply in_map_iff in Hr; destruct Hr as [r0 [<- Hr0]].
    destruct (Hid r0) as [_ [-> _]]; exact (Hrfk r0 Hr0).
  - intros r c Hr Hc; apply in_map_iff in Hr; destruct Hr as [r0 [<- Hr0]].
    destruct (Hid r0) as [_ [_ Hcat]]; destruct (Hcat c Hc) as [Hc0 Hne].
    pose proof (Hcfk r0 c Hr0 Hc0) as Hin; apply in_map_iff in Hin.
    destruct Hin as [cat [Hcid Hcat_in]].
    apply in_map_iff; exists cat; split; [exact Hcid|].
    apply filter_In; split; [exact Hcat_in|].
    apply negb_true_iff, String.eqb_neq; congruence.
  - intros v Hv; rewrite Hids; exact (Hvfk v Hv).
Qed.

Lemma insert_user_role_integrity : forall db uid new_id now user_id role,
  integrity db -> integrity (fst (insert_user_role db uid new_id now user_id role)).
Proof.
  intros db uid new_id now user_id role Hi; unfold insert_user_role.
  destruct (negb (authenticated uid && has_role db uid admin)); [exact Hi|].
  destruct (existsb (fun row => (ur_id row =? new_id)%string) (user_roles db)) eqn:Hfresh;
    [exact Hi|].
  destruct (existsb (fun row => (ur_user_id row =? user_id)%string &&
                                app_role_eqb (ur_role row) role) (user_roles db)) eqn:Hpair;
    [exact Hi|].
  destruct (user_exists db user_id) eqn:Huser; cbn [negb fst]; [|exact Hi].
  destruct Hi as [Hrp Hcp Hvp Hup Huu Hufk Hrfk Hcfk Hvfk Hvu].
  constructor; cbn [resources categories resource_views user_roles auth_users
                    with_user_roles]; try assumption.
  - rewrite map_app; apply NoDup_snoc; [exact Hup|].
    apply existsb_eqb_false; exact Hfresh.
  - rewrite map_app; apply NoDup_snoc; [exact Huu|].
    cbn [ur_user_id ur_role]; intros Hin; apply in_map_iff in Hin.
    destruct Hin as [row [Heq Hrow]]; injection Heq as Hu Hr.
    assert (Ht : existsb (fun row => (ur_user_id row =? user_id)%string &&
                                     app_role_eqb (ur_role row) role) (user_roles db) = true).
    { apply existsb_exists; exists row; split; [exact Hrow|].
      rewrite Hu, Hr, String.eqb_refl; apply app_role_eqb_eq; reflexivity. }
    congruence.
  - intros row Hrow; cbn [user_roles auth_users with_user_roles] in *.
    apply in_app_or in Hrow; destruct Hrow as [Hrow|[<-|[]]]; [exact (Hufk row Hrow)|].
    apply user_exists_In; exact Huser.
Qed.

Lemma delete_user_role_integrity : forall db uid user_id role,
  integrity db -> integrity (fst (delete_user_role db uid user_id role)).
Proof.
  intros db uid user_id role Hi; unfold delete_user_role.
  destruct (authenticated uid && has_role db uid admin); cbn [fst]; [|exact Hi].
  destruct Hi as [Hrp Hcp Hvp Hup Huu Hufk Hrfk Hcfk Hvfk Hvu].
  constructor; cbn [resources categories resource_views user_roles auth_users
                    with_user_roles]; try assumption.
  - apply NoDup_map_filter; exact Hup.
  - apply NoDup_map_filter; exact Huu.
  - intros row Hrow; cbn [user_roles auth_users with_user_roles] in *.
    apply filter_In in Hrow; apply Hufk, Hrow.
Qed.

Lemma storage_upload_integrity : forall db uid bucket path,
  integrity db -> integrity (fst (storage_upload db uid bucket path)).
Proof.
  intros db uid bucket path Hi; unfold storage_upload.
  repeat match goal with |- context [if ?b then _ else _] => destruct b end;
    cbn [fst]; try exact Hi.
  destruct Hi; constructor; assumption.
Qed.

(** Every statement of a session, accepted or refused, keeps the keys and
    references of the schema: primary keys and the role pair stay unique,
    and no resource, view event or role row is left pointing at a missing
    user, category or resource, deletions included (a deleted category is
    nulled out of its resources, a deleted resource takes its view events
    with it). *)
Theorem statements_keep_integrity : forall db uid st,
  integrity db -> session_of_user db uid ->
  integrity (fst (execute uid st db)).
Proof.
  intros db uid st Hi Hsession; destruct st; cbn [execute].
  - apply insert_resource_integrity; exact Hi.
  - apply update_resource_integrity; exact Hi.
  - apply delete_resource_integrity; exact Hi.
  - apply insert_resource_view_integrity; assumption.
  - apply delete_category_integrity; exact Hi.
  - apply insert_user_role_integrity; exact Hi.
  - apply delete_user_role_integrity; exact Hi.
  - apply storage_upload_integrity; exact Hi.
Qed.

Lemma school_integrity : integrity school.
Proof.
  constructor; cbn [school resources categories resource_views user_roles auth_users map
                    id cat_id rv_id ur_id ur_user_id ur_role algebra].
  - repeat constructor; intros [].
  - constructor; [intros [H|[]]; discriminate H | repeat constructor; intros []].
  - constructor.
  - constructor; [intros [H|[H|[]]]; discriminate H|].
    constructor; [intros [H|[]]; discriminate H | repeat constructor; intros []].
  - constructor; [intros [H|[H|[]]]; discriminate H|].
    constructor; [intros [H|[]]; discriminate H | repeat constructor; intros []].
  - intros row [<-|[<-|[<-|[]]]]; cbn; auto.
  - intros r [<-|[]]; cbn; auto.
  - intros r cid [<-|[]] H; injection H as <-; left; reflexivity.
  - intros v [].
  - intros v u [].
Qed.

Lemma statements_keep_integrity_witness :
  integrity (fst (execute (Some tina) (st_delete_category 500 "c1") school)) /\
  integrity (fst (execute (Some tina) (st_delete_resource "r1") school)).
Proof.
  assert (Hs : session_of_user school (Some tina)).
  { intros u H; injection H as <-; left; reflexivity. }
  split; apply statements_keep_integrity; try exact school_integrity; exact Hs.
Defined.

(** ** Resolving the category of a resource *)

(** With the keys and references of the schema in place, the per-row
    category lookup of the dashboard never comes back empty for a resource
    that has a category reference: the listing carries the name of the
    referenced category, and a resource carries no name exactly when it has
    no category reference. *)
Theorem category_lookup_resolves : forall db u r,
  integrity db -> In r (resources db) ->
  (forall cid, category_id r = Some cid ->
     exists cat, In cat (categories db) /\ cat_id cat = cid /\
                 res_categories (enrich db (Some u) r) = Some (cat_name cat)) /\
  (res_categories (enrich db (Some u) r) = None <-> category_id r = None).
Proof.
  intros db u r Hi Hr.
  assert (Hres : forall cid, category_id r = Some cid ->
            exists cat, In cat (categories db) /\ cat_id cat = cid /\
                        res_categories (enrich db (Some u) r) = Some (cat_name cat)).
  { intros cid Hc.
    pose proof (resources_category_id_fkey db Hi r cid Hr Hc) as Hin.
    apply in_map_iff in Hin; destruct Hin as [cat [Hid Hcat]].
    exists cat; split; [exact Hcat|]; split; [exact Hid|].
    unfold enrich; cbn [res_categories]; rewrite Hc.
    unfold select_category_name; cbn [authenticated].
    rewrite <- Hid, (filter_unique_key _ cat_id _ cat (categories_pkey db Hi) Hcat).
    reflexivity. }
  split; [exact Hres|]; split.
  - intros Hnone; destruct (category_id r) as [cid|] eqn:Hc; [|reflexivity].
    destruct (Hres cid eq_refl) as [cat [_ [_ Hsome]]]; congruence.
  - intros Hnone; unfold enrich; cbn [res_categories]; rewrite Hnone; reflexivity.
Qed.

Lemma category_lookup_resolves_witness :
  res_categories (enrich school (Some sam) algebra) = Some "Mathematics".
Proof.
  destruct (category_lookup_resolves school sam algebra school_integrity
              (or_introl eq_refl)) as [H _].
  destruct (H "c1" eq_refl) as [cat [Hin [Hid Hname]]].
  rewrite Hname; f_equal.
  destruct Hin as [<-|[<-|[]]]; [reflexivity | discriminate Hid].
Defined.
